(** * Cell-reconciliation pipeline: chunked reconciler and patch applier

    A shallow embedding of the parts of [excel_processor.py] and
    [final_json_from_outputFolder_to_xlsx_filling.py] that carry the
    pipeline's invariants: row counting, chunk partitioning, the chunked
    dispatch loop, merged-range geometry, patch application with value
    coercion, and the sheet-name convention that pairs patch sets with
    worksheets.

    Conventions of the embedding.
    - Python [int] is [Z]; [//] is [Z.div] (both round towards minus
      infinity) and a zero divisor is modelled explicitly as the raised
      exception.  The interpreter's cap on the length of a decimal text
      given to [int] is not modelled.
    - Python [str] is [string]; the text is read as ASCII, so the Unicode
      classes behind [str.isdigit], [str.strip] and [\d] are the ASCII
      ones.
    - A float is carried as the decimal its literal denotes; rounding to
      binary64 and overflow are not modelled.
    - A [dict] keyed by coordinates is a [gmap (Z * Z) _].
    - An exception that the source catches is the [None] of an [option].
    - Files are given by their content: the rendered table and the source
      text are strings, the output folder is a function from file names.
      JSON documents are given decoded, as lists of patch objects whose
      three keys may be absent.
    - The spreadsheet library is modelled as far as the applier uses it:
      column letters, reading an address, assigning to a cell (with the
      read-only subordinate cells of merged ranges and the check of a
      stored text). *)

From Stdlib Require Import ZArith List String Ascii Bool Lia.
From Stdlib Require Import DecimalString DecimalN.
From stdpp Require Import gmap strings list list_numbers.

Local Open Scope Z_scope.

(** ** Python string primitives *)

Module Py.

Definition dquote : ascii := "034"%char.

Definition is_digit (c : ascii) : bool :=
  let n := N_of_ascii c in ((48 <=? n) && (n <=? 57))%N.

(** [str.isspace] on ASCII: tab, LF, VT, FF, CR, the four separators
    FS GS RS US, and space. *)
Definition is_space (c : ascii) : bool :=
  let n := N_of_ascii c in
  (((9 <=? n) && (n <=? 13)) || ((28 <=? n) && (n <=? 32)))%N.

Fixpoint all_chars (p : ascii -> bool) (s : string) : bool :=
  match s with
  | EmptyString => true
  | String c r => p c && all_chars p r
  end.

(** [s.isdigit()]: non-empty and every character a digit. *)
Definition isdigit (s : string) : bool :=
  match s with
  | EmptyString => false
  | _ => all_chars is_digit s
  end.

Fixpoint lstrip_by (p : ascii -> bool) (s : string) : string :=
  match s with
  | EmptyString => EmptyString
  | String c r => if p c then lstrip_by p r else s
  end.

Fixpoint rstrip_by (p : ascii -> bool) (s : string) : string :=
  match s with
  | EmptyString => EmptyString
  | String c r =>
      match rstrip_by p r with
      | EmptyString => if p c then EmptyString else String c EmptyString
      | r' => String c r'
      end
  end.

(** [s.strip()] and [s.strip(chars)] for a one-character [chars]. *)
Definition strip_by (p : ascii -> bool) (s : string) : string :=
  rstrip_by p (lstrip_by p s).

Definition strip (s : string) : string := strip_by is_space s.

Definition strip_char (c : ascii) (s : string) : string :=
  strip_by (Ascii.eqb c) s.

(** [s.replace(old, new)] for a non-empty [old]: scan from the left; where
    [old] starts, emit [new] and jump over the occurrence.  The jump is the
    counter [skip], which keeps the recursion structural. *)
Fixpoint replace_from (old new : string) (skip : nat) (s : string) : string :=
  match s with
  | EmptyString => EmptyString
  | String c r =>
      match skip with
      | S k => replace_from old new k r
      | O =>
          if String.prefix old s
          then new +:+ replace_from old new (Nat.pred (String.length old)) r
          else String c (replace_from old new O r)
      end
  end.

Definition replace (old new s : string) : string := replace_from old new O s.

(** [old in s] *)
Fixpoint contains (old s : string) : bool :=
  String.prefix old s ||
  match s with
  | EmptyString => false
  | String _ r => contains old r
  end.

(** The value of a string of decimal digits, as [int] reads it. *)
Definition digits_value (s : string) : Z :=
  match NilEmpty.uint_of_string s with
  | Some d => Z.of_N (N.of_uint d)
  | None => 0
  end.

(** [str(n)] for [n >= 0]. *)
Definition str_of_nonneg (n : Z) : string :=
  NilEmpty.string_of_uint (N.to_uint (Z.to_N n)).

(** [range(n)] and [range(a, b)] *)
Definition range (n : Z) : list Z := seqZ 0 n.
Definition range2 (a b : Z) : list Z := seqZ a (b - a).

(** Scalars: what a JSON value decodes to and what a cell holds.  A
    float is carried as the decimal its literal denotes,
    [mantissa * 10 ^ exp10] with a sign; rounding to binary64 is left
    out. *)
Inductive PyFloat :=
| FDec (negative : bool) (mantissa : N) (exp10 : Z)
| FInf (negative : bool)
| FNan.

Inductive Scalar :=
| SNone
| SInt (z : Z)
| SFloat (f : PyFloat)
| SStr (s : string).

(** The longest prefix of digits, and what follows it. *)
Fixpoint span_digits (s : string) : string * string :=
  match s with
  | EmptyString => (EmptyString, EmptyString)
  | String ch r =>
      if is_digit ch
      then let '(d, rest) := span_digits r in (String ch d, rest)
      else (EmptyString, s)
  end.

(** [str(n)] *)
Definition str (n : Z) : string :=
  if n <? 0 then String "-" (str_of_nonneg (- n)) else str_of_nonneg n.

(** Underscores in a numeric text are allowed only between two digits;
    the text without them, or [None] where one is misplaced.  [prev] is
    the character just read. *)
Fixpoint drop_underscores (prev : ascii) (s : string) : option string :=
  match s with
  | EmptyString => if Ascii.eqb prev "_" then None else Some EmptyString
  | String ch r =>
      if Ascii.eqb ch "_" then
        if is_digit prev then drop_underscores ch r else None
      else if Ascii.eqb prev "_" && negb (is_digit ch) then None
      else String ch <$> drop_underscores ch r
  end.

Definition split_sign (s : string) : bool * string :=
  match s with
  | String ch r =>
      if Ascii.eqb ch "-" then (true, r)
      else if Ascii.eqb ch "+" then (false, r)
      else (false, s)
  | EmptyString => (false, s)
  end.

Definition signed (negative : bool) (n : Z) : Z := if negative then - n else n.

(** [int(s)] in base ten: surrounding whitespace, a sign, digits with
    single underscores between them.  [None] is [ValueError]. *)
Definition int (s : string) : option Z :=
  let '(negative, body) := split_sign (strip s) in
  match drop_underscores "000" body with
  | Some ds => if isdigit ds then Some (signed negative (digits_value ds)) else None
  | None => None
  end.

Definition lower_char (ch : ascii) : ascii :=
  let n := N_of_ascii ch in
  if ((65 <=? n) && (n <=? 90))%N then ascii_of_N (n + 32) else ch.

Fixpoint lower (s : string) : string :=
  match s with
  | EmptyString => EmptyString
  | String ch r => String (lower_char ch) (lower r)
  end.

Definition parse_exponent (s : string) : option Z :=
  let '(negative, ds) := split_sign s in
  if isdigit ds then Some (signed negative (digits_value ds)) else None.

(** A decimal literal: digits, an optional point and digits, at least one
    digit in all, an optional exponent. *)
Definition parse_decimal (negative : bool) (s : string) : option PyFloat :=
  let '(ip, rest) := span_digits s in
  let '(fp, rest) :=
    match rest with
    | String "." r => span_digits r
    | _ => (EmptyString, rest)
    end in
  if String.eqb (ip +:+ fp) EmptyString then None
  else
    let mantissa := Z.to_N (digits_value (ip +:+ fp)) in
    let scale := - Z.of_nat (String.length fp) in
    match rest with
    | EmptyString => Some (FDec negative mantissa scale)
    | String ch r =>
        if Ascii.eqb (lower_char ch) "e" then
          e ← parse_exponent r; Some (FDec negative mantissa (e + scale))
        else None
    end.

(** [float(s)]: surrounding whitespace, underscores between digits, a
    sign, then [inf], [infinity] or [nan] in any case, or a decimal
    literal.  [None] is [ValueError]. *)
Definition float (s : string) : option PyFloat :=
  t ← drop_underscores "000" (strip s);
  let '(negative, body) := split_sign t in
  let word := lower body in
  if String.eqb word "inf" || String.eqb word "infinity" then Some (FInf negative)
  else if String.eqb word "nan" then Some FNan
  else parse_decimal negative body.

End Py.

(** ** ChunkedReconciler: the row windows *)

Module Chunks.

(** [num_chunks = (total_rows + chunk_size - 1) // chunk_size] *)
Definition num_chunks (total_rows chunk_size : Z) : Z :=
  (total_rows + chunk_size - 1) / chunk_size.

(** [row_start] and [row_end] of the window numbered [chunk_num]. *)
Definition row_start (chunk_size chunk_num : Z) : Z :=
  chunk_num * chunk_size + 1.

Definition row_end (total_rows chunk_size chunk_num : Z) : Z :=
  Z.min ((chunk_num + 1) * chunk_size) total_rows.

Definition window (total_rows chunk_size chunk_num : Z) : Z * Z :=
  (row_start chunk_size chunk_num, row_end total_rows chunk_size chunk_num).

(** The windows in the order the [for chunk_num in range(num_chunks)] loop
    visits them. *)
Definition chunk_windows (total_rows chunk_size : Z) : list (Z * Z) :=
  window total_rows chunk_size <$> Py.range (num_chunks total_rows chunk_size).

(** The rows a window [(a, b)] asks for: [a, a+1, ..., b]. *)
Definition rows_of (w : Z * Z) : list Z := seqZ (fst w) (snd w - fst w + 1).

End Chunks.

(** ** ChunkedReconciler: counting rows and dispatching windows *)

Module Reconciler.

(** *** [count_html_rows]

    The pattern is seven fixed characters ([id=], a double quote, [row]),
    then [(\d+)], then a closing double quote.  The run of digits is
    greedy, and since the character after it must be the quote, giving
    digits back never helps: the match takes the longest run. *)
Definition row_prefix : string := "id=" +:+ String Py.dquote "row".

Fixpoint drop (n : nat) (s : string) : string :=
  match n, s with
  | O, _ => s
  | S k, EmptyString => EmptyString
  | S k, String _ r => drop k r
  end.

(** The group captured when the pattern matches at the start of [s]. *)
Definition match_row_marker (s : string) : option string :=
  if String.prefix row_prefix s then
    match Py.span_digits (drop 7 s) with
    | (String d0 d, String q _) =>
        if Ascii.eqb q Py.dquote then Some (String d0 d) else None
    | _ => None
    end
  else None.

(** [re.findall(row_pattern, html_content)]: matches from left to right,
    the search resuming where the previous match ended. *)
Fixpoint findall_from (skip : nat) (s : string) : list string :=
  match s with
  | EmptyString => []
  | String _ r =>
      match skip with
      | S k => findall_from k r
      | O =>
          match match_row_marker s with
          | Some d => d :: findall_from (7 + String.length d) r
          | None => findall_from O r
          end
      end
  end.

Definition findall_rows (html_content : string) : list string :=
  findall_from O html_content.

(** [max(row_numbers)] on a non-empty list. *)
Definition py_max (x : Z) (l : list Z) : Z := fold_left Z.max l x.

Definition count_html_rows (html_content : string) : Z :=
  let row_matches := findall_rows html_content in
  match Py.digits_value <$> row_matches with
  | [] => 0
  | n :: row_numbers => py_max n row_numbers
  end.

(** The text of the marker of the row whose number is written [d],
    followed by [post]. *)
Definition marker_then (d post : string) : string :=
  row_prefix +:+ (d +:+ String Py.dquote post).

(** [html] contains a row marker with the digits [d]. *)
Definition contains_marker (html d : string) : Prop :=
  Py.isdigit d = true /\
  exists pre post, html = pre +:+ marker_then d post.

(** The first [n] characters of [s] hold no [i]: no marker starts there. *)
Fixpoint no_start (n : nat) (s : string) : Prop :=
  match n, s with
  | S k, String a r => a <> "i"%char /\ no_start k r
  | _, _ => True
  end.

(** *** Patches as the reasoning service returns them

    A patch object with the three keys the pipeline reads; [None] is an
    absent key. *)
Record CellPatch := mkPatch {
  cell_reference : option Py.Scalar;
  value : option Py.Scalar;
  context : option Py.Scalar
}.

(** [mapping['cell_reference']], [mapping['value']], [mapping['context']]
    in the summary writer raise [KeyError] on an absent key. *)
Definition has_summary_keys (p : CellPatch) : bool :=
  match cell_reference p, value p, context p with
  | Some _, Some _, Some _ => true
  | _, _, _ => false
  end.

(** [re.search(r'\[.*\]', content, re.DOTALL)]: from the first opening
    bracket to the last closing bracket after it. *)
Fixpoint upto_last_close (s : string) : option string :=
  match s with
  | EmptyString => None
  | String ch r =>
      match upto_last_close r with
      | Some t => Some (String ch t)
      | None => if Ascii.eqb ch "]" then Some (String ch EmptyString) else None
      end
  end.

Fixpoint search_array (s : string) : option string :=
  match s with
  | EmptyString => None
  | String ch r =>
      if Ascii.eqb ch "[" then upto_last_close s else search_array r
  end.

Section Dispatch.
(** The reasoning collaborator: the prompt is built from the markup, the
    source text and the row range; [None] is a call that raises. *)
Variable client : string -> string -> Z -> Z -> option string.
(** [json.loads] to a list of patch objects; [None] is a
    [JSONDecodeError] (or a decoded value the CSV writer rejects). *)
Variable json_loads : string -> option (list CellPatch).

(** [analyze_html_table_with_openai]: the returned flag, and the chunk's
    JSON file when one is written. *)
Definition analyze_html_table_with_openai
    (html_content text_data : string) (row_start row_end : Z)
  : bool * option (list CellPatch) :=
  match client html_content text_data row_start row_end with
  | None => (false, None)
  | Some analysis_content =>
      let json_str :=
        match search_array analysis_content with
        | Some m => m
        | None => analysis_content
        end in
      match json_loads json_str with
      | None => (false, None)
      | Some cell_mappings =>
          (forallb has_summary_keys cell_mappings, Some cell_mappings)
      end
  end.

(** One turn of the [for chunk_num in range(num_chunks)] loop. *)
Definition process_chunk (html_content text_data : string)
    (total_rows chunk_size : Z)
    (all_cell_mappings : list CellPatch) (chunk_num : Z) : list CellPatch :=
  let row_start := Chunks.row_start chunk_size chunk_num in
  let row_end := Chunks.row_end total_rows chunk_size chunk_num in
  match analyze_html_table_with_openai html_content text_data row_start row_end with
  | (true, Some chunk_mappings) => all_cell_mappings ++ chunk_mappings
  | _ => all_cell_mappings
  end.

(** What a window adds to the accumulated patch set. *)
Definition contribution (html_content text_data : string) (w : Z * Z)
  : list CellPatch :=
  match analyze_html_table_with_openai html_content text_data (fst w) (snd w) with
  | (true, Some chunk_mappings) => chunk_mappings
  | _ => []
  end.

(** [process_html_file_in_chunks]: the returned flag and the combined
    patch set written to the output area, if any. *)
Definition process_html_file_in_chunks
    (html_content text_data : string) (chunk_size : Z)
  : bool * option (list CellPatch) :=
  let total_rows := count_html_rows html_content in
  if total_rows =? 0 then (false, None)
  else if chunk_size =? 0 then (false, None) (* ZeroDivisionError, caught *)
  else
    let num_chunks := Chunks.num_chunks total_rows chunk_size in
    let all_cell_mappings :=
      fold_left (process_chunk html_content text_data total_rows chunk_size)
                (Py.range num_chunks) [] in
    match all_cell_mappings with
    | [] => (false, None)
    | _ => (true, Some all_cell_mappings)
    end.

End Dispatch.

(** A one-row table, for the examples. *)
Definition one_row_table : string :=
  "<th id=" +:+ String Py.dquote "row1" +:+ String Py.dquote ">1</th>".

(** A table whose two row headers stand in reverse order. *)
Definition shuffled_table : string :=
  "<tr><th id=" +:+ String Py.dquote "row2" +:+ String Py.dquote ">2</th></tr>"
  +:+ "<tr><th id=" +:+ String Py.dquote "row1" +:+ String Py.dquote ">1</th></tr>".

End Reconciler.

(** ** Worksheets and merged ranges *)

Module Sheet.

Record MergedRange := mkRange {
  min_row : Z;
  min_col : Z;
  max_row : Z;
  max_col : Z
}.

(** [worksheet.merged_cells.ranges], and the cell values by
    [(row, column)]. *)
Record Worksheet := mkSheet {
  merged_cells : list MergedRange;
  cells : gmap (Z * Z) Py.Scalar
}.

Definition top_left (r : MergedRange) : Z * Z := (min_row r, min_col r).

Definition covers (r : MergedRange) (p : Z * Z) : Prop :=
  min_row r <= fst p <= max_row r /\ min_col r <= snd p <= max_col r.

Definition coversb (r : MergedRange) (p : Z * Z) : bool :=
  (min_row r <=? fst p) && (fst p <=? max_row r) &&
  (min_col r <=? snd p) && (snd p <=? max_col r).

#[global] Instance covers_dec (r : MergedRange) (p : Z * Z) : Decision (covers r p).
Proof. unfold covers. apply _. Defined.

(** A cell of the range other than its top-left corner. *)
Definition subordinate (r : MergedRange) (p : Z * Z) : Prop :=
  covers r p /\ p <> top_left r.

(** A range as the spreadsheet library keeps it: corners in order, inside
    the sheet limits of 1048576 rows and 18278 columns (column ZZZ). *)
Definition ordered (r : MergedRange) : Prop :=
  min_row r <= max_row r /\ min_col r <= max_col r.

Definition well_formed (r : MergedRange) : Prop :=
  ordered r /\ 1 <= min_row r /\ max_row r <= 1048576 /\
  1 <= min_col r /\ max_col r <= 18278.

(** No two ranges of the list share a coordinate: each range is clear of
    all the ranges after it. *)
Fixpoint non_overlapping (ranges : list MergedRange) : Prop :=
  match ranges with
  | [] => True
  | r :: rest =>
      (forall r' p, r' ∈ rest -> covers r p -> ~ covers r' p)
      /\ non_overlapping rest
  end.

(** [for row in range(min_row, max_row + 1):
       for col in range(min_col, max_col + 1): body] *)
Definition for_cells {S : Type} (r : MergedRange) (body : Z -> Z -> S -> S)
    (init : S) : S :=
  fold_left
    (fun acc row =>
       fold_left (fun acc col => body row col acc)
                 (Py.range2 (min_col r) (max_col r + 1)) acc)
    (Py.range2 (min_row r) (max_row r + 1)) init.

(** A loop body that stores [v] at [(row, col)] where [f row col] is
    [Some v] and does nothing elsewhere. *)
Definition put_where {V : Type} (f : Z -> Z -> option V) (row col : Z)
    (acc : gmap (Z * Z) V) : gmap (Z * Z) V :=
  match f row col with
  | Some v => <[(row, col) := v]> acc
  | None => acc
  end.

End Sheet.

(** ** GeometryResolver: [find_merged_ranges] *)

Module Geometry.
Import Sheet.

(** The two shapes of entry: the root with its spans, and [hidden]. *)
Inductive MergeInfo :=
| MergedRoot (colspan rowspan : option Z)
| HiddenEntry.

(** [colspan if colspan > 1 else None] *)
Definition span_or_none (n : Z) : option Z := if 1 <? n then Some n else None.

Definition mark_range (merged_ranges : gmap (Z * Z) MergeInfo)
    (merged_range : MergedRange) : gmap (Z * Z) MergeInfo :=
  let colspan := max_col merged_range - min_col merged_range + 1 in
  let rowspan := max_row merged_range - min_row merged_range + 1 in
  let merged_ranges :=
    <[(min_row merged_range, min_col merged_range) :=
        MergedRoot (span_or_none colspan) (span_or_none rowspan)]> merged_ranges in
  for_cells merged_range
    (fun row col acc =>
       if negb (row =? min_row merged_range) || negb (col =? min_col merged_range)
       then <[(row, col) := HiddenEntry]> acc
       else acc)
    merged_ranges.

Definition find_merged_ranges (worksheet : Worksheet) : gmap (Z * Z) MergeInfo :=
  fold_left mark_range (merged_cells worksheet) ∅.

(** How the table renderer reads [merged_ranges.get((row, col), {})]: a
    hidden cell is skipped, a root is emitted with its spans, any other
    cell is emitted plainly. *)
Inductive CellClass :=
| Governing (colspan rowspan : option Z)
| Hidden
| Ordinary.

Definition classify (merged_ranges : gmap (Z * Z) MergeInfo) (p : Z * Z)
  : CellClass :=
  match merged_ranges !! p with
  | Some HiddenEntry => Hidden
  | Some (MergedRoot colspan rowspan) => Governing colspan rowspan
  | None => Ordinary
  end.

(** The three sets of coordinates, by geometry. *)
Definition is_governing (ranges : list MergedRange) (p : Z * Z) : Prop :=
  exists r, r ∈ ranges /\ p = top_left r.

Definition is_hidden (ranges : list MergedRange) (p : Z * Z) : Prop :=
  exists r, r ∈ ranges /\ subordinate r p.

Definition is_ordinary (ranges : list MergedRange) (p : Z * Z) : Prop :=
  forall r, r ∈ ranges -> ~ covers r p.

End Geometry.

(** ** PatchApplier *)

Module Applier.
Import Sheet.
Import Reconciler (CellPatch, mkPatch, cell_reference, value, context).

(** *** Cell addresses

    The functions of the spreadsheet library that the applier calls,
    modelled after the library: [get_column_letter], the table behind
    [coordinate_to_tuple], and further down the assignment to a cell.

    [get_column_letter]: bijective base 26, for indices 1 to 18278; the
    loop runs at most three times. *)
Definition chr_letter (remainder : Z) : ascii :=
  ascii_of_N (Z.to_N (remainder + 64)).

Fixpoint column_letters (fuel : nat) (col_idx : Z) (letters : string) : string :=
  match fuel with
  | O => letters
  | S fuel' =>
      if 0 <? col_idx then
        let q := col_idx / 26 in
        let remainder := col_idx mod 26 in
        if remainder =? 0
        then column_letters fuel' (q - 1) (String (chr_letter 26) letters)
        else column_letters fuel' q (String (chr_letter remainder) letters)
      else letters
  end.

Definition get_column_letter (col_idx : Z) : option string :=
  if (1 <=? col_idx) && (col_idx <=? 18278)
  then Some (column_letters 3 col_idx EmptyString)
  else None.

Definition is_upper (ch : ascii) : bool :=
  let n := N_of_ascii ch in ((65 <=? n) && (n <=? 90))%N.

Definition is_lower (ch : ascii) : bool :=
  let n := N_of_ascii ch in ((97 <=? n) && (n <=? 122))%N.

Definition is_letter (ch : ascii) : bool := is_upper ch || is_lower ch.

Fixpoint letters_value (acc : Z) (s : string) : Z :=
  match s with
  | EmptyString => acc
  | String ch r => letters_value (acc * 26 + (Z.of_N (N_of_ascii ch) - 64)) r
  end.

(** The table from column letters to indices: one to three capital
    letters; any other key is a [KeyError]. *)
Definition col_string_cache (col : string) : option Z :=
  if Py.all_chars is_upper col
     && (1 <=? String.length col)%nat && (String.length col <=? 3)%nat
  then Some (letters_value 0 col)
  else None.

(** The text before the first digit, and the text from it on. *)
Fixpoint split_at_digit (s : string) : string * string :=
  match s with
  | EmptyString => (EmptyString, EmptyString)
  | String ch r =>
      if Py.is_digit ch then (EmptyString, s)
      else let '(col, row) := split_at_digit r in (String ch col, row)
  end.

(** [coordinate_to_tuple]: the reference is cut at its first digit and
    read as [(int(row), cache[col])]; a reference without a digit has no
    row to read. *)
Definition coordinate_to_tuple (coordinate : string) : option (Z * Z) :=
  let '(col, row) := split_at_digit coordinate in
  row_n ← Py.int row;
  col_n ← col_string_cache col;
  Some (row_n, col_n).

(** *** [get_merged_cell_mapping] and [resolve_merged_cell_reference] *)
Definition map_range (merged_mapping : gmap (Z * Z) (Z * Z))
    (merged_range : MergedRange) : gmap (Z * Z) (Z * Z) :=
  for_cells merged_range
    (fun row col acc =>
       <[(row, col) := (min_row merged_range, min_col merged_range)]> acc)
    merged_mapping.

Definition get_merged_cell_mapping (worksheet : Worksheet)
  : gmap (Z * Z) (Z * Z) :=
  fold_left map_range (merged_cells worksheet) ∅.

Definition resolve_merged_cell_reference (cell_ref : string)
    (merged_mapping : gmap (Z * Z) (Z * Z)) : string :=
  match coordinate_to_tuple cell_ref with
  | Some (row, col) =>
      match merged_mapping !! (row, col) with
      | Some (top_left_row, top_left_col) =>
          match get_column_letter top_left_col with
          | Some letters => letters +:+ Py.str top_left_row
          | None => cell_ref
          end
      | None => cell_ref
      end
  | None => cell_ref
  end.

(** *** Value coercion *)
Definition coerce_value (value : Py.Scalar) : Py.Scalar :=
  match value with
  | Py.SStr text =>
      let clean_value := Py.replace "," "" text in
      if Py.isdigit clean_value then Py.SInt (Py.digits_value clean_value)
      else
        match Py.float clean_value with
        | Some f => Py.SFloat f
        | None => value
        end
  | _ => value
  end.

(** *** Writing a cell: [worksheet[key] = value]

    The key of a single cell is an optional dollar sign, one to three
    letters of either case, an optional dollar sign and a row number from
    1 to 1048576; a final line feed is tolerated.  The subordinate cells
    of a merged range are read-only: assigning to one raises. *)
Fixpoint span_letters (s : string) : string * string :=
  match s with
  | EmptyString => (EmptyString, EmptyString)
  | String ch r =>
      if is_letter ch
      then let '(l, rest) := span_letters r in (String ch l, rest)
      else (EmptyString, s)
  end.

Definition skip_dollar (s : string) : string :=
  match s with
  | String ch r => if Ascii.eqb ch "$" then r else s
  | EmptyString => s
  end.

Fixpoint drop_final_newline (s : string) : string :=
  match s with
  | EmptyString => EmptyString
  | String ch EmptyString => if Ascii.eqb ch "010" then EmptyString else s
  | String ch r => String ch (drop_final_newline r)
  end.

Definition upper_char (ch : ascii) : ascii :=
  if is_lower ch then ascii_of_N (N_of_ascii ch - 32) else ch.

Fixpoint upper (s : string) : string :=
  match s with
  | EmptyString => EmptyString
  | String ch r => String (upper_char ch) (upper r)
  end.

Definition parse_cell_key (key : string) : option (Z * Z) :=
  let '(letters, rest) := span_letters (skip_dollar (drop_final_newline key)) in
  let digits := skip_dollar rest in
  if (1 <=? String.length letters)%nat && (String.length letters <=? 3)%nat
     && Py.isdigit digits
  then
    let row := Py.digits_value digits in
    if (1 <=? row) && (row <=? 1048576)
    then Some (row, letters_value 0 (upper letters))
    else None
  else None.

(** The letters of column [c] are one to three capitals that the table
    maps back to [c]. *)
Definition column_ok (c : Z) : bool :=
  let letters := column_letters 3 c EmptyString in
  Py.all_chars is_upper letters
  && (1 <=? String.length letters)%nat && (String.length letters <=? 3)%nat
  && (letters_value 0 letters =? c).

Definition pair_eqb (p q : Z * Z) : bool :=
  (fst p =? fst q) && (snd p =? snd q).

Definition is_merged_cell (worksheet : Worksheet) (p : Z * Z) : bool :=
  existsb (fun r => coversb r p && negb (pair_eqb p (top_left r)))
          (merged_cells worksheet).

(** What a cell keeps of an assigned value.  A text is cut to 32767
    characters and must hold none of the control characters that a
    workbook cannot store (codes 0-8, 11, 12 and 14-31); assigning such a
    text raises.  A number is kept as it is. *)
Definition is_illegal (ch : ascii) : bool :=
  let n := N_of_ascii ch in
  ((n <=? 8) || ((11 <=? n) && (n <=? 12)) || ((14 <=? n) && (n <=? 31)))%N.

Fixpoint take (n : N) (s : string) : string :=
  match s with
  | EmptyString => EmptyString
  | String ch r => if (n =? 0)%N then EmptyString else String ch (take (N.pred n) r)
  end.

Definition check_value (v : Py.Scalar) : option Py.Scalar :=
  match v with
  | Py.SStr s =>
      let kept := take 32767 s in
      if Py.all_chars (fun ch => negb (is_illegal ch)) kept
      then Some (Py.SStr kept) else None
  | _ => Some v
  end.

Definition setitem (worksheet : Worksheet) (key : string) (v : Py.Scalar)
  : option Worksheet :=
  match parse_cell_key key with
  | Some p =>
      if is_merged_cell worksheet p then None
      else
        kept ← check_value v;
        Some (mkSheet (merged_cells worksheet) (<[p := kept]> (cells worksheet)))
  | None => None
  end.

(** *** [update_excel_sheet] *)

(** [not x] *)
Definition falsy (x : Py.Scalar) : bool :=
  match x with
  | Py.SNone => true
  | Py.SInt z => z =? 0
  | Py.SFloat (Py.FDec _ m _) => (m =? 0)%N
  | Py.SFloat _ => false
  | Py.SStr s => String.eqb s EmptyString
  end.

Definition is_empty_text (x : Py.Scalar) : bool :=
  match x with
  | Py.SStr s => String.eqb s EmptyString
  | _ => false
  end.

Definition is_none (x : Py.Scalar) : bool :=
  match x with
  | Py.SNone => true
  | _ => false
  end.

(** One turn of the loop over [cell_data], a list of patch objects; the
    state is the worksheet and [updates_made].  A patch is skipped when its
    reference or value is missing or empty, when the reference is not a
    text of at least two characters, and when the assignment raises. *)
Definition apply_cell_info (merged_mapping : gmap (Z * Z) (Z * Z))
    (state : Worksheet * Z) (cell_info : CellPatch) : Worksheet * Z :=
  let '(worksheet, updates_made) := state in
  let cell_ref := default Py.SNone (cell_reference cell_info) in
  let value := default Py.SNone (value cell_info) in
  if falsy cell_ref || is_none value || is_empty_text value then state
  else
    match cell_ref with
    | Py.SStr ref =>
        if (String.length ref <? 2)%nat then state
        else
          let resolved_cell_ref := resolve_merged_cell_reference ref merged_mapping in
          let value := coerce_value value in
          match setitem worksheet resolved_cell_ref value with
          | Some worksheet' => (worksheet', updates_made + 1)
          | None => state
          end
    | _ => state
    end.

(** The body of [update_excel_sheet] once the sheet is found. *)
Definition update_cells (worksheet : Worksheet) (cell_data : list CellPatch)
  : Worksheet * Z :=
  let merged_mapping := get_merged_cell_mapping worksheet in
  fold_left (apply_cell_info merged_mapping) cell_data (worksheet, 0).

(** A workbook: its sheets in order, by name. *)
Definition Workbook : Type := list (string * Worksheet).

Fixpoint get_sheet (workbook : Workbook) (sheet_name : string) : option Worksheet :=
  match workbook with
  | [] => None
  | (name, worksheet) :: rest =>
      if String.eqb name sheet_name then Some worksheet
      else get_sheet rest sheet_name
  end.

Fixpoint put_sheet (workbook : Workbook) (sheet_name : string)
    (worksheet' : Worksheet) : Workbook :=
  match workbook with
  | [] => []
  | (name, worksheet) :: rest =>
      if String.eqb name sheet_name then (name, worksheet') :: rest
      else (name, worksheet) :: put_sheet rest sheet_name worksheet'
  end.

Definition update_excel_sheet (workbook : Workbook) (sheet_name : string)
    (cell_data : list CellPatch) : Workbook * Z :=
  match get_sheet workbook sheet_name with
  | None => (workbook, 0)
  | Some worksheet =>
      let '(worksheet', updates_made) := update_cells worksheet cell_data in
      (put_sheet workbook sheet_name worksheet', updates_made)
  end.

(** *** [clean_sheet_name_for_json] *)

(** [while '__' in cleaned: cleaned = cleaned.replace('__', '_')]; every
    turn shortens the text, so its length is fuel enough. *)
Fixpoint collapse_underscores (fuel : nat) (cleaned : string) : string :=
  match fuel with
  | O => cleaned
  | S fuel' =>
      if Py.contains "__" cleaned
      then collapse_underscores fuel' (Py.replace "__" "_" cleaned)
      else cleaned
  end.

Definition clean_sheet_name_for_json (sheet_name : string) : string :=
  let cleaned := Py.strip sheet_name in
  let cleaned := Py.replace " " "_" cleaned in
  let cleaned := Py.replace "." "_" cleaned in
  let cleaned := Py.replace "(" "_" cleaned in
  let cleaned := Py.replace ")" "" cleaned in
  let cleaned := Py.replace "," "_" cleaned in
  let cleaned := Py.replace "-" "_" cleaned in
  let cleaned := collapse_underscores (String.length cleaned) cleaned in
  Py.strip_char "_" cleaned.

(** *** [update_excel_from_json], for one workbook *)

(** What the output folder holds under a file name. *)
Inductive JsonFile :=
| NoFile
| Unreadable
| JsonObject (d : CellPatch)
| JsonArray (l : list CellPatch)
| JsonOther.

Definition json_filename (workbook_name sheet_name : string) : string :=
  workbook_name +:+ "_" +:+ clean_sheet_name_for_json sheet_name +:+ ".json".

(** The file is there and decodes to an object or an array. *)
Definition is_patch_set (file : JsonFile) : bool :=
  match file with
  | JsonObject _ | JsonArray _ => true
  | _ => false
  end.

Record Run := mkRun {
  workbook : Workbook;
  workbook_updated : bool;
  total_updates : Z
}.

Definition apply_patch_set (run : Run) (sheet_name : string)
    (cell_data : list CellPatch) : Run :=
  let '(workbook', updates_made) :=
    update_excel_sheet (workbook run) sheet_name cell_data in
  mkRun workbook' true (total_updates run + updates_made).

(** One turn of the loop over [sheet_names]. *)
Definition visit_sheet (output_path : string -> JsonFile) (workbook_name : string)
    (run : Run) (sheet_name : string) : Run :=
  match output_path (json_filename workbook_name sheet_name) with
  | NoFile => run
  | Unreadable => run
  | JsonObject d => apply_patch_set run sheet_name [d]
  | JsonArray l => apply_patch_set run sheet_name l
  | JsonOther => run
  end.

(** The workbook saved to the updated-workbooks folder, if any, and the
    update count. *)
Definition update_workbook (output_path : string -> JsonFile)
    (workbook_name : string) (workbook : Workbook) : option Workbook * Z :=
  let sheet_names := fst <$> workbook in
  let run := fold_left (visit_sheet output_path workbook_name) sheet_names
                       (mkRun workbook false 0) in
  if workbook_updated run then (Some (Applier.workbook run), total_updates run)
  else (None, total_updates run).

End Applier.

(** ** Reference readings, for comparison with the code *)

Module Reading.

(** Each character replaced by a text. *)
Fixpoint subst_chars (f : ascii -> string) (s : string) : string :=
  match s with
  | EmptyString => EmptyString
  | String a r => f a +:+ subst_chars f r
  end.



(** The sheet-name convention, read character by character: a closing
    parenthesis is dropped; a space, a full stop, an opening parenthesis,
    a comma and a hyphen each become an underscore; any other character
    stays. *)
Definition in_chars (a : ascii) (chars : string) : bool :=
  negb (Py.all_chars (fun b => negb (Ascii.eqb a b)) chars).

Definition sanitized_char (a : ascii) : string :=
  if Ascii.eqb a ")" then EmptyString
  else if in_chars a " .(,-" then "_"
  else String a EmptyString.

Definition starts_with_underscore (s : string) : bool :=
  match s with
  | String b _ => Ascii.eqb b "_"
  | EmptyString => false
  end.

(** Every run of underscores shortened to one. *)
Fixpoint squeeze (s : string) : string :=
  match s with
  | EmptyString => EmptyString
  | String a r =>
      if Ascii.eqb a "_" && starts_with_underscore r then squeeze r
      else String a (squeeze r)
  end.

(** The sanitized sheet name in one pass: surrounding whitespace taken
    off, the characters replaced, runs of underscores shortened, leading
    and trailing underscores taken off. *)
Definition sanitize (sheet_name : string) : string :=
  Py.strip_char "_" (squeeze (subst_chars sanitized_char (Py.strip sheet_name))).

(** The convention as the specification words it: whitespace and each of
    the five punctuation characters, the closing parenthesis included,
    become underscores. *)
Definition claimed_char (a : ascii) : string :=
  if Py.is_space a || in_chars a ".(),-" then "_" else String a EmptyString.

Definition sanitize_claimed (sheet_name : string) : string :=
  Py.strip_char "_" (squeeze (subst_chars claimed_char sheet_name)).


End Reading.

(** ** Example inputs *)

Module Examples.
Import Sheet Applier.
Import Reconciler (CellPatch, mkPatch).

(** A sheet without merged ranges, holding one text. *)
Definition summary_sheet : Worksheet := mkSheet [] (<[(1, 1) := Py.SStr "Total"]> ∅).

(** A sheet with the merged ranges A1:B1 and B3:D5. *)
Definition merged_sheet : Worksheet :=
  mkSheet [mkRange 1 1 1 2; mkRange 3 2 5 4] (<[(1, 1) := Py.SStr "Total"]> ∅).

(** A patch for B1, a subordinate cell of A1:B1. *)
Definition patch_B1 : CellPatch :=
  mkPatch (Some (Py.SStr "B1")) (Some (Py.SStr "1,234")) (Some (Py.SStr "total")).

(** The workbook [book.xlsx] with the one sheet [Summary], and an output
    folder whose only file is the patch set [book_Summary.json], the empty
    array. *)
Definition book : Workbook := [("Summary"%string, summary_sheet)].

Definition folder_with_empty_patch_set (name : string) : JsonFile :=
  if String.eqb name "book_Summary.json" then JsonArray [] else NoFile.

End Examples.

(** ** File names: from the rendered sheet to its patch set *)

Module Naming.

Definition is_alnum (ch : ascii) : bool :=
  Py.is_digit ch || Applier.is_upper ch || Applier.is_lower ch.

Fixpoint filter_chars (p : ascii -> bool) (s : string) : string :=
  match s with
  | EmptyString => EmptyString
  | String ch r => if p ch then String ch (filter_chars p r) else filter_chars p r
  end.

(** The characters the converter keeps: [c.isalnum() or c in (' ', '-', '_')]. *)
Definition kept_char (ch : ascii) : bool :=
  is_alnum ch || Reading.in_chars ch " -_".

(** [safe_worksheet_name] in [convert_worksheet_to_separate_html]: the
    kept characters joined, [rstrip], then spaces replaced. *)
Definition safe_worksheet_name (worksheet_name : string) : string :=
  let safe := Py.rstrip_by Py.is_space (filter_chars kept_char worksheet_name) in
  Py.replace " " "_" safe.

(** [output_filename] of the rendered sheet. *)
Definition html_filename (base_filename worksheet_name : string) : string :=
  base_filename +:+ "_" +:+ safe_worksheet_name worksheet_name +:+ ".html".

(** [os.path.splitext(name)[0]] for a name without directory part: the
    text before the last full stop, provided some character before that
    full stop is not a full stop; else the whole name. *)
Fixpoint upto_last_dot (s : string) : option string :=
  match s with
  | EmptyString => None
  | String ch r =>
      match upto_last_dot r with
      | Some t => Some (String ch t)
      | None => if Ascii.eqb ch "." then Some EmptyString else None
      end
  end.

Definition splitext_root (name : string) : string :=
  match upto_last_dot name with
  | Some root =>
      if Py.all_chars (fun ch => Ascii.eqb ch ".") root then name else root
  | None => name
  end.

(** [find_matching_files] gives the analysis of [html_filename] the output
    path [Output_folder/<base_name>.txt]; the analysis writes its patch
    set to [output_path.replace('.txt', '.json')].  The path separator is
    the solidus. *)
Definition analysis_output_path (html_filename : string) : string :=
  "Output_folder/" +:+ splitext_root html_filename +:+ ".txt".

Definition analysis_json_path (html_filename : string) : string :=
  Py.replace ".txt" ".json" (analysis_output_path html_filename).

(** The path under which [update_excel_from_json] looks for the patch set
    of a sheet, with the pipeline's output folder. *)
Definition applier_json_path (workbook_name sheet_name : string) : string :=
  "Output_folder/" +:+ Applier.json_filename workbook_name sheet_name.

(** A sheet name of letters and digits with single spaces between the
    words: no leading space and no two spaces in a row. *)
Fixpoint single_spaced (s : string) : bool :=
  match s with
  | EmptyString => true
  | String ch r =>
      (is_alnum ch
       || (Ascii.eqb ch " "
           && match r with
              | String ch' _ => negb (Ascii.eqb ch' " ")
              | EmptyString => true
              end))
      && single_spaced r
  end.

(** A space becomes an underscore, any other character stays. *)
Definition space_char (a : ascii) : ascii :=
  if Ascii.eqb a " " then "_"%char else a.

Definition space_to_underscore (a : ascii) : string :=
  String (space_char a) EmptyString.

Definition starts_with_space (s : string) : bool :=
  match s with
  | String ch _ => Ascii.eqb ch " "
  | EmptyString => false
  end.

(** The first character satisfies [p]. *)
Definition starts_with (p : ascii -> bool) (s : string) : bool :=
  match s with
  | String ch _ => p ch
  | EmptyString => false
  end.

(** No whitespace other than the space character. *)
Definition only_space_whitespace (s : string) : bool :=
  Py.all_chars (fun a => negb (Py.is_space a) || Ascii.eqb a " ") s.

Definition no_hyphen (s : string) : bool :=
  Py.all_chars (fun b => negb (Ascii.eqb "-" b)) s.

Definition plain_sheet_name (s : string) : bool :=
  single_spaced s
  && match s with
     | String ch _ => negb (Ascii.eqb ch " ")
     | EmptyString => true
     end.

End Naming.

(** ** HTMLAnalyzer: the batch over all file pairs *)

Module Batch.

Section Files.
Variable client : string -> string -> Z -> Z -> option string.
Variable json_loads : string -> option (list Reconciler.CellPatch).

(** What [process_all_files] needs of its surroundings: the two folders,
    the API key, and the matching pairs that [find_matching_files] found,
    each given by the content of its rendered table and of its source
    text. *)
Record Setting := mkSetting {
  html_outputs_exists : bool;
  data_sources_exists : bool;
  api_key_set : bool;
  matches : list (string * string)
}.

(** One turn of the loop over the matches: [successful] and [failed]. *)
Definition count_file (counts : Z * Z) (pair : string * string) : Z * Z :=
  let '(successful, failed) := counts in
  let success :=
    fst (Reconciler.process_html_file_in_chunks client json_loads
           (fst pair) (snd pair) 30) in
  if success then (successful + 1, failed) else (successful, failed + 1).

Definition count_files (pairs : list (string * string)) : Z * Z :=
  fold_left count_file pairs (0, 0).

(** [process_all_files]: the returned flag. *)
Definition process_all_files (setting : Setting) : bool :=
  if negb (html_outputs_exists setting) then false
  else if negb (data_sources_exists setting) then false
  else if negb (api_key_set setting) then false
  else
    match matches setting with
    | [] => false
    | _ =>
        let '(successful, failed) := count_files (matches setting) in
        0 <? successful
    end.

End Files.

End Batch.

(** ** Reference readings of the applier's loop *)

Module ApplierReading.
Import Sheet.

(** The range whose entry is left in the mapping for [p]: the last range
    of the list that covers it. *)
Fixpoint last_covering (ranges : list MergedRange) (p : Z * Z)
  : option MergedRange :=
  match ranges with
  | [] => None
  | r :: rest =>
      match last_covering rest p with
      | Some r' => Some r'
      | None => if coversb r p then Some r else None
      end
  end.

(** A patch the loop passes over: no reference or no value, an empty one,
    or a reference that is not a text of two characters or more. *)
Definition incomplete (patch : Reconciler.CellPatch) : Prop :=
  match Reconciler.cell_reference patch, Reconciler.value patch with
  | None, _ | _, None => True
  | Some ref, Some v =>
      v = Py.SNone \/ v = Py.SStr ""
      \/ match ref with
         | Py.SStr s => (String.length s < 2)%nat
         | _ => True
         end
  end.

(** The coordinate a patch is aimed at once its reference is resolved. *)
Definition target (worksheet : Worksheet) (patch : Reconciler.CellPatch)
  : option (Z * Z) :=
  match Reconciler.cell_reference patch with
  | Some (Py.SStr ref) =>
      Applier.parse_cell_key
        (Applier.resolve_merged_cell_reference ref
           (Applier.get_merged_cell_mapping worksheet))
  | _ => None
  end.

End ApplierReading.

(** ** Joining and escaping text *)

Module PyText.

Definition nl : string := String "010" EmptyString.

(** [sep.join(parts)] *)
Fixpoint join (sep : string) (parts : list string) : string :=
  match parts with
  | [] => EmptyString
  | p :: rest =>
      match rest with
      | [] => p
      | _ => p +:+ sep +:+ join sep rest
      end
  end.

(** [html.escape(s)], with [quote=True]: the ampersand first, then the
    angle brackets, then the two quotes. *)
Definition escape (s : string) : string :=
  let s := Py.replace "&" "&amp;" s in
  let s := Py.replace "<" "&lt;" s in
  let s := Py.replace ">" "&gt;" s in
  let s := Py.replace (String Py.dquote EmptyString) "&quot;" s in
  Py.replace "'" "&#x27;" s.

(** Every part followed by [sep]. *)
Fixpoint lines (sep : string) (parts : list string) : string :=
  match parts with
  | [] => EmptyString
  | p :: rest => p +:+ sep +:+ lines sep rest
  end.

(** The text holds no double quote. *)
Definition quiet (s : string) : bool :=
  Py.all_chars (fun ch => negb (Ascii.eqb ch Py.dquote)) s.

End PyText.

(** ** ExcelToHTMLConverter: cell styles *)

Module Style.

(** What [generate_cell_style] reads of a cell.  An object that Python
    takes for false (a missing border, side, alignment or font) is
    [None]; [wrap_text] and [bold] are given by their truth value. *)
Record Side := mkSide { side_style : option string }.

Record Border := mkBorder {
  border_top : option Side;
  border_bottom : option Side;
  border_left : option Side;
  border_right : option Side
}.

Record Alignment := mkAlignment {
  horizontal : option string;
  vertical : option string;
  wrap_text : bool
}.

Record Font := mkFont {
  font_name : option string;
  font_size : option Py.PyFloat;
  font_bold : bool
}.

Record Cell := mkCell {
  border : option Border;
  alignment : option Alignment;
  font : option Font
}.

(** [self.border_styles.get(style)] *)
Definition border_styles (style : string) : option string :=
  if String.eqb style "thin" then Some "1px SOLID"%string
  else if String.eqb style "medium" then Some "2px SOLID"%string
  else if String.eqb style "thick" then Some "3px SOLID"%string
  else if String.eqb style "double" then Some "3px DOUBLE"%string
  else if String.eqb style "hair" then Some "1px SOLID"%string
  else if String.eqb style "dotted" then Some "1px DOTTED"%string
  else if String.eqb style "dashed" then Some "1px DASHED"%string
  else if String.eqb style "dashDot" then Some "1px DASHED"%string
  else if String.eqb style "dashDotDot" then Some "1px DASHED"%string
  else if String.eqb style "slantDashDot" then Some "1px DASHED"%string
  else None.

Definition get_border_css (border_side : option Side) : string :=
  match border_side with
  | None => "transparent"
  | Some side =>
      match side_style side with
      | None => "transparent"
      | Some style =>
          if String.eqb style EmptyString then "transparent"
          else
            let style := default "1px SOLID"%string (border_styles style) in
            let color := "#000000"%string in
            style +:+ " " +:+ color
      end
  end.

(** A [dict] of CSS properties, in insertion order. *)
Definition Props : Type := list (string * string).

(** [props[key] = value] *)
Fixpoint set_item (props : Props) (key value : string) : Props :=
  match props with
  | [] => [(key, value)]
  | (k, v) :: rest =>
      if String.eqb k key then (k, value) :: rest
      else (k, v) :: set_item rest key value
  end.

(** [props.update(other)] *)
Definition update (props other : Props) : Props :=
  fold_left (fun acc kv => set_item acc (fst kv) (snd kv)) other props.

(** [props.setdefault(key, value)] *)
Definition setdefault (props : Props) (key value : string) : Props :=
  if existsb (fun kv => String.eqb (fst kv) key) props then props
  else props ++ [(key, value)].

(** No key and no value holds a double quote. *)
Definition quiet_props (props : Props) : Prop :=
  Forall (fun kv => PyText.quiet (fst kv) = true /\ PyText.quiet (snd kv) = true)
         props.

(** [x == s] for an attribute that is [None] or a text. *)
Definition is_text (x : option string) (s : string) : bool :=
  match x with
  | Some t => String.eqb t s
  | None => false
  end.

(** [x in (None, s)] *)
Definition none_or (x : option string) (s : string) : bool :=
  match x with
  | Some t => String.eqb t s
  | None => true
  end.

Definition get_alignment_css (alignment : option Alignment) : Props :=
  match alignment with
  | None => []
  | Some alignment =>
      let css_props : Props := [] in
      let css_props :=
        if is_text (horizontal alignment) "center"
        then set_item css_props "text-align" "center"
        else if is_text (horizontal alignment) "right"
        then set_item css_props "text-align" "right"
        else if is_text (horizontal alignment) "left"
        then set_item css_props "text-align" "left"
        else set_item css_props "text-align" "left" in
      let css_props :=
        if is_text (vertical alignment) "center"
        then set_item css_props "vertical-align" "middle"
        else if is_text (vertical alignment) "top"
        then set_item css_props "vertical-align" "top"
        else if is_text (vertical alignment) "bottom"
        then set_item css_props "vertical-align" "bottom"
        else set_item css_props "vertical-align" "bottom" in
      if wrap_text alignment then
        let css_props := set_item css_props "white-space" "normal" in
        let css_props := set_item css_props "overflow" "hidden" in
        set_item css_props "word-wrap" "break-word"
      else set_item css_props "white-space" "nowrap"
  end.

(** The number a float stands for is the integer [n]. *)
Definition float_is (x : Py.PyFloat) (n : Z) : bool :=
  match x with
  | Py.FDec negative mantissa exp10 =>
      let m := Py.signed negative (Z.of_N mantissa) in
      if 0 <=? exp10 then m * 10 ^ exp10 =? n
      else m =? n * 10 ^ (- exp10)
  | _ => false
  end.

(** [size in (None, n, n.0)] *)
Definition size_in (size : option Py.PyFloat) (n : Z) : bool :=
  match size with
  | Some x => float_is x n
  | None => true
  end.

Section Formatting.
(** [str(x)] for a float [x]. *)
Variable float_str : Py.PyFloat -> string.

Definition get_font_css (font : option Font) : Props :=
  match font with
  | None => []
  | Some font =>
      let css_props : Props := [] in
      let css_props :=
        match font_name font with
        | Some name =>
            if String.eqb name EmptyString then css_props
            else set_item css_props "font-family" name
        | None => css_props
        end in
      let css_props :=
        match font_size font with
        | Some size =>
            if Applier.falsy (Py.SFloat size) then css_props
            else set_item css_props "font-size" (float_str size +:+ "pt")
        | None => css_props
        end in
      if font_bold font then set_item css_props "font-weight" "bold"
      else css_props
  end.

(** [side is falsy or side.style is None] *)
Definition unstyled (side : option Side) : bool :=
  match side with
  | Some side =>
      match side_style side with
      | None => true
      | Some _ => false
      end
  | None => true
  end.

Definition no_borders (cell : Cell) : bool :=
  match border cell with
  | None => true
  | Some b =>
      unstyled (border_top b) && unstyled (border_bottom b)
      && unstyled (border_left b) && unstyled (border_right b)
  end.

Definition left_bottom (cell : Cell) : bool :=
  match alignment cell with
  | None => true
  | Some a =>
      none_or (horizontal a) "left" && none_or (vertical a) "bottom"
      && negb (wrap_text a)
  end.

Definition calibri (cell : Cell) (points : Z) : bool :=
  match font cell with
  | None => true
  | Some f =>
      none_or (font_name f) "Calibri" && size_in (font_size f) points
      && negb (font_bold f)
  end.

(** [getattr(side, 'style', None) == 'thin'] *)
Definition thin (side : option Side) : bool :=
  match side with
  | Some side => is_text (side_style side) "thin"
  | None => false
  end.

Definition is_calibri (cell : Cell) : bool :=
  no_borders cell && left_bottom cell && calibri cell 9.

Definition is_calibri_11 (cell : Cell) : bool :=
  no_borders cell && left_bottom cell && calibri cell 11.

Definition is_calibri_bordered (cell : Cell) : bool :=
  match border cell with
  | None => false
  | Some b =>
      (thin (border_top b) && thin (border_bottom b)
       && thin (border_left b) && thin (border_right b))
      && calibri cell 9
      && match alignment cell with
         | None => false
         | Some a =>
             is_text (horizontal a) "center" && none_or (vertical a) "bottom"
             && negb (wrap_text a)
         end
  end.

(** The border entries of [style_props]: one for each side that is
    there. *)
Definition border_props (cell : Cell) : Props :=
  match border cell with
  | None => []
  | Some b =>
      let style_props : Props := [] in
      let style_props :=
        match border_top b with
        | Some _ => set_item style_props "border-top" (get_border_css (border_top b))
        | None => style_props
        end in
      let style_props :=
        match border_bottom b with
        | Some _ =>
            set_item style_props "border-bottom" (get_border_css (border_bottom b))
        | None => style_props
        end in
      let style_props :=
        match border_left b with
        | Some _ => set_item style_props "border-left" (get_border_css (border_left b))
        | None => style_props
        end in
      match border_right b with
      | Some _ => set_item style_props "border-right" (get_border_css (border_right b))
      | None => style_props
      end
  end.

Definition generate_cell_style (cell : Cell) : string :=
  if is_calibri cell then "calibri-cell"
  else if is_calibri_11 cell then "calibri-cell-11"
  else if is_calibri_bordered cell then "calibri-cell-bordered"
  else
    let style_props := border_props cell in
    let style_props := update style_props (get_alignment_css (alignment cell)) in
    let style_props := update style_props (get_font_css (font cell)) in
    let style_props := setdefault style_props "color" "#000000" in
    let style_props := setdefault style_props "direction" "ltr" in
    let style_props := setdefault style_props "padding" "0px 3px 0px 3px" in
    PyText.join "; " ((fun kv => fst kv +:+ ": " +:+ snd kv) <$> style_props).

End Formatting.

End Style.

(** ** ExcelToHTMLConverter: the rendered table and its document *)

Module Renderer.
Import Sheet.

Definition q : string := String Py.dquote EmptyString.

(** What the renderer reads of a worksheet besides its merged ranges and
    its values: the two extents, the pixel widths and heights that
    [get_column_widths] and [get_row_heights] computed (by column letter
    and by row number, where the dimension has a size), and the format of
    each cell. *)
Record Layout := mkLayout {
  ws_max_row : Z;
  ws_max_column : Z;
  column_widths : string -> option Z;
  row_heights : Z -> option Z;
  cell_format : Z -> Z -> Style.Cell
}.

(** [generate_css]: the text between the triple quotes, line by line. *)
Definition generate_css : string :=
  PyText.join PyText.nl
    [ "";
      "        <style type=" +:+ q +:+ "text/css" +:+ q +:+ ">";
      "            .ritz .waffle a {";
      "                color: inherit;";
      "            }";
      "            .ritz .waffle {";
      "                border-collapse: collapse;";
      "                font-family: Arial, sans-serif;";
      "                font-size: 10pt;";
      "            }";
      "            .ritz .waffle td, .ritz .waffle th {";
      "                padding: 3px;";
      "                border: 1px solid #ccc;";
      "            }";
      "            .column-headers-background {";
      "                background-color: #f0f0f0;";
      "                font-weight: bold;";
      "            }";
      "            .row-headers-background {";
      "                background-color: #f0f0f0;";
      "                font-weight: bold;";
      "                text-align: center;";
      "            }";
      "            .row-header-wrapper {";
      "                line-height: 18px;";
      "            }";
      "";
      "            .calibri-cell {";
      "                border-top: none;";
      "                border-bottom: none;";
      "                border-left: none;";
      "                border-right: none;";
      "                text-align: left;";
      "                vertical-align: bottom;";
      "                white-space: nowrap;";
      "                font-family: Calibri, Arial, sans-serif;";
      "                font-size: 9pt;";
      "                color: #000000;";
      "                direction: ltr;";
      "                padding: 0px 3px 0px 3px;";
      "            }";
      "";
      "            .calibri-cell-bordered {";
      "                border-top: 1px solid #000000;";
      "                border-bottom: 1px solid #000000;";
      "                border-left: 1px solid #000000;";
      "                border-right: 1px solid #000000;";
      "                text-align: center;";
      "                vertical-align: bottom;";
      "                white-space: nowrap;";
      "                font-family: Calibri, Arial, sans-serif;";
      "                font-size: 9pt;";
      "                color: #000000;";
      "                direction: ltr;";
      "                padding: 0px 3px 0px 3px;";
      "            }";
      "";
      "            .calibri-cell-11 {";
      "                border-top: none;";
      "                border-bottom: none;";
      "                border-left: none;";
      "                border-right: none;";
      "                text-align: left;";
      "                vertical-align: bottom;";
      "                white-space: nowrap;";
      "                font-family: Calibri, sans-serif;";
      "                font-size: 11pt;";
      "                color: #000000;";
      "                direction: ltr;";
      "                padding: 0px 3px 0px 3px;";
      "            }";
      "        </style>";
      "        " ]%string.

Section Rendering.
(** [str(x)] for a float [x]. *)
Variable float_str : Py.PyFloat -> string.
Variable worksheet : Worksheet.
Variable layout : Layout.

Definition width_style (col_letter : string) : string :=
  match column_widths layout col_letter with
  | Some width_px =>
      " style=" +:+ q +:+ "width:" +:+ (Py.str width_px +:+ "px") +:+ ";" +:+ q
  | None => EmptyString
  end.

Definition height_style (row : Z) : string :=
  match row_heights layout row with
  | Some height_px =>
      " style=" +:+ q +:+ "height:" +:+ (Py.str height_px +:+ "px") +:+ ";" +:+ q
  | None => " style=" +:+ q +:+ "height:18px" +:+ q
  end.

(** One turn of the loop over the columns of the header row;
    [get_column_letter] raises beyond column 18278. *)
Definition header_cell (col : Z) : option string :=
  col_letter ← Applier.get_column_letter col;
  Some ("<th id=" +:+ q +:+ "col" +:+ Py.str col +:+ q +:+ width_style col_letter
        +:+ " class=" +:+ q +:+ "column-headers-background" +:+ q +:+ ">"
        +:+ col_letter +:+ "</th>").

Definition display_value (cell_value : option Py.Scalar) : string :=
  match cell_value with
  | None | Some Py.SNone => EmptyString
  | Some (Py.SInt z) => Py.str z
  | Some (Py.SFloat x) => float_str x
  | Some (Py.SStr s) => PyText.escape s
  end.

Definition style_attr (cell_style : string) : string :=
  if String.eqb cell_style "calibri-cell"
  then "class=" +:+ q +:+ "calibri-cell" +:+ q
  else if String.eqb cell_style "calibri-cell-11"
  then "class=" +:+ q +:+ "calibri-cell-11" +:+ q
  else if String.eqb cell_style "calibri-cell-bordered"
  then "class=" +:+ q +:+ "calibri-cell-bordered" +:+ q
  else "style=" +:+ q +:+ cell_style +:+ q.

(** [colspan] and [rowspan] of [merge_info], where they are there and
    true. *)
Definition span_attrs (merge_info : option Geometry.MergeInfo) : list string :=
  match merge_info with
  | Some (Geometry.MergedRoot colspan rowspan) =>
      match colspan with
      | Some n => if n =? 0 then [] else ["colspan=" +:+ q +:+ Py.str n +:+ q]
      | None => []
      end
      ++ match rowspan with
         | Some n => if n =? 0 then [] else ["rowspan=" +:+ q +:+ Py.str n +:+ q]
         | None => []
         end
  | _ => []
  end.

(** One turn of the loop over the columns of a row: nothing for a hidden
    cell, one [td] otherwise. *)
Definition cell_parts (merged_ranges : gmap (Z * Z) Geometry.MergeInfo)
    (row col : Z) : list string :=
  let merge_info := merged_ranges !! (row, col) in
  match merge_info with
  | Some Geometry.HiddenEntry => []
  | _ =>
      let display_value := display_value (cells worksheet !! (row, col)) in
      let cell_style := Style.generate_cell_style float_str (cell_format layout row col) in
      let cell_attrs := style_attr cell_style :: span_attrs merge_info in
      let attrs_str :=
        match cell_attrs with
        | [] => EmptyString
        | _ => " " +:+ PyText.join " " cell_attrs
        end in
      ["<td" +:+ attrs_str +:+ ">" +:+ display_value +:+ "</td>"]
  end.

(** One turn of the loop over the rows. *)
Definition row_parts (merged_ranges : gmap (Z * Z) Geometry.MergeInfo)
    (max_col row : Z) : list string :=
  [ "<tr" +:+ height_style row +:+ ">";
    "<th id=" +:+ q +:+ "row" +:+ Py.str row +:+ q +:+ height_style row
      +:+ " class=" +:+ q +:+ "row-headers-background" +:+ q +:+ ">";
    "<div class=" +:+ q +:+ "row-header-wrapper" +:+ q +:+ " style=" +:+ q
      +:+ "line-height: 18px" +:+ q +:+ ">" +:+ Py.str row +:+ "</div>";
    "</th>" ]
  ++ concat (cell_parts merged_ranges row <$> Py.range2 1 (max_col + 1))
  ++ [ "</tr>" ].

(** [convert_worksheet_to_html]; [None] where a column letter cannot be
    formed. *)
Definition convert_worksheet_to_html : option string :=
  let merged_ranges := Geometry.find_merged_ranges worksheet in
  let max_row := ws_max_row layout in
  let max_col := ws_max_column layout in
  if (max_row =? 1) && (max_col =? 1)
     && Applier.falsy (default Py.SNone (cells worksheet !! (1, 1)))
  then Some "<p>Empty worksheet</p>"%string
  else
    headers ← mapM header_cell (Py.range2 1 (max_col + 1));
    Some (PyText.join PyText.nl
            ([ "<div class=" +:+ q +:+ "ritz grid-container" +:+ q +:+ " dir=" +:+ q
                 +:+ "ltr" +:+ q +:+ ">";
               "<table class=" +:+ q +:+ "waffle" +:+ q +:+ " cellspacing=" +:+ q
                 +:+ "0" +:+ q +:+ " cellpadding=" +:+ q +:+ "0" +:+ q +:+ ">";
               "<thead><tr>";
               "<th class=" +:+ q +:+ "row-header freezebar-origin-ltr" +:+ q
                 +:+ "></th>" ]
             ++ headers
             ++ [ "</tr></thead>"; "<tbody>" ]
             ++ concat (row_parts merged_ranges max_col <$> Py.range2 1 (max_row + 1))
             ++ [ "</tbody>"; "</table>"; "</div>" ])).

(** [convert_worksheet_to_separate_html]: the text written to the file. *)
Definition convert_worksheet_to_separate_html (worksheet_name base_filename : string)
  : option string :=
  table ← convert_worksheet_to_html;
  Some (PyText.join PyText.nl
          [ "<!DOCTYPE html>";
            "<html>";
            "<head>";
            "<meta http-equiv=" +:+ q +:+ "Content-Type" +:+ q +:+ " content=" +:+ q
              +:+ "text/html; charset=utf-8" +:+ q +:+ ">";
            "<title>" +:+ PyText.escape worksheet_name +:+ " - "
              +:+ PyText.escape base_filename +:+ "</title>";
            generate_css;
            "</head>";
            "<body>";
            "<h1>Sheet: " +:+ PyText.escape worksheet_name +:+ "</h1>";
            table;
            "</body>";
            "</html>" ]).

(** The worksheet is rendered as empty. *)
Definition rendered_empty : bool :=
  (ws_max_row layout =? 1) && (ws_max_column layout =? 1)
  && Applier.falsy (default Py.SNone (cells worksheet !! (1, 1))).

(** No font name of the sheet holds a double quote. *)
Definition plain_fonts : Prop :=
  forall row col f name,
    Style.font (cell_format layout row col) = Some f ->
    Style.font_name f = Some name -> PyText.quiet name = true.

End Rendering.

End Renderer.

(** ** One pass over the markup

    An automaton for the row pattern, to compare with [findall_rows]: it
    reads the text once, keeps how much of a marker it has just read, and
    gives out the digits of each marker as the marker closes. *)

Module Scanner.

Inductive State :=
| Prefix (k : nat)
| Digits (d : string).

Definition restart (c : ascii) : State :=
  if Ascii.eqb c "i" then Prefix 1 else Prefix 0.

Definition step (st : State) (c : ascii) : State * list string :=
  match st with
  | Digits d =>
      if Py.is_digit c then (Digits (d +:+ String c EmptyString), [])
      else if Ascii.eqb c Py.dquote then (Prefix 0, [d])
      else (restart c, [])
  | Prefix k =>
      match String.get k Reconciler.row_prefix with
      | Some e => if Ascii.eqb c e then (Prefix (S k), []) else (restart c, [])
      | None =>
          if Py.is_digit c then (Digits (String c EmptyString), [])
          else (restart c, [])
      end
  end.

Fixpoint scan (st : State) (s : string) : State * list string :=
  match s with
  | EmptyString => (st, [])
  | String c r =>
      let '(st', out) := step st c in
      let '(st'', out') := scan st' r in
      (st'', out ++ out')
  end.

(** No double quote has been read since the last restart. *)
Definition low (st : State) : bool :=
  match st with
  | Prefix k => (k <=? 3)%nat
  | Digits _ => false
  end.

(** What the automaton has read of a marker. *)
Definition pending (st : State) : string :=
  match st with
  | Prefix k => String.substring 0 k Reconciler.row_prefix
  | Digits d => Reconciler.row_prefix +:+ d
  end.

Definition valid (st : State) : Prop :=
  match st with
  | Prefix k => (k <= 7)%nat
  | Digits d => Py.isdigit d = true
  end.

(** Where the automaton can be after reading [s] from one of the states
    [Prefix k], [k] in [ks]. *)
Definition image (ks : list nat) (s : string) : list nat :=
  map (fun k => match fst (scan (Prefix k) s) with
                | Prefix k' => k'
                | Digits _ => O
                end) ks.

(** Read from any of those states, [s] gives no output and leaves the
    automaton outside a run of digits. *)
Definition silent (ks : list nat) (s : string) : bool :=
  forallb (fun k => match scan (Prefix k) s with
                    | (Prefix _, []) => true
                    | _ => false
                    end) ks.

Definition all_low (ks : list nat) : bool := forallb (fun k => (k <=? 3)%nat) ks.

Definition all_open (ks : list nat) : bool := forallb (fun k => (k =? 7)%nat) ks.

Definition subset (ks ks' : list nat) : bool :=
  forallb (fun k => existsb (Nat.eqb k) ks') ks.

(** From a state of [ks], reading [s] gives out [ds] and ends in a state
    of [ks']. *)
Definition reach (ks : list nat) (s : string) (ks' : list nat) (ds : list string)
  : Prop :=
  forall k, In k ks -> exists k', In k' ks' /\ scan (Prefix k) s = (Prefix k', ds).

(** From a low state, reading [s] gives out [ds] and ends in a low
    state. *)
Definition yields (s : string) (ds : list string) : Prop :=
  reach [0; 1; 2; 3]%nat s [0; 1; 2; 3]%nat ds.

End Scanner.

(** ** Theorems *)

Section ChunkFacts.
Import Chunks.
Variables (N c : Z).
Hypothesis HN : 1 <= N.
Hypothesis Hc : 1 <= c.

Lemma num_chunks_ceiling :
  (num_chunks N c - 1) * c < N <= num_chunks N c * c.
Proof using HN Hc.
  unfold num_chunks.
  pose proof (Z.div_mod (N + c - 1) c ltac:(lia)) as Hdm.
  pose proof (Z.mod_pos_bound (N + c - 1) c ltac:(lia)) as Hmb.
  nia.
Qed.

Lemma num_chunks_pos : 1 <= num_chunks N c.
Proof using HN Hc. pose proof num_chunks_ceiling. nia. Qed.

Lemma length_chunk_windows :
  Z.of_nat (length (chunk_windows N c)) = num_chunks N c.
Proof using HN Hc.
  unfold chunk_windows, Py.range. rewrite length_fmap, length_seqZ.
  pose proof num_chunks_pos. lia.
Qed.

Lemma lookup_chunk_windows (i : nat) (w : Z * Z) :
  chunk_windows N c !! i = Some w <->
  w = window N c (Z.of_nat i) /\ Z.of_nat i < num_chunks N c.
Proof.
  unfold chunk_windows, Py.range. rewrite list_lookup_fmap.
  destruct (seqZ 0 (num_chunks N c) !! i) as [k|] eqn:E; simpl.
  - apply lookup_seqZ in E as [-> ?]. rewrite Z.add_0_l.
    split; [intros [= <-]; done | intros [-> _]; done].
  - split; [done | intros [_ Hlt]].
    rewrite lookup_seqZ_lt in E by done. done.
Qed.

(** The first [j] windows ask for exactly the rows [1 .. min (j*c) N]. *)
Lemma rows_of_prefix (j : nat) :
  Z.of_nat j <= num_chunks N c ->
  concat (rows_of <$> (window N c <$> seqZ 0 (Z.of_nat j)))
  = seqZ 1 (Z.min (Z.of_nat j * c) N).
Proof using HN Hc.
  pose proof num_chunks_ceiling as Hceil.
  induction j as [|j IH]; intros Hj.
  - rewrite seqZ_nil by lia. simpl. rewrite seqZ_nil by lia. done.
  - rewrite seqZ_S, !fmap_app, concat_app, IH by lia. simpl.
    rewrite app_nil_r. unfold rows_of, window, row_start, row_end. simpl.
    assert (Z.of_nat j * c < N) by nia.
    rewrite (Z.min_l (Z.of_nat j * c) N) by lia.
    rewrite Z.add_0_l.
    replace (Z.of_nat j * c + 1) with (1 + Z.of_nat j * c) by lia.
    rewrite <- seqZ_app by lia. f_equal. lia.
Qed.

End ChunkFacts.

(** C5. For [N >= 1] rows and [chunk_size >= 1] the windows are
    [ceil(N / chunk_size)] many (the count [k] with
    [(k-1)*c < N <= k*c]); laid end to end they are the rows [1 .. N], each
    once and in increasing order; every window is non-empty and has at most
    [chunk_size] rows; each window starts right after the previous one
    ends; and 65 rows in chunks of 30 give 1-30, 31-60, 61-65. *)
Theorem chunk_partition (N c : Z) :
  1 <= N -> 1 <= c ->
  let ws := Chunks.chunk_windows N c in
  let k := Z.of_nat (length ws) in
  ((k - 1) * c < N <= k * c)
  /\ concat (Chunks.rows_of <$> ws) = seqZ 1 N
  /\ Forall (fun w => fst w <= snd w /\ snd w - fst w + 1 <= c) ws
  /\ (forall (i : nat) w w',
        ws !! i = Some w -> ws !! S i = Some w' -> fst w' = snd w + 1)
  /\ Chunks.chunk_windows 65 30 = [(1, 30); (31, 60); (61, 65)].
Proof.
  intros HN Hc ws k.
  pose proof (num_chunks_ceiling N c HN Hc) as Hceil.
  pose proof (length_chunk_windows N c HN Hc) as Hlen.
  fold ws in Hlen. fold k in Hlen.
  split; [rewrite Hlen; exact Hceil|].
  split.
  - subst ws. unfold Chunks.chunk_windows, Py.range.
    pose proof (rows_of_prefix N c HN Hc (Z.to_nat (Chunks.num_chunks N c))) as Hp.
    rewrite Z2Nat.id in Hp by lia. rewrite Hp by lia. f_equal. lia.
  - split; [|split; [|reflexivity]].
    + apply Forall_lookup. intros i w Hw.
      apply lookup_chunk_windows in Hw as [-> Hi].
      unfold Chunks.window, Chunks.row_start, Chunks.row_end. simpl. nia.
    + intros i w w' Hw Hw'.
      apply lookup_chunk_windows in Hw as [-> Hi].
      apply lookup_chunk_windows in Hw' as [-> Hi'].
      unfold Chunks.window, Chunks.row_start, Chunks.row_end. simpl. nia.
Qed.

Lemma chunk_partition_witness :
  let ws := Chunks.chunk_windows 65 30 in
  let k := Z.of_nat (length ws) in
  ((k - 1) * 30 < 65 <= k * 30)
  /\ concat (Chunks.rows_of <$> ws) = seqZ 1 65
  /\ Forall (fun w => fst w <= snd w /\ snd w - fst w + 1 <= 30) ws
  /\ (forall (i : nat) w w',
        ws !! i = Some w -> ws !! S i = Some w' -> fst w' = snd w + 1)
  /\ Chunks.chunk_windows 65 30 = [(1, 30); (31, 60); (61, 65)].
Proof. apply (chunk_partition 65 30); lia. Defined.

(** ** Row counting *)

Section RowCounting.
Import Reconciler.

Lemma prefix_append (s t : string) : String.prefix s (s +:+ t) = true.
Proof.
  induction s as [|a s IH]; simpl; [by destruct t|].
  destruct (ascii_dec a a); [done | congruence].
Qed.

Lemma prefix_split (s t : string) :
  String.prefix s t = true -> exists r, t = s +:+ r.
Proof.
  revert t. induction s as [|a s IH]; intros t H.
  - by exists t.
  - destruct t as [|b t]; [done|]. simpl in H.
    destruct (ascii_dec a b) as [->|]; [|done].
    destruct (IH _ H) as [r ->]. by exists r.
Qed.

Lemma span_digits_split (s d rest : string) :
  Py.span_digits s = (d, rest) ->
  s = d +:+ rest /\ Py.all_chars Py.is_digit d = true.
Proof.
  revert d rest. induction s as [|a s IH]; intros d rest H; simpl in H.
  - by simplify_eq.
  - destruct (Py.is_digit a) eqn:Ea.
    + destruct (Py.span_digits s) as [d' rest'] eqn:E. simplify_eq.
      destruct (IH _ _ eq_refl) as [-> Hd]. simpl. by rewrite Ea.
    + by simplify_eq.
Qed.

Lemma span_digits_append (d post : string) :
  Py.all_chars Py.is_digit d = true ->
  Py.span_digits (d +:+ String Py.dquote post) = (d, String Py.dquote post).
Proof.
  induction d as [|a d IH]; simpl; intros H; [done|].
  apply andb_true_iff in H as [-> H]. by rewrite IH.
Qed.

Lemma isdigit_all (d : string) :
  Py.isdigit d = true <-> d <> EmptyString /\ Py.all_chars Py.is_digit d = true.
Proof.
  destruct d; simpl; (split; [intros H | intros [Hne H]]); try done.
Qed.

Lemma match_row_marker_here (d post : string) :
  Py.isdigit d = true -> match_row_marker (marker_then d post) = Some d.
Proof.
  intros [Hne Hd]%isdigit_all. unfold match_row_marker, marker_then.
  rewrite prefix_append.
  change (drop 7 (row_prefix +:+ (d +:+ String Py.dquote post)))
    with (d +:+ String Py.dquote post).
  rewrite span_digits_append by done. by destruct d.
Qed.

Lemma match_row_marker_inv (s d : string) :
  match_row_marker s = Some d ->
  Py.isdigit d = true /\ exists post, s = marker_then d post.
Proof.
  unfold match_row_marker. intros H.
  destruct (String.prefix row_prefix s) eqn:Ep; [|done].
  apply prefix_split in Ep as [r ->].
  change (drop 7 (row_prefix +:+ r)) with r in H.
  destruct (Py.span_digits r) as [d' rest] eqn:Es.
  apply span_digits_split in Es as [-> Hd].
  destruct d' as [|d0 d']; [done|]. destruct rest as [|q rest]; [done|].
  destruct (Ascii.eqb q Py.dquote) eqn:Eq; [|done].
  apply Ascii.eqb_eq in Eq as ->. inversion H; subst.
  split; [exact Hd | by exists rest].
Qed.

(** Soundness of the scan: what it reports is a marker of the text. *)
Lemma findall_from_sound (s : string) : forall skip d,
  In d (findall_from skip s) -> contains_marker s d.
Proof.
  induction s as [|a s IH]; intros skip d Hin; simpl in Hin; [done|].
  assert (Hlift : forall k, In d (findall_from k s) ->
                            contains_marker (String a s) d).
  { intros k Hk. destruct (IH _ _ Hk) as (Hd & pre & post & ->).
    split; [done|]. by exists (String a pre), post. }
  destruct skip as [|k]; [|by eapply Hlift].
  destruct (match_row_marker (String a s)) as [d'|] eqn:Em; [|by eapply Hlift].
  destruct Hin as [->|Hin]; [|by eapply Hlift].
  apply match_row_marker_inv in Em as (Hd & post & Hs).
  split; [done|]. exists EmptyString, post. by rewrite Hs.
Qed.

Lemma no_start_digits (d post : string) :
  Py.all_chars Py.is_digit d = true ->
  no_start (String.length d + 1) (d +:+ String Py.dquote post).
Proof.
  induction d as [|a d IH]; simpl; intros H.
  - split; [done | by destruct post].
  - apply andb_true_iff in H as [Ha H]. split; [|by apply IH].
    intros ->. done.
Qed.

Lemma no_start_after_match (a : ascii) (s d : string) :
  match_row_marker (String a s) = Some d ->
  no_start (7 + String.length d) s.
Proof.
  intros (Hd & post & Hs)%match_row_marker_inv.
  apply isdigit_all in Hd as [_ Hd].
  unfold marker_then, row_prefix in Hs. simpl in Hs. inversion Hs; subst.
  replace (7 + String.length d)%nat with (6 + (String.length d + 1))%nat by lia.
  cbn [no_start Nat.add String.append]. repeat (split; [done|]).
  by apply no_start_digits.
Qed.

(** Completeness of the scan: every marker of the text is reported. *)
Lemma findall_from_complete (d : string) (Hd : Py.isdigit d = true) :
  forall pre post skip,
    no_start skip (pre +:+ marker_then d post) ->
    In d (findall_from skip (pre +:+ marker_then d post)).
Proof.
  induction pre as [|a pre IH]; intros post skip Hsafe.
  - destruct skip as [|k].
    + change (EmptyString +:+ marker_then d post) with (marker_then d post).
      pose proof (match_row_marker_here d post Hd) as Hm.
      assert (exists r, marker_then d post = String "i" r) as [r Hr]
        by (eexists; reflexivity).
      rewrite Hr in *. simpl. rewrite Hm. by left.
    + unfold marker_then, row_prefix in Hsafe. simpl in Hsafe.
      by destruct Hsafe as [Hi _].
  - simpl. destruct skip as [|k].
    + destruct (match_row_marker _) as [d'|] eqn:Em.
      * right. apply IH. by eapply no_start_after_match.
      * by apply IH.
    + apply IH. simpl in Hsafe. tauto.
Qed.

Lemma findall_rows_spec (html d : string) :
  In d (findall_rows html) <-> Reconciler.contains_marker html d.
Proof.
  split; [apply findall_from_sound|].
  intros (Hd & pre & post & ->). by apply findall_from_complete.
Qed.

Lemma digits_value_str (k : Z) :
  0 <= k -> Py.digits_value (Py.str_of_nonneg k) = k.
Proof.
  intros Hk. unfold Py.digits_value, Py.str_of_nonneg.
  rewrite NilEmpty.usu, DecimalN.Unsigned.of_to. lia.
Qed.

Lemma py_max_upper (l : list Z) : forall x b,
  x <= b -> Forall (fun y => y <= b) l -> py_max x l <= b.
Proof.
  induction l as [|y l IH]; intros x b Hx Hl; simpl; [done|].
  inversion Hl; subst. apply IH; [lia | done].
Qed.

Lemma py_max_lower (l : list Z) : forall x, x <= py_max x l.
Proof.
  induction l as [|y l IH]; intros x; simpl; [lia|].
  specialize (IH (Z.max x y)). lia.
Qed.

Lemma py_max_ge (l : list Z) : forall x y, In y l -> y <= py_max x l.
Proof.
  induction l as [|z l IH]; intros x y Hin; simpl; [done|].
  destruct Hin as [->|Hin]; [|by apply IH].
  pose proof (py_max_lower l (Z.max x y)). lia.
Qed.

End RowCounting.

(** C8. A rendered table whose row markers are exactly those of the rows
    [1 .. N] ([N >= 1]), wherever and in whatever order they stand in the
    text, has row count [N]. *)
Theorem count_rows_stable (html : string) (N : Z) :
  1 <= N ->
  (forall k, 1 <= k <= N -> Reconciler.contains_marker html (Py.str_of_nonneg k)) ->
  (forall d, Reconciler.contains_marker html d ->
             exists k, 1 <= k <= N /\ d = Py.str_of_nonneg k) ->
  Reconciler.count_html_rows html = N.
Proof.
  intros HN Hall Honly. unfold Reconciler.count_html_rows.
  assert (Hin : In N (Py.digits_value <$> Reconciler.findall_rows html)).
  { apply in_map_iff. exists (Py.str_of_nonneg N). split.
    - apply digits_value_str. lia.
    - apply findall_rows_spec, Hall. lia. }
  assert (Hle : Forall (fun y => y <= N)
                       (Py.digits_value <$> Reconciler.findall_rows html)).
  { apply List.Forall_forall. intros y (d & <- & Hd)%in_map_iff.
    apply findall_rows_spec, Honly in Hd as (k & Hk & ->).
    rewrite digits_value_str; lia. }
  destruct (Py.digits_value <$> Reconciler.findall_rows html) as [|n l]; [done|].
  inversion Hle; subst. apply Z.le_antisymm.
  - by apply py_max_upper.
  - destruct Hin as [->|Hin]; [apply py_max_lower | by apply py_max_ge].
Qed.

(** ** The dispatch loop *)

Section DispatchFacts.
Import Reconciler.
Variable client : string -> string -> Z -> Z -> option string.
Variable json_loads : string -> option (list CellPatch).
Variables (html text : string).

Local Abbreviation analyze := (analyze_html_table_with_openai client json_loads html text).
Local Abbreviation contribution := (Reconciler.contribution client json_loads html text).

Lemma process_chunk_contribution (total c : Z) (acc : list CellPatch) (k : Z) :
  process_chunk client json_loads html text total c acc k
  = acc ++ contribution (Chunks.window total c k).
Proof.
  unfold process_chunk, Reconciler.contribution, Chunks.window. simpl.
  destruct (analyze _ _) as [[] [m|]]; by rewrite ?app_nil_r.
Qed.

Lemma fold_process_chunk (total c : Z) (ks : list Z) : forall acc,
  fold_left (process_chunk client json_loads html text total c) ks acc
  = acc ++ concat (contribution <$> (Chunks.window total c <$> ks)).
Proof.
  induction ks as [|k ks IH]; intros acc; simpl.
  - by rewrite app_nil_r.
  - by rewrite IH, process_chunk_contribution, <- app_assoc.
Qed.

Lemma concat_nonempty {A} (ls : list (list A)) :
  concat ls <> [] <-> exists l, l ∈ ls /\ l <> [].
Proof.
  induction ls as [|l ls IH]; simpl.
  - split; [done | intros (l & Hl & _); by apply elem_of_nil in Hl].
  - split.
    + intros H. destruct l as [|x l].
      * apply IH in H as (l' & Hl' & Hne). exists l'. split; [by right | done].
      * exists (x :: l). split; [by left | done].
    + intros (l' & Hl' & Hne) H. apply app_eq_nil in H as [-> H].
      apply elem_of_cons in Hl' as [->|Hl']; [done|].
      apply IH; [by exists l' | done].
Qed.

(** The flag and the artifact of a run, in terms of the windows. *)
Lemma process_result (c : Z) :
  let total := count_html_rows html in
  let all := concat (contribution <$> Chunks.chunk_windows total c) in
  process_html_file_in_chunks client json_loads html text c
  = if (total =? 0) || (c =? 0) then (false, None)
    else match all with [] => (false, None) | _ => (true, Some all) end.
Proof.
  intros total all. unfold process_html_file_in_chunks. fold total.
  destruct (total =? 0); [done|]. destruct (c =? 0); [done|]. simpl.
  rewrite fold_process_chunk. done.
Qed.

End DispatchFacts.

(** C1, as stated, fails: a table without row markers makes the run
    return the failure flag and write no patch set, not success with an
    empty patch set. *)
Lemma empty_table_is_not_success :
  ~ (forall client json_loads html text c,
       Reconciler.count_html_rows html = 0 ->
       Reconciler.process_html_file_in_chunks client json_loads html text c
       = (true, Some [])).
Proof.
  intros H.
  specialize (H (fun _ _ _ _ => None) (fun _ => None)
                "<p>Empty worksheet</p>"%string ""%string 30 eq_refl).
  vm_compute in H. discriminate H.
Qed.

(** C1, amended. A table with row count 0 ends the run before any window
    is dispatched: the run returns failure and writes no patch set. *)
Theorem empty_table_reports_failure
    (client : string -> string -> Z -> Z -> option string)
    (json_loads : string -> option (list Reconciler.CellPatch))
    (html text : string) (c : Z) :
  Reconciler.count_html_rows html = 0 ->
  Reconciler.process_html_file_in_chunks client json_loads html text c
  = (false, None).
Proof.
  intros H. unfold Reconciler.process_html_file_in_chunks. by rewrite H.
Qed.

Lemma empty_table_reports_failure_witness :
  Reconciler.count_html_rows "<p>Empty worksheet</p>" = 0 /\
  Reconciler.process_html_file_in_chunks
    (fun _ _ _ _ => Some "[]"%string) (fun _ => Some [])
    "<p>Empty worksheet</p>" "text" 30
  = (false, None).
Proof.
  split; [reflexivity|].
  apply (empty_table_reports_failure _ _ "<p>Empty worksheet</p>" "text" 30).
  reflexivity.
Defined.

(** C2, as stated, fails: a window whose response parses to the empty
    array is a successfully parsed window, yet the run reports failure. *)
Lemma parsed_window_without_patches_fails :
  ~ (forall client json_loads html text c,
       fst (Reconciler.process_html_file_in_chunks client json_loads html text c) = true
       <-> exists w, w ∈ Chunks.chunk_windows (Reconciler.count_html_rows html) c /\
                     fst (Reconciler.analyze_html_table_with_openai
                            client json_loads html text (fst w) (snd w)) = true).
Proof.
  intros H.
  destruct (H (fun _ _ _ _ => Some "[]"%string) (fun _ => Some [])
              Reconciler.one_row_table ""%string 30) as [_ Hback].
  assert (Hrun : false = true); [|discriminate Hrun].
  apply Hback. exists (1, 1). split; [|reflexivity].
  vm_compute. left.
Qed.

(** C2, amended. The run reports success exactly when some dispatched
    window was parsed successfully and carried at least one patch; the
    patch set written is then the windows' patches in window order.  With
    no successfully parsed window the file is reported failed. *)
Theorem run_success_iff_some_patch
    (client : string -> string -> Z -> Z -> option string)
    (json_loads : string -> option (list Reconciler.CellPatch))
    (html text : string) (c : Z) :
  let total := Reconciler.count_html_rows html in
  let windows := Chunks.chunk_windows total c in
  let analyze w := Reconciler.analyze_html_table_with_openai
                     client json_loads html text (fst w) (snd w) in
  let run := Reconciler.process_html_file_in_chunks client json_loads html text c in
  (fst run = true <->
     total <> 0 /\
     exists w m, w ∈ windows /\ analyze w = (true, Some m) /\ m <> [])
  /\ (fst run = true ->
      snd run = Some (concat (Reconciler.contribution client json_loads html text <$> windows)))
  /\ ((forall w, w ∈ windows -> fst (analyze w) = false) -> fst run = false).
Proof.
  intros total windows analyze run.
  assert (Hiff : fst run = true <->
     total <> 0 /\
     exists w m, w ∈ windows /\ analyze w = (true, Some m) /\ m <> []).
  { subst run. rewrite process_result. fold total. fold windows.
    destruct (total =? 0) eqn:Et; simpl.
    { apply Z.eqb_eq in Et. split; [done | intros [? _]; done]. }
    apply Z.eqb_neq in Et.
    destruct (c =? 0) eqn:Ec; simpl.
    { apply Z.eqb_eq in Ec. split; [done|].
      intros (_ & w & m & Hw & _). subst windows c.
      unfold Chunks.chunk_windows, Chunks.num_chunks in Hw.
      rewrite Z.div_0_r in Hw. by apply elem_of_nil in Hw. }
    transitivity (concat (Reconciler.contribution client json_loads html text <$> windows) <> []).
    { destruct (concat _); simpl; split; done. }
    rewrite concat_nonempty. split.
    - intros (l & Hl & Hne). split; [done|].
      apply list_elem_of_fmap in Hl as (w & -> & Hw).
      unfold Reconciler.contribution in Hne. fold (analyze w) in Hne.
      destruct (analyze w) as [[] [m|]] eqn:Ea; try done.
      by exists w, m.
    - intros (_ & w & m & Hw & Ha & Hne).
      exists (Reconciler.contribution client json_loads html text w). split.
      + apply list_elem_of_fmap. by exists w.
      + unfold Reconciler.contribution. fold (analyze w). by rewrite Ha. }
  split; [exact Hiff|]. split.
  - subst run. rewrite process_result. fold total. fold windows.
    destruct ((total =? 0) || (c =? 0)); [done|].
    by destruct (concat _).
  - intros Hnone. apply not_true_is_false. intros Er.
    apply Hiff in Er as (_ & w & m & Hw & Ha & _).
    specialize (Hnone w Hw). by rewrite Ha in Hnone.
Qed.

(** ** Value coercion *)

Section Coercion.
Import Applier Reading.

Lemma prefix_empty (s : string) : String.prefix EmptyString s = true.
Proof. by destruct s. Qed.

Lemma prefix_cons (c a : ascii) (s r : string) :
  String.prefix (String c s) (String a r) = Ascii.eqb c a && String.prefix s r.
Proof.
  change (String.prefix (String c s) (String a r))
    with (if ascii_dec c a then String.prefix s r else false).
  destruct (ascii_dec c a) as [->|Hne].
  - by rewrite Ascii.eqb_refl.
  - by destruct (Ascii.eqb_spec c a).
Qed.

Lemma contains_cons (old : string) (a : ascii) (r : string) :
  Py.contains old (String a r)
  = String.prefix old (String a r) || Py.contains old r.
Proof. done. Qed.

(** Replacing a one-character text is a character-wise substitution. *)
Lemma replace_char (c : ascii) (new s : string) :
  Py.replace (String c EmptyString) new s
  = subst_chars (fun a => if Ascii.eqb a c then new else String a EmptyString) s.
Proof.
  unfold Py.replace. induction s as [|a s IH]; [done|].
  cbn [Py.replace_from subst_chars String.length Nat.pred].
  rewrite prefix_cons, prefix_empty, andb_true_r, IH, (Ascii.eqb_sym c a).
  by destruct (Ascii.eqb a c).
Qed.





End Coercion.




(** ** Saving a workbook *)

Section Saving.
Import Applier.
Variable output_path : string -> JsonFile.
Variable workbook_name : string.

Lemma visit_sheet_updated (run : Run) (sheet_name : string) :
  workbook_updated (visit_sheet output_path workbook_name run sheet_name)
  = workbook_updated run
    || is_patch_set (output_path (json_filename workbook_name sheet_name)).
Proof.
  unfold visit_sheet, apply_patch_set.
  destruct (output_path _); simpl; rewrite ?orb_false_r, ?orb_true_r; try done.
  - by destruct (update_excel_sheet _ _ _).
  - by destruct (update_excel_sheet _ _ _).
Qed.

Lemma fold_visit_updated (sheet_names : list string) : forall run,
  workbook_updated (fold_left (visit_sheet output_path workbook_name) sheet_names run)
  = workbook_updated run
    || existsb (fun sheet_name =>
                  is_patch_set (output_path (json_filename workbook_name sheet_name)))
               sheet_names.
Proof.
  induction sheet_names as [|n rest IH]; intros run; simpl.
  - by rewrite orb_false_r.
  - by rewrite IH, visit_sheet_updated, orb_assoc.
Qed.

(** What decides the saving is that a patch set was found and decoded for
    some sheet, not that it led to an update. *)
Lemma workbook_saved_iff_patch_set_found (workbook : Workbook) :
  is_Some (fst (update_workbook output_path workbook_name workbook)) <->
  exists sheet_name,
    sheet_name ∈ (fst <$> workbook) /\
    is_patch_set (output_path (json_filename workbook_name sheet_name)) = true.
Proof.
  unfold update_workbook.
  destruct (workbook_updated _) eqn:E; rewrite fold_visit_updated in E; simpl in E.
  - split; [intros _ | by eexists].
    apply existsb_exists in E as (n & Hn & Hf). exists n.
    split; [by apply list_elem_of_In | done].
  - split; [intros [? ?]; done|]. intros (n & Hn & Hf).
    assert (existsb (fun sheet_name =>
                       is_patch_set (output_path (json_filename workbook_name sheet_name)))
                    (fst <$> workbook) = true) as Hex.
    { apply existsb_exists. exists n. split; [by apply list_elem_of_In | done]. }
    by rewrite Hex in E.
Qed.

End Saving.

(** C3, where the code departs from it.  The patch set [book_Summary.json]
    is the empty array: no cell of [book.xlsx] is updated, yet the
    workbook is saved to the updated-workbooks folder, unchanged. *)
Theorem workbook_saved_without_any_update :
  Applier.update_workbook Examples.folder_with_empty_patch_set "book" Examples.book
  = (Some Examples.book, 0).
Proof. reflexivity. Qed.

(** ** Merged ranges *)

Section MergedRanges.
Import Sheet.

Lemma coversb_covers (r : MergedRange) (p : Z * Z) :
  coversb r p = true <-> covers r p.
Proof. unfold coversb, covers. rewrite !andb_true_iff, !Z.leb_le. tauto. Qed.

Lemma covers_top_left (r : MergedRange) : ordered r -> covers r (top_left r).
Proof. unfold ordered, covers, top_left. simpl. lia. Qed.

(** Two ranges of a non-overlapping list that share a coordinate are
    one and the same. *)
Lemma non_overlapping_unique (ranges : list MergedRange) (r r' : MergedRange)
    (p : Z * Z) :
  non_overlapping ranges -> r ∈ ranges -> r' ∈ ranges ->
  covers r p -> covers r' p -> r = r'.
Proof.
  induction ranges as [|r0 rest IH]; intros Hno Hr Hr' Hc Hc'.
  - by apply elem_of_nil in Hr.
  - destruct Hno as [Hhead Hrest].
    apply elem_of_cons in Hr as [->|Hr]; apply elem_of_cons in Hr' as [->|Hr'].
    + done.
    + by destruct (Hhead r' p Hr' Hc Hc').
    + by destruct (Hhead r p Hr Hc' Hc).
    + by apply IH.
Qed.

Section ForCells.
Context {V : Type}.
Variable f : Z -> Z -> option V.

Local Abbreviation put := (put_where f).

Lemma put_lookup (row col : Z) (acc : gmap (Z * Z) V) (p : Z * Z) :
  put row col acc !! p
  = if decide (p = (row, col)) then
      match f row col with Some v => Some v | None => acc !! p end
    else acc !! p.
Proof.
  unfold put_where. destruct (f row col) as [v|]; case_decide; subst; try done.
  - by rewrite lookup_insert_eq.
  - by rewrite lookup_insert_ne.
Qed.

Lemma fold_cols_lookup (row : Z) (cols : list Z) (p : Z * Z) :
  forall acc,
    fold_left (fun acc col => put row col acc) cols acc !! p
    = if decide (fst p = row /\ snd p ∈ cols) then
        match f (fst p) (snd p) with Some v => Some v | None => acc !! p end
      else acc !! p.
Proof.
  destruct p as [r0 c0]. simpl.
  induction cols as [|col cols IH]; intros acc; simpl.
  - case_decide as H; [|done]. destruct H as [_ H]. by apply elem_of_nil in H.
  - rewrite IH, put_lookup. clear IH.
    destruct (decide (r0 = row ∧ c0 ∈ cols)) as [[-> Hin]|Hnin].
    + rewrite (decide_True (P := _ ∧ _)) by (split; [done | by right]).
      destruct (f row c0) as [v|] eqn:Ef; [done|].
      case_decide as Heq; [|done]. simplify_eq. by rewrite Ef.
    + destruct (decide ((r0, c0) = (row, col))) as [Heq|Hne].
      * simplify_eq.
        rewrite (decide_True (P := _ ∧ _)) by (split; [done | by left]). done.
      * rewrite (decide_False (P := _ ∧ _)); [done|]. intros [-> Hin].
        apply elem_of_cons in Hin as [->|Hin]; [done|]. by apply Hnin.
Qed.

Lemma fold_rows_lookup (rows cols : list Z) (p : Z * Z) :
  forall acc,
    fold_left
      (fun acc row => fold_left (fun acc col => put row col acc) cols acc)
      rows acc !! p
    = if decide (fst p ∈ rows /\ snd p ∈ cols) then
        match f (fst p) (snd p) with Some v => Some v | None => acc !! p end
      else acc !! p.
Proof.
  induction rows as [|row rows IH]; intros acc; simpl.
  - destruct (decide (fst p ∈ [] ∧ snd p ∈ cols)) as [[H _]|_]; [|done].
    by apply elem_of_nil in H.
  - rewrite IH, fold_cols_lookup. clear IH.
    destruct (decide (fst p ∈ rows ∧ snd p ∈ cols)) as [[Hr Hc]|Hnin].
    + rewrite (decide_True (P := fst p ∈ row :: rows ∧ _))
        by (split; [by right | done]).
      destruct (f (fst p) (snd p)) as [v|]; [done|].
      by destruct (decide (fst p = row ∧ snd p ∈ cols)).
    + destruct (decide (fst p = row ∧ snd p ∈ cols)) as [[Hr Hc]|Hne].
      * rewrite (decide_True (P := fst p ∈ row :: rows ∧ _)).
        -- done.
        -- split; [rewrite Hr; by left | done].
      * rewrite (decide_False (P := fst p ∈ row :: rows ∧ _)); [done|].
        intros [Hin Hc].
        apply elem_of_cons in Hin as [Hr|Hin]; [by apply Hne | by apply Hnin].
Qed.

(** What the double loop over a range does to one coordinate. *)
Lemma for_cells_lookup (r : MergedRange) (m : gmap (Z * Z) V) (p : Z * Z) :
  for_cells r put m !! p
  = if decide (covers r p) then
      match f (fst p) (snd p) with Some v => Some v | None => m !! p end
    else m !! p.
Proof.
  unfold for_cells. rewrite fold_rows_lookup. unfold Py.range2.
  destruct (decide (covers r p)) as [Hc|Hc].
  - rewrite decide_True; [done|]. rewrite !elem_of_seqZ.
    unfold covers in Hc. lia.
  - rewrite decide_False; [done|]. rewrite !elem_of_seqZ.
    unfold covers in Hc. lia.
Qed.
End ForCells.

Lemma for_cells_ext {S : Type} (r : MergedRange)
    (body1 body2 : Z -> Z -> S -> S) (init : S) :
  (forall row col acc, body1 row col acc = body2 row col acc) ->
  for_cells r body1 init = for_cells r body2 init.
Proof.
  intros Hext. unfold for_cells.
  generalize (Py.range2 (min_col r) (max_col r + 1)) as cols.
  generalize (Py.range2 (min_row r) (max_row r + 1)) as rows.
  intros rows cols. revert init.
  induction rows as [|row rows IH]; intros init; simpl; [done|].
  rewrite IH. f_equal. clear IH. revert init.
  induction cols as [|col cols IH]; intros init; simpl; [done|].
  by rewrite IH, Hext.
Qed.

(** A pass over the ranges whose step overwrites exactly the
    coordinates of its range. *)
Section Passes.
Context {V : Type}.
Variable step : gmap (Z * Z) V -> MergedRange -> gmap (Z * Z) V.
Variable entry : MergedRange -> Z * Z -> V.
Hypothesis step_lookup : forall m r p,
  ordered r ->
  step m r !! p = if decide (covers r p) then Some (entry r p) else m !! p.

Lemma pass_outside (ranges : list MergedRange) (p : Z * Z) :
  Forall ordered ranges ->
  (forall r, r ∈ ranges -> ~ covers r p) ->
  forall m, fold_left step ranges m !! p = m !! p.
Proof using step_lookup.
  induction ranges as [|r0 rest IH]; intros Hord Hout m; simpl; [done|].
  apply Forall_cons in Hord as [Hr0 Hord].
  rewrite IH; [|done|intros r Hr; apply Hout; by right].
  rewrite step_lookup by done.
  rewrite decide_False; [done|]. apply Hout. by left.
Qed.

Lemma pass_inside (ranges : list MergedRange) (r : MergedRange) (p : Z * Z) :
  Forall ordered ranges -> non_overlapping ranges ->
  r ∈ ranges -> covers r p ->
  forall m, fold_left step ranges m !! p = Some (entry r p).
Proof using step_lookup.
  induction ranges as [|r0 rest IH]; intros Hord Hno Hr Hc m; simpl.
  - by apply elem_of_nil in Hr.
  - apply Forall_cons in Hord as [Hr0 Hord]. destruct Hno as [Hhead Hno].
    apply elem_of_cons in Hr as [->|Hr].
    + rewrite pass_outside; [|done|intros r' Hr'; by apply Hhead].
      rewrite step_lookup by done. by rewrite decide_True.
    + by apply IH.
Qed.
End Passes.

Lemma mark_range_lookup (m : gmap (Z * Z) Geometry.MergeInfo)
    (r : MergedRange) (p : Z * Z) :
  ordered r ->
  Geometry.mark_range m r !! p
  = if decide (covers r p) then
      Some (if decide (p = top_left r)
            then Geometry.MergedRoot
                   (Geometry.span_or_none (max_col r - min_col r + 1))
                   (Geometry.span_or_none (max_row r - min_row r + 1))
            else Geometry.HiddenEntry)
    else m !! p.
Proof.
  intros Hord. unfold Geometry.mark_range.
  rewrite (for_cells_ext r _
    (put_where (fun row col =>
       if negb (row =? min_row r) || negb (col =? min_col r)
       then Some Geometry.HiddenEntry else None))).
  2:{ intros row col acc. unfold put_where. by destruct (_ || _). }
  rewrite for_cells_lookup. destruct p as [row col]. unfold top_left. simpl.
  destruct (decide (covers r (row, col))) as [Hc|Hc].
  - destruct (decide ((row, col) = (min_row r, min_col r))) as [Heq|Hne].
    + simplify_eq. rewrite !Z.eqb_refl. simpl. by rewrite lookup_insert_eq.
    + destruct (Z.eqb_spec row (min_row r)), (Z.eqb_spec col (min_col r));
        simpl; try done. congruence.
  - rewrite lookup_insert_ne; [done|]. intros Heq. apply Hc.
    rewrite <- Heq. by apply covers_top_left.
Qed.

Lemma map_range_lookup (m : gmap (Z * Z) (Z * Z)) (r : MergedRange) (p : Z * Z) :
  ordered r ->
  Applier.map_range m r !! p
  = if decide (covers r p) then Some (top_left r) else m !! p.
Proof.
  intros _. unfold Applier.map_range.
  rewrite (for_cells_ext r _ (put_where (fun _ _ => Some (top_left r)))) by done.
  rewrite for_cells_lookup. by case_decide.
Qed.

Lemma covered_dec (ranges : list MergedRange) (p : Z * Z) :
  (exists r, r ∈ ranges /\ covers r p) \/ (forall r, r ∈ ranges -> ~ covers r p).
Proof.
  induction ranges as [|r0 rest [(r & Hr & Hc)|Hout]].
  - right. intros r Hr. by apply elem_of_nil in Hr.
  - left. exists r. split; [by right | done].
  - destruct (decide (covers r0 p)) as [Hc|Hc].
    + left. exists r0. split; [by left | done].
    + right. intros r [->|Hr]%elem_of_cons; [done | by apply Hout].
Qed.

End MergedRanges.

(** C7. On a worksheet whose merged ranges are in order and pairwise
    share no coordinate, the resolver's entry for a coordinate tells which
    of the three sets it lies in: a root entry exactly at the top-left
    corner of a range, with that range's spans; a hidden entry exactly at
    the other cells of a range; no entry exactly outside every range.  And
    every coordinate lies in exactly one of the three sets. *)
Theorem merged_classification (worksheet : Sheet.Worksheet) (p : Z * Z) :
  Forall Sheet.ordered (Sheet.merged_cells worksheet) ->
  Sheet.non_overlapping (Sheet.merged_cells worksheet) ->
  let ranges := Sheet.merged_cells worksheet in
  let class := Geometry.classify (Geometry.find_merged_ranges worksheet) p in
  let G := Geometry.is_governing ranges p in
  let H := Geometry.is_hidden ranges p in
  let O := Geometry.is_ordinary ranges p in
  ((exists colspan rowspan, class = Geometry.Governing colspan rowspan) <-> G)
  /\ (class = Geometry.Hidden <-> H)
  /\ (class = Geometry.Ordinary <-> O)
  /\ (forall r, r ∈ ranges -> p = Sheet.top_left r ->
        class = Geometry.Governing
                  (Geometry.span_or_none (Sheet.max_col r - Sheet.min_col r + 1))
                  (Geometry.span_or_none (Sheet.max_row r - Sheet.min_row r + 1)))
  /\ ((G /\ ~ H /\ ~ O) \/ (~ G /\ H /\ ~ O) \/ (~ G /\ ~ H /\ O)).
Proof.
  intros Hord Hno ranges class G H O.
  assert (Hord' : forall r, r ∈ ranges -> Sheet.ordered r)
    by (by apply Forall_forall).
  subst class G H O.
  unfold Geometry.classify, Geometry.find_merged_ranges. fold ranges.
  unfold Geometry.is_governing, Geometry.is_hidden, Geometry.is_ordinary,
    Sheet.subordinate.
  destruct (covered_dec ranges p) as [(r & Hr & Hc)|Hout].
  - rewrite (pass_inside _ _ mark_range_lookup ranges r p Hord Hno Hr Hc).
    assert (Huniq : forall r', r' ∈ ranges -> Sheet.covers r' p -> r' = r)
      by (intros r' Hr' Hc'; by eapply non_overlapping_unique).
    destruct (decide (p = Sheet.top_left r)) as [Heq|Hne].
    + assert (HnH : ~ exists r', r' ∈ ranges /\ Sheet.covers r' p /\ p <> Sheet.top_left r').
      { intros (r' & Hr' & Hc' & Hne'). by rewrite (Huniq r' Hr' Hc') in Hne'. }
      assert (HnO : ~ forall r', r' ∈ ranges -> ~ Sheet.covers r' p)
        by (intros HO; by apply (HO r Hr)).
      split; [split; [intros _; by exists r | intros _; by eexists _, _]|].
      split; [split; [done | intros HH; by destruct HnH]|].
      split; [split; [done | intros HO; by destruct HnO]|].
      split.
      * intros r' Hr' Heq'.
        assert (r' = r) as -> ; [|done].
        apply Huniq; [done|]. rewrite Heq'. apply covers_top_left. by apply Hord'.
      * left. split; [by exists r | done].
    + assert (HnG : ~ exists r', r' ∈ ranges /\ p = Sheet.top_left r').
      { intros (r' & Hr' & Heq'). apply Hne.
        assert (r' = r) as <-; [|done].
        apply Huniq; [done|]. rewrite Heq'. apply covers_top_left. by apply Hord'. }
      assert (HnO : ~ forall r', r' ∈ ranges -> ~ Sheet.covers r' p)
        by (intros HO; by apply (HO r Hr)).
      split; [split; [intros (? & ? & ?); done | intros HG; by destruct HnG]|].
      split; [split; [intros _; by exists r | done]|].
      split; [split; [done | intros HO; by destruct HnO]|].
      split.
      * intros r' Hr' Heq'. destruct HnG. by exists r'.
      * right. left. split; [done|]. split; [by exists r | done].
  - rewrite (pass_outside _ _ mark_range_lookup ranges p Hord Hout).
    rewrite lookup_empty.
    assert (HnG : ~ exists r', r' ∈ ranges /\ p = Sheet.top_left r').
    { intros (r' & Hr' & Heq'). apply (Hout r' Hr'). rewrite Heq'.
      apply covers_top_left. by apply Hord'. }
    assert (HnH : ~ exists r', r' ∈ ranges /\ Sheet.covers r' p /\ p <> Sheet.top_left r').
    { intros (r' & Hr' & Hc' & _). by apply (Hout r' Hr'). }
    split; [split; [intros (? & ? & ?); done | intros HG; by destruct HnG]|].
    split; [split; [done | intros HH; by destruct HnH]|].
    split; [done|].
    split.
    + intros r' Hr' Heq'. destruct HnG. by exists r'.
    + right. right. done.
Qed.

Section MergedExamples.
Import Sheet Examples.

Lemma merged_sheet_ordered : Forall well_formed (merged_cells merged_sheet).
Proof. repeat constructor; simpl; lia. Qed.

Lemma well_formed_ordered (ranges : list MergedRange) :
  Forall well_formed ranges -> Forall ordered ranges.
Proof. intros H. eapply Forall_impl; [exact H|]. by intros r [? _]. Qed.

Lemma merged_sheet_non_overlapping : non_overlapping (merged_cells merged_sheet).
Proof.
  simpl. split; [|split; [|done]].
  - intros r' p [->|Hr]%elem_of_cons; [|by apply elem_of_nil in Hr].
    unfold covers. simpl. lia.
  - intros r' p Hr. by apply elem_of_nil in Hr.
Qed.
End MergedExamples.

Lemma merged_classification_witness :
  let ranges := Sheet.merged_cells Examples.merged_sheet in
  let class := Geometry.classify (Geometry.find_merged_ranges Examples.merged_sheet) (1, 2) in
  let G := Geometry.is_governing ranges (1, 2) in
  let H := Geometry.is_hidden ranges (1, 2) in
  let O := Geometry.is_ordinary ranges (1, 2) in
  ((exists colspan rowspan, class = Geometry.Governing colspan rowspan) <-> G)
  /\ (class = Geometry.Hidden <-> H)
  /\ (class = Geometry.Ordinary <-> O)
  /\ (forall r, r ∈ ranges -> (1, 2) = Sheet.top_left r ->
        class = Geometry.Governing
                  (Geometry.span_or_none (Sheet.max_col r - Sheet.min_col r + 1))
                  (Geometry.span_or_none (Sheet.max_row r - Sheet.min_row r + 1)))
  /\ ((G /\ ~ H /\ ~ O) \/ (~ G /\ H /\ ~ O) \/ (~ G /\ ~ H /\ O)).
Proof.
  apply (merged_classification Examples.merged_sheet (1, 2)).
  - apply well_formed_ordered, merged_sheet_ordered.
  - apply merged_sheet_non_overlapping.
Defined.

(** ** Cell addresses *)

Section Addresses.
Import Sheet Applier.

Lemma all_columns_ok : forallb column_ok (seqZ 1 18278) = true.
Proof. vm_compute. reflexivity. Qed.

Lemma column_letters_ok (c : Z) : 1 <= c <= 18278 -> column_ok c = true.
Proof.
  intros Hc. pose proof all_columns_ok as H.
  rewrite forallb_forall in H. apply H, list_elem_of_In, elem_of_seqZ. lia.
Qed.

Lemma string_of_uint_digits (d : Decimal.uint) :
  Py.all_chars Py.is_digit (NilEmpty.string_of_uint d) = true.
Proof. induction d; simpl; [done | by rewrite IHd ..]. Qed.

Lemma str_digits (n : Z) :
  0 <= n -> Py.str n = Py.str_of_nonneg n /\ Py.isdigit (Py.str n) = true.
Proof.
  intros Hn. unfold Py.str. destruct (Z.ltb_spec n 0); [lia|].
  split; [done|]. apply isdigit_all. split.
  - unfold Py.str_of_nonneg. destruct (Z.to_N n) as [|q]; simpl; [done|].
    pose proof (DecimalPos.Unsigned.to_uint_nonnil q).
    by destruct (Pos.to_uint q).
  - apply string_of_uint_digits.
Qed.







Lemma append_length (a b : string) :
  String.length (a +:+ b) = (String.length a + String.length b)%nat.
Proof. induction a as [|x a IH]; simpl; [done | by rewrite IH]. Qed.


End Addresses.

(** ** Applying a patch to a merged cell *)

Section Redirect.
Import Sheet Applier.
Import Reconciler (CellPatch, cell_reference, value).


Lemma digit_facts (ch : ascii) :
  Py.is_digit ch = true ->
  Py.is_space ch = false /\ Ascii.eqb ch "_" = false /\
  Ascii.eqb ch "-" = false /\ Ascii.eqb ch "+" = false /\ is_upper ch = false.
Proof.
  unfold Py.is_digit, Py.is_space, is_upper. intros H.
  apply andb_true_iff in H as [H1 H2]. apply N.leb_le in H1, H2.
  repeat split.
  - apply orb_false_iff. split; apply andb_false_iff.
    + right. apply N.leb_gt. lia.
    + right. apply N.leb_gt. lia.
  - destruct (Ascii.eqb_spec ch "_") as [->|]; [|done]. simpl in *. lia.
  - destruct (Ascii.eqb_spec ch "-") as [->|]; [|done]. simpl in *. lia.
  - destruct (Ascii.eqb_spec ch "+") as [->|]; [|done]. simpl in *. lia.
  - apply andb_false_iff. left. apply N.leb_gt. lia.
Qed.

Lemma rstrip_digits (d : string) :
  Py.all_chars Py.is_digit d = true -> Py.rstrip_by Py.is_space d = d.
Proof.
  induction d as [|x d IH]; [done|]. intros [Hx Hd]%andb_true_iff.
  cbn [Py.rstrip_by]. rewrite (IH Hd).
  destruct (digit_facts x Hx) as (-> & _). by destruct d.
Qed.

Lemma strip_digits (d : string) :
  Py.all_chars Py.is_digit d = true -> Py.strip d = d.
Proof.
  intros Hd. unfold Py.strip, Py.strip_by.
  assert (Py.lstrip_by Py.is_space d = d) as ->.
  { destruct d as [|x d]; [done|]. simpl in Hd |- *.
    apply andb_true_iff in Hd as [Hx _].
    by destruct (digit_facts x Hx) as (-> & _). }
  by apply rstrip_digits.
Qed.

Lemma drop_underscores_digits (d : string) : forall prev,
  Ascii.eqb prev "_" = false ->
  Py.all_chars Py.is_digit d = true -> Py.drop_underscores prev d = Some d.
Proof.
  induction d as [|x d IH]; intros prev Hprev Hd.
  - simpl. by rewrite Hprev.
  - simpl in Hd. apply andb_true_iff in Hd as [Hx Hd].
    destruct (digit_facts x Hx) as (_ & Hu & _).
    cbn [Py.drop_underscores]. rewrite Hu, Hprev. cbn [andb].
    by rewrite (IH x Hu Hd).
Qed.

(** [int] reads back what [str] writes. *)
Lemma int_str (n : Z) : 0 <= n -> Py.int (Py.str n) = Some n.
Proof.
  intros Hn. destruct (str_digits n Hn) as [Hstr Hdig].
  pose proof Hdig as [Hne Hall]%isdigit_all.
  unfold Py.int. rewrite strip_digits by done.
  assert (Py.split_sign (Py.str n) = (false, Py.str n)) as ->.
  { destruct (Py.str n) as [|x d]; [done|]. simpl in Hall |- *.
    apply andb_true_iff in Hall as [Hx _].
    by destruct (digit_facts x Hx) as (_ & _ & -> & -> & _). }
  rewrite drop_underscores_digits by done. rewrite Hdig. simpl.
  by rewrite Hstr, digits_value_str.
Qed.

Lemma split_at_digit_address (l d : string) :
  Py.all_chars is_upper l = true -> Py.isdigit d = true ->
  split_at_digit (l +:+ d) = (l, d).
Proof.
  intros Hl [Hne Hd]%isdigit_all. induction l as [|a l IH].
  - destruct d as [|x d]; [done|]. simpl in Hd |- *.
    apply andb_true_iff in Hd as [-> _]. done.
  - simpl in Hl. apply andb_true_iff in Hl as [Ha Hl].
    change (split_at_digit (String a (l +:+ d)) = (String a l, d)).
    cbn [split_at_digit]. rewrite (IH Hl).
    destruct (Py.is_digit a) eqn:E; [|done].
    destruct (digit_facts a E) as (_ & _ & _ & _ & Hup). congruence.
Qed.

(** The address of a coordinate, written as the renderer's coordinate
    system has it, reads back as that coordinate. *)
Lemma coordinate_of_address (row col : Z) (letters : string) :
  0 <= row ->
  get_column_letter col = Some letters ->
  coordinate_to_tuple (letters +:+ Py.str row) = Some (row, col).
Proof.
  intros Hrow Hcol. unfold get_column_letter in Hcol.
  destruct ((1 <=? col) && (col <=? 18278)) eqn:Hrange; [|done].
  apply andb_true_iff in Hrange as [H1 H2]. apply Z.leb_le in H1, H2.
  pose proof (column_letters_ok col (conj H1 H2)) as Hok.
  unfold column_ok in Hok. simplify_eq.
  set (letters := column_letters 3 col EmptyString) in *.
  apply andb_true_iff in Hok as [Hok Hval].
  apply andb_true_iff in Hok as [Hok Hlen3].
  apply andb_true_iff in Hok as [Hup Hlen1].
  apply Z.eqb_eq in Hval.
  destruct (str_digits row Hrow) as [_ Hdig].
  unfold coordinate_to_tuple. rewrite split_at_digit_address by done.
  rewrite int_str by done. simpl.
  unfold col_string_cache. rewrite Hup, Hlen1, Hlen3. simpl. by rewrite Hval.
Qed.




Lemma merged_mapping_lookup (ws : Worksheet) (r : MergedRange) (p : Z * Z) :
  Forall ordered (merged_cells ws) -> non_overlapping (merged_cells ws) ->
  r ∈ merged_cells ws -> covers r p ->
  get_merged_cell_mapping ws !! p = Some (top_left r).
Proof.
  intros Hord Hno Hr Hc. unfold get_merged_cell_mapping.
  by rewrite (pass_inside _ (fun r _ => top_left r) map_range_lookup
                (merged_cells ws) r p).
Qed.


End Redirect.



(** ** The sheet-name convention *)

Section SheetNames.
Import Applier Reading.

Lemma append_assoc (a b c : string) : (a +:+ b) +:+ c = a +:+ b +:+ c.
Proof.
  induction a as [|x a IH]; [done|].
  change (String x ((a +:+ b) +:+ c) = String x (a +:+ b +:+ c)).
  by rewrite IH.
Qed.

Lemma subst_chars_append (f : ascii -> string) (x y : string) :
  subst_chars f (x +:+ y) = subst_chars f x +:+ subst_chars f y.
Proof.
  induction x as [|a x IH]; simpl; [done|].
  by rewrite IH, append_assoc.
Qed.

Lemma subst_chars_compose (f g : ascii -> string) (s : string) :
  subst_chars g (subst_chars f s) = subst_chars (fun a => subst_chars g (f a)) s.
Proof.
  induction s as [|a s IH]; simpl; [done|].
  by rewrite subst_chars_append, IH.
Qed.

Lemma subst_chars_ext (f g : ascii -> string) (s : string) :
  (forall a, f a = g a) -> subst_chars f s = subst_chars g s.
Proof. intros H. induction s as [|a s IH]; simpl; [done | by rewrite H, IH]. Qed.

(** The six replacements in a row are one character-wise substitution. *)
Lemma replacements_once (s : string) :
  Py.replace "-" "_" (Py.replace "," "_" (Py.replace ")" ""
    (Py.replace "(" "_" (Py.replace "." "_" (Py.replace " " "_" s)))))
  = subst_chars sanitized_char s.
Proof.
  rewrite !replace_char, !subst_chars_compose.
  apply subst_chars_ext. intros a.
  destruct a as [[] [] [] [] [] [] [] []]; reflexivity.
Qed.

(** One pass of [replace('__', '_')]. *)
Lemma replace_pair_nil : Py.replace "__" "_" EmptyString = EmptyString.
Proof. done. Qed.

Lemma replace_pair_one (a : ascii) :
  Py.replace "__" "_" (String a EmptyString) = String a EmptyString.
Proof.
  unfold Py.replace. cbn [Py.replace_from].
  rewrite prefix_cons. simpl. by rewrite andb_false_r.
Qed.

Lemma replace_pair_two (a b : ascii) (r : string) :
  Py.replace "__" "_" (String a (String b r))
  = if Ascii.eqb a "_" && Ascii.eqb b "_"
    then String "_" (Py.replace "__" "_" r)
    else String a (Py.replace "__" "_" (String b r)).
Proof.
  unfold Py.replace. cbn [Py.replace_from String.length Nat.pred].
  rewrite !prefix_cons, prefix_empty, andb_true_r.
  rewrite (Ascii.eqb_sym "_" a), (Ascii.eqb_sym "_" b).
  by destruct (Ascii.eqb a "_" && Ascii.eqb b "_").
Qed.

Lemma replace_pair_facts (n : nat) : forall s,
  (String.length s <= n)%nat ->
  squeeze (Py.replace "__" "_" s) = squeeze s /\
  starts_with_underscore (Py.replace "__" "_" s) = starts_with_underscore s /\
  (String.length (Py.replace "__" "_" s) <= String.length s)%nat /\
  (Py.contains "__" s = true ->
   (String.length (Py.replace "__" "_" s) < String.length s)%nat).
Proof.
  induction n as [|n IH]; intros s Hlen.
  { destruct s; [|simpl in Hlen; lia]. done. }
  destruct s as [|a [|b r]].
  - done.
  - rewrite replace_pair_one. repeat split; [lia|].
    rewrite contains_cons, prefix_cons. simpl. by rewrite andb_false_r.
  - rewrite replace_pair_two. simpl in Hlen.
    destruct (IH (String b r) ltac:(simpl; lia)) as (Hs1 & Hu1 & Hl1 & Hc1).
    destruct (IH r ltac:(lia)) as (Hs2 & Hu2 & Hl2 & Hc2).
    rewrite (contains_cons _ a), !prefix_cons, prefix_empty, andb_true_r.
    rewrite (Ascii.eqb_sym "_" a), (Ascii.eqb_sym "_" b).
    destruct (Ascii.eqb_spec a "_") as [->|Ha];
      destruct (Ascii.eqb_spec b "_") as [->|Hb];
      cbn [andb orb squeeze starts_with_underscore String.length].
    + rewrite Hu2, Hs2. rewrite Ascii.eqb_refl. cbn [andb].
      repeat split; [lia | intros _; lia].
    + rewrite Hu1, Hs1. simpl in Hl1. cbn [starts_with_underscore].
      repeat split; [lia | intros H; apply Hc1 in H; simpl in H; lia].
    + rewrite Hu1, Hs1. simpl in Hl1.
      destruct (Ascii.eqb_spec a "_"); [done|]. cbn [andb].
      repeat split; [lia | intros H; apply Hc1 in H; simpl in H; lia].
    + rewrite Hu1, Hs1. simpl in Hl1.
      destruct (Ascii.eqb_spec a "_"); [done|]. cbn [andb].
      repeat split; [lia | intros H; apply Hc1 in H; simpl in H; lia].
Qed.

Lemma squeeze_fixed (s : string) :
  Py.contains "__" s = false -> squeeze s = s.
Proof.
  induction s as [|a s IH]; [done|].
  rewrite contains_cons. intros [Hp Hc]%orb_false_iff.
  cbn [squeeze]. rewrite (IH Hc).
  destruct s as [|b s]; [by rewrite andb_false_r|].
  rewrite !prefix_cons, prefix_empty, andb_true_r in Hp.
  rewrite (Ascii.eqb_sym "_" a), (Ascii.eqb_sym "_" b) in Hp.
  cbn [starts_with_underscore]. by rewrite Hp.
Qed.

(** The loop ends because no pair of underscores is left, and what it
    leaves is the squeezed text. *)
Lemma collapse_underscores_squeeze (n : nat) : forall s,
  (String.length s <= n)%nat -> collapse_underscores n s = squeeze s.
Proof.
  induction n as [|n IH]; intros s Hlen.
  - destruct s; [done | simpl in Hlen; lia].
  - cbn [collapse_underscores].
    destruct (replace_pair_facts (String.length s) s (le_n _))
      as (Hs & _ & _ & Hc).
    destruct (Py.contains "__" s) eqn:E.
    + rewrite IH; [done|]. specialize (Hc eq_refl). lia.
    + by rewrite squeeze_fixed.
Qed.

Lemma squeeze_starts (s : string) :
  starts_with_underscore (squeeze s) = starts_with_underscore s.
Proof.
  induction s as [|a s IH]; [done|]. cbn [squeeze].
  destruct (Ascii.eqb_spec a "_") as [->|Ha]; cbn [andb].
  - destruct (starts_with_underscore s) eqn:E; [by rewrite IH|done].
  - done.
Qed.

Lemma squeeze_no_pair (s : string) : Py.contains "__" (squeeze s) = false.
Proof.
  induction s as [|a s IH]; [done|]. cbn [squeeze].
  destruct (Ascii.eqb a "_" && starts_with_underscore s) eqn:E; [done|].
  rewrite contains_cons, IH, orb_false_r.
  pose proof (squeeze_starts s) as Hst.
  destruct (squeeze s) as [|b t]; [by rewrite prefix_cons, andb_false_r|].
  rewrite !prefix_cons, prefix_empty, andb_true_r.
  rewrite (Ascii.eqb_sym "_" a), (Ascii.eqb_sym "_" b).
  cbn [starts_with_underscore] in Hst. by rewrite Hst.
Qed.

Lemma clean_sheet_name_sanitize (sheet_name : string) :
  clean_sheet_name_for_json sheet_name = sanitize sheet_name.
Proof.
  unfold clean_sheet_name_for_json, sanitize.
  rewrite replacements_once.
  by rewrite collapse_underscores_squeeze.
Qed.

Lemma append_inj_r (a b c : string) : a +:+ c = b +:+ c -> a = b.
Proof.
  revert b. induction a as [|x a IH]; intros [|y b] H.
  - done.
  - apply (f_equal String.length) in H.
    rewrite !append_length in H. simpl in H. lia.
  - apply (f_equal String.length) in H.
    rewrite !append_length in H. simpl in H. lia.
  - injection H as -> H. f_equal. by apply IH.
Qed.

End SheetNames.

(** C4, as stated, fails: a closing parenthesis inside a sheet name is
    dropped, not turned into an underscore. *)
Lemma closing_parenthesis_is_dropped :
  ~ (forall sheet_name,
       Applier.clean_sheet_name_for_json sheet_name
       = Reading.sanitize_claimed sheet_name).
Proof.
  intros H. specialize (H "a)b"%string). vm_compute in H. discriminate H.
Qed.

(** C4, amended. The sanitized sheet name is the name with surrounding
    whitespace taken off, each closing parenthesis dropped, each space,
    full stop, opening parenthesis, comma and hyphen turned into an
    underscore, every run of underscores shortened to one (the loop that
    does so ends with no pair of underscores left) and leading and
    trailing underscores taken off.  The patch set of a worksheet is the
    file whose base name is the workbook's base name, an underscore and
    the sanitized sheet name. *)
Theorem sheet_name_convention :
  (forall sheet_name,
     Applier.clean_sheet_name_for_json sheet_name = Reading.sanitize sheet_name)
  /\ (forall cleaned,
        Py.contains "__"
          (Applier.collapse_underscores (String.length cleaned) cleaned) = false)
  /\ (forall workbook_name sheet_name base,
        base +:+ ".json" = Applier.json_filename workbook_name sheet_name
        <-> base = workbook_name +:+ "_" +:+ Reading.sanitize sheet_name)
  /\ Applier.clean_sheet_name_for_json "1. Fic. amounts (patenting) "
     = "1_Fic_amounts_patenting"%string
  /\ Applier.clean_sheet_name_for_json "a)b" = "ab"%string.
Proof.
  split; [exact clean_sheet_name_sanitize|].
  split; [intros cleaned; rewrite collapse_underscores_squeeze by done;
          apply squeeze_no_pair|].
  split; [|by vm_compute].
  intros workbook_name sheet_name base. unfold Applier.json_filename.
  rewrite clean_sheet_name_sanitize. split.
  - intros H. apply (append_inj_r _ _ ".json").
    by rewrite H, !append_assoc.
  - intros ->. by rewrite !append_assoc.
Qed.


Lemma count_rows_stable_witness :
  Reconciler.count_html_rows Reconciler.shuffled_table = 2.
Proof.
  apply (count_rows_stable Reconciler.shuffled_table 2).
  - lia.
  - intros k Hk. assert (k = 1 \/ k = 2) as [-> | ->] by lia.
    + split; [reflexivity|].
      exists ("<tr><th id=" +:+ String Py.dquote "row2" +:+ String Py.dquote
                ">2</th></tr><tr><th "), ">1</th></tr>"%string.
      reflexivity.
    + split; [reflexivity|].
      exists "<tr><th "%string,
        (">2</th></tr><tr><th id=" +:+ String Py.dquote "row1"
           +:+ String Py.dquote ">1</th></tr>").
      reflexivity.
  - intros d Hd. apply findall_rows_spec in Hd. vm_compute in Hd.
    destruct Hd as [<- | [<- | []]].
    + exists 2. split; [lia | reflexivity].
    + exists 1. split; [lia | reflexivity].
Defined.

Lemma run_success_iff_some_patch_witness :
  fst (Reconciler.process_html_file_in_chunks
         (fun _ _ _ _ => Some "no array here"%string) (fun _ => None)
         Reconciler.one_row_table "text" 30) = false.
Proof.
  apply (proj2 (proj2 (run_success_iff_some_patch
           (fun _ _ _ _ => Some "no array here"%string) (fun _ => None)
           Reconciler.one_row_table "text" 30))).
  intros w Hw. reflexivity.
Defined.

Lemma sheet_name_convention_witness :
  "book_Q1_totals"%string
  = ("book" +:+ "_" +:+ Reading.sanitize "Q1 (totals)")%string.
Proof.
  apply (proj1 (proj1 (proj2 (proj2 sheet_name_convention))
                  "book" "Q1 (totals)" "book_Q1_totals")%string).
  reflexivity.
Defined.

(** ** Worked examples *)

(** The scenario of a sheet with the merged range A1:B1: a patch for B1
    lands in A1, as the integer 1234, and B1 itself stays unset. *)
Example patch_for_B1_lands_in_A1 :
  let '(sheet, updates_made) :=
    Applier.update_cells Examples.merged_sheet [Examples.patch_B1] in
  Sheet.cells sheet !! (1, 1) = Some (Py.SInt 1234)
  /\ Sheet.cells sheet !! (1, 2) = None
  /\ updates_made = 1.
Proof. vm_compute. done. Qed.

(** Without the invariant that ranges do not overlap the redirection can
    fail: with A1:B1 and B1:C1 both merged, B1 is the corner of one range
    and a read-only cell of the other, and the patch is dropped. *)
Example overlap_breaks_redirect :
  Applier.update_cells
    (Sheet.mkSheet [Sheet.mkRange 1 1 1 2; Sheet.mkRange 1 2 1 3] ∅)
    [Examples.patch_B1]
  = (Sheet.mkSheet [Sheet.mkRange 1 1 1 2; Sheet.mkRange 1 2 1 3] ∅, 0).
Proof. vm_compute. done. Qed.

(** The integer branch is the all-digits test: a signed or spaced number
    is read by the float branch. *)
Example signed_text_reads_as_float :
  Applier.coerce_value (Py.SStr "-5") = Py.SFloat (Py.FDec true 5 0)
  /\ Applier.coerce_value (Py.SStr " 7 ") = Py.SFloat (Py.FDec false 7 0)
  /\ Applier.coerce_value (Py.SStr "1,5e3") = Py.SFloat (Py.FDec false 15 3).
Proof. by vm_compute. Qed.

(** A text that is no number keeps its commas. *)
Example text_keeps_commas :
  Applier.coerce_value (Py.SStr "Smith, John") = Py.SStr "Smith, John".
Proof. reflexivity. Qed.

(** The sanitized names of the source's docstring. *)
Example docstring_sheet_names :
  Applier.clean_sheet_name_for_json "revenue forecast" = "revenue_forecast"%string
  /\ Applier.clean_sheet_name_for_json "2. Fic. amounts (commercialisat"
     = "2_Fic_amounts_commercialisat"%string
  /\ Applier.clean_sheet_name_for_json "Staff" = "Staff"%string.
Proof. by vm_compute. Qed.

(** ** File names between the converter, the analysis and the applier *)

Section FileNames.
Import Naming Reading.

Lemma alnum_facts (a : ascii) :
  is_alnum a = true ->
  Py.is_space a = false /\ Ascii.eqb a " " = false /\ Ascii.eqb a "_" = false /\
  Ascii.eqb a "." = false /\ sanitized_char a = String a EmptyString.
Proof.
  intros H. destruct a as [[] [] [] [] [] [] [] []]; try discriminate H;
    repeat split; reflexivity.
Qed.

Lemma single_spaced_chars (s : string) :
  single_spaced s = true ->
  Py.all_chars (fun a => is_alnum a || Ascii.eqb a " ") s = true.
Proof.
  induction s as [|a s IH]; [done|]. cbn [single_spaced Py.all_chars].
  intros [Ha Hs]%andb_true_iff. rewrite (IH Hs), andb_true_r.
  destruct (is_alnum a); [done|]. simpl in *.
  by apply andb_true_iff in Ha as [-> _].
Qed.

Lemma filter_chars_all (p : ascii -> bool) (s : string) :
  Py.all_chars p s = true -> filter_chars p s = s.
Proof.
  induction s as [|a s IH]; [done|]. simpl.
  intros [-> Hs]%andb_true_iff. by rewrite IH.
Qed.

Lemma all_chars_impl (p q : ascii -> bool) (s : string) :
  (forall a, p a = true -> q a = true) ->
  Py.all_chars p s = true -> Py.all_chars q s = true.
Proof.
  intros Hpq. induction s as [|a s IH]; [done|]. simpl.
  intros [Ha Hs]%andb_true_iff. by rewrite (Hpq a Ha), IH.
Qed.

Lemma rstrip_by_all (p q : ascii -> bool) (s : string) :
  Py.all_chars q s = true -> Py.all_chars q (Py.rstrip_by p s) = true.
Proof.
  induction s as [|a s IH]; [done|]. cbn [Py.all_chars Py.rstrip_by].
  intros [Ha Hs]%andb_true_iff. specialize (IH Hs).
  destruct (Py.rstrip_by p s) as [|b t].
  - destruct (p a); [done|]. simpl. by rewrite Ha.
  - cbn [Py.all_chars] in *. by rewrite Ha, IH.
Qed.

Lemma lstrip_by_all (p q : ascii -> bool) (s : string) :
  Py.all_chars q s = true -> Py.all_chars q (Py.lstrip_by p s) = true.
Proof.
  induction s as [|a s IH]; [done|]. cbn [Py.lstrip_by].
  intros H. destruct (p a); [|done].
  apply IH. simpl in H. by apply andb_true_iff in H as [_ ?].
Qed.

Lemma rstrip_by_idem (p : ascii -> bool) (s : string) :
  Py.rstrip_by p (Py.rstrip_by p s) = Py.rstrip_by p s.
Proof.
  induction s as [|a s IH]; [done|]. cbn [Py.rstrip_by].
  destruct (Py.rstrip_by p s) as [|b t] eqn:E.
  - destruct (p a) eqn:Ea; [done|]. cbn [Py.rstrip_by]. by rewrite Ea.
  - cbn [Py.rstrip_by] in *. rewrite IH. done.
Qed.

Lemma subst_chars_on (f g : ascii -> string) (q : ascii -> bool) (s : string) :
  (forall a, q a = true -> f a = g a) ->
  Py.all_chars q s = true -> subst_chars f s = subst_chars g s.
Proof.
  intros Hfg. induction s as [|a s IH]; [done|]. simpl.
  intros [Ha Hs]%andb_true_iff. by rewrite (Hfg a Ha), IH.
Qed.

Lemma replace_space (s : string) :
  Py.replace " " "_" s = subst_chars space_to_underscore s.
Proof.
  rewrite replace_char. apply subst_chars_ext. intros a.
  unfold space_to_underscore, space_char. by destruct (Ascii.eqb a " ").
Qed.

Lemma spaced_cons (a : ascii) (r : string) :
  subst_chars space_to_underscore (String a r)
  = String (space_char a) (subst_chars space_to_underscore r).
Proof. done. Qed.

Lemma space_char_underscore (a : ascii) :
  is_alnum a || Ascii.eqb a " " = true ->
  Ascii.eqb (space_char a) "_" = Ascii.eqb a " " /\
  Ascii.eqb "_" (space_char a) = Py.is_space a /\
  sanitized_char a = space_to_underscore a.
Proof.
  intros H. destruct a as [[] [] [] [] [] [] [] []]; try discriminate H;
    repeat split; reflexivity.
Qed.

Lemma spaced_starts (s : string) :
  Py.all_chars (fun a => is_alnum a || Ascii.eqb a " ") s = true ->
  starts_with_underscore (subst_chars space_to_underscore s) = starts_with_space s.
Proof.
  destruct s as [|a s]; [done|]. rewrite spaced_cons. simpl.
  intros [Ha _]%andb_true_iff. by destruct (space_char_underscore a Ha) as (-> & _).
Qed.

(** Single spaces leave single underscores: nothing to squeeze. *)
Lemma squeeze_spaced (s : string) :
  single_spaced s = true ->
  squeeze (subst_chars space_to_underscore s) = subst_chars space_to_underscore s.
Proof.
  induction s as [|a s IH]; [done|]. intros H.
  pose proof (single_spaced_chars _ H) as Hall.
  cbn [single_spaced] in H. apply andb_true_iff in H as [Ha Hs].
  rewrite spaced_cons. cbn [squeeze]. rewrite (IH Hs).
  cbn [Py.all_chars] in Hall. apply andb_true_iff in Hall as [Hka Hks].
  destruct (space_char_underscore a Hka) as (-> & _).
  rewrite (spaced_starts s Hks).
  destruct (Ascii.eqb a " ") eqn:Ea; [|done].
  destruct (is_alnum a) eqn:Eal.
  { destruct (alnum_facts a Eal) as (_ & Hsp & _). congruence. }
  simpl in Ha. destruct s as [|b s]; [done|]. simpl.
  by destruct (Ascii.eqb b " ").
Qed.

Lemma rstrip_spaced (s : string) :
  Py.all_chars (fun a => is_alnum a || Ascii.eqb a " ") s = true ->
  Py.rstrip_by (Ascii.eqb "_") (subst_chars space_to_underscore s)
  = subst_chars space_to_underscore (Py.rstrip_by Py.is_space s).
Proof.
  induction s as [|a s IH]; [done|]. cbn [Py.all_chars].
  intros [Ha Hs]%andb_true_iff. rewrite spaced_cons. cbn [Py.rstrip_by].
  rewrite (IH Hs). destruct (space_char_underscore a Ha) as (_ & -> & _).
  destruct (Py.rstrip_by Py.is_space s) as [|b t]; simpl.
  - by destruct (Py.is_space a).
  - done.
Qed.

Lemma lstrip_spaced (s : string) :
  Py.all_chars (fun a => is_alnum a || Ascii.eqb a " ") s = true ->
  Py.lstrip_by (Ascii.eqb "_") (subst_chars space_to_underscore s)
  = subst_chars space_to_underscore (Py.lstrip_by Py.is_space s).
Proof.
  induction s as [|a s IH]; [done|]. cbn [Py.all_chars].
  intros [Ha Hs]%andb_true_iff. rewrite spaced_cons. cbn [Py.lstrip_by].
  destruct (space_char_underscore a Ha) as (_ & -> & _).
  destruct (Py.is_space a); [by apply IH|]. by rewrite spaced_cons.
Qed.

Lemma rstrip_single_spaced (s : string) :
  single_spaced s = true -> single_spaced (Py.rstrip_by Py.is_space s) = true.
Proof.
  induction s as [|a s IH]; [done|]. cbn [single_spaced Py.rstrip_by].
  intros [Ha Hs]%andb_true_iff. specialize (IH Hs).
  destruct (Py.rstrip_by Py.is_space s) as [|b t] eqn:E.
  - destruct (Py.is_space a) eqn:Esp; [done|]. cbn [single_spaced].
    destruct (is_alnum a); [done|]. simpl in *.
    apply andb_true_iff in Ha as [Ha _]. by rewrite Ha.
  - cbn [single_spaced] in *. rewrite IH, andb_true_r.
    destruct (is_alnum a); [done|]. simpl in *.
    apply andb_true_iff in Ha as [Ha Hnext]. rewrite Ha. simpl.
    destruct s as [|c s']; [done|]. cbn [Py.rstrip_by] in E.
    destruct (Py.rstrip_by Py.is_space s'); [destruct (Py.is_space c)|];
      by simplify_eq.
Qed.

Lemma lstrip_no_leading_space (s : string) :
  Py.all_chars (fun a => is_alnum a || Ascii.eqb a " ") s = true ->
  starts_with_space s = false -> Py.lstrip_by Py.is_space s = s.
Proof.
  destruct s as [|a s]; [done|]. simpl. intros [Ha _]%andb_true_iff Hsp.
  rewrite Hsp, orb_false_r in Ha.
  by destruct (alnum_facts a Ha) as (-> & _).
Qed.

Lemma rstrip_starts (s : string) :
  starts_with_space s = false ->
  starts_with_space (Py.rstrip_by Py.is_space s) = false.
Proof.
  destruct s as [|a s]; [done|]. cbn [Py.rstrip_by]. simpl. intros Ha.
  destruct (Py.rstrip_by Py.is_space s); [by destruct (Py.is_space a)|done].
Qed.

(** On a plain sheet name the converter and the applier sanitize alike. *)
Lemma plain_names_agree (sheet_name : string) :
  plain_sheet_name sheet_name = true ->
  Applier.clean_sheet_name_for_json sheet_name = safe_worksheet_name sheet_name.
Proof.
  intros [Hss Hfirst]%andb_true_iff.
  assert (Hsp : starts_with_space sheet_name = false).
  { destruct sheet_name; [done|]. simpl. by apply negb_true_iff. }
  pose proof (single_spaced_chars _ Hss) as Hall.
  rewrite clean_sheet_name_sanitize. unfold sanitize, safe_worksheet_name.
  rewrite filter_chars_all.
  2:{ eapply all_chars_impl; [|exact Hall]. intros a Ha. unfold kept_char.
      cbv beta in Ha. destruct (is_alnum a); [done|]. rewrite orb_false_l in Ha.
      apply Ascii.eqb_eq in Ha as ->. done. }
  unfold Py.strip, Py.strip_by. rewrite (lstrip_no_leading_space _ Hall Hsp).
  set (t := Py.rstrip_by Py.is_space sheet_name).
  assert (Ht : Py.all_chars (fun a => is_alnum a || Ascii.eqb a " ") t = true)
    by (by apply rstrip_by_all).
  rewrite (subst_chars_on sanitized_char space_to_underscore
             (fun a => is_alnum a || Ascii.eqb a " ") t); [|
    intros a Ha; by destruct (space_char_underscore a Ha) as (_ & _ & ->) | done].
  rewrite squeeze_spaced by (by apply rstrip_single_spaced).
  unfold Py.strip_char, Py.strip_by.
  rewrite lstrip_spaced by done.
  rewrite (lstrip_no_leading_space t Ht) by (by apply rstrip_starts).
  rewrite rstrip_spaced by done. subst t. rewrite rstrip_by_idem.
  by rewrite replace_space.
Qed.

Lemma all_chars_append (p : ascii -> bool) (a b : string) :
  Py.all_chars p (a +:+ b) = Py.all_chars p a && Py.all_chars p b.
Proof.
  induction a as [|x a IH]; [done|].
  change (Py.all_chars p (String x (a +:+ b))
          = Py.all_chars p (String x a) && Py.all_chars p b).
  cbn [Py.all_chars]. by rewrite IH, andb_assoc.
Qed.

Lemma all_chars_subst (p q : ascii -> bool) (f : ascii -> string) (s : string) :
  (forall a, p a = true -> Py.all_chars q (f a) = true) ->
  Py.all_chars p s = true -> Py.all_chars q (subst_chars f s) = true.
Proof.
  intros Hf. induction s as [|a s IH]; [done|]. cbn [Py.all_chars subst_chars].
  intros [Ha Hs]%andb_true_iff. by rewrite all_chars_append, (Hf a Ha), IH.
Qed.

Lemma filter_chars_sound (p : ascii -> bool) (s : string) :
  Py.all_chars p (filter_chars p s) = true.
Proof.
  induction s as [|a s IH]; [done|]. simpl.
  destruct (p a) eqn:E; [|done]. simpl. by rewrite E.
Qed.

Lemma squeeze_all (q : ascii -> bool) (s : string) :
  Py.all_chars q s = true -> Py.all_chars q (squeeze s) = true.
Proof.
  induction s as [|a s IH]; [done|]. cbn [Py.all_chars squeeze].
  intros [Ha Hs]%andb_true_iff.
  destruct (_ && _); [by apply IH|]. simpl. by rewrite Ha, IH.
Qed.

Lemma upto_last_dot_html (x : string) :
  upto_last_dot (x +:+ ".html") = Some x.
Proof.
  induction x as [|a x IH]; [done|].
  change (upto_last_dot (String a (x +:+ ".html")) = Some (String a x)).
  cbn [upto_last_dot]. by rewrite IH.
Qed.

(** Whatever the workbook and the sheet are called, the base name of the
    rendered file is the file name without [.html]. *)
Lemma splitext_root_html (base_filename worksheet_name : string) :
  splitext_root (html_filename base_filename worksheet_name)
  = base_filename +:+ "_" +:+ safe_worksheet_name worksheet_name.
Proof.
  unfold splitext_root, html_filename.
  rewrite <- !append_assoc, upto_last_dot_html.
  rewrite !all_chars_append. simpl. by rewrite andb_false_r.
Qed.

Lemma replace_txt_no_dot (x : string) :
  Py.all_chars (fun a => negb (Ascii.eqb a ".")) x = true ->
  Py.replace ".txt" ".json" (x +:+ ".txt") = x +:+ ".json".
Proof.
  unfold Py.replace. induction x as [|a x IH]; [done|].
  cbn [Py.all_chars]. intros [Ha Hx]%andb_true_iff.
  change (String a x +:+ ".txt") with (String a (x +:+ ".txt")).
  cbn [Py.replace_from]. rewrite prefix_cons, (Ascii.eqb_sym "." a).
  apply negb_true_iff in Ha. rewrite Ha. cbn [andb]. by rewrite (IH Hx).
Qed.

Lemma safe_no_dot (worksheet_name : string) :
  Py.all_chars (fun a => negb (Ascii.eqb a "."))
               (safe_worksheet_name worksheet_name) = true.
Proof.
  unfold safe_worksheet_name. rewrite replace_space.
  apply (all_chars_subst kept_char).
  - intros a Ha. destruct a as [[] [] [] [] [] [] [] []];
      try discriminate Ha; reflexivity.
  - apply rstrip_by_all, filter_chars_sound.
Qed.

Lemma analysis_path_no_dot (workbook_name sheet_name : string) :
  Py.all_chars (fun a => negb (Ascii.eqb a ".")) workbook_name = true ->
  analysis_json_path (html_filename workbook_name sheet_name)
  = "Output_folder/" +:+ workbook_name +:+ "_"
      +:+ safe_worksheet_name sheet_name +:+ ".json".
Proof.
  intros Hwb. unfold analysis_json_path, analysis_output_path.
  rewrite splitext_root_html, <- !append_assoc.
  rewrite replace_txt_no_dot; [done|].
  rewrite !all_chars_append, Hwb, safe_no_dot. done.
Qed.

Lemma rstrip_no_hyphen (s : string) :
  no_hyphen (Py.rstrip_by Py.is_space s) = no_hyphen s.
Proof.
  unfold no_hyphen. induction s as [|a s IH]; [done|].
  cbn [Py.rstrip_by Py.all_chars]. rewrite <- IH.
  destruct (Py.rstrip_by Py.is_space s) as [|b t]; [|done].
  destruct (Py.is_space a) eqn:E; cbn [Py.all_chars]; [|done].
  destruct (Ascii.eqb_spec "-" a) as [<-|]; [discriminate E | done].
Qed.

Lemma safe_keeps_hyphen (sheet_name : string) :
  no_hyphen (safe_worksheet_name sheet_name) = no_hyphen sheet_name.
Proof.
  unfold safe_worksheet_name. rewrite replace_space.
  transitivity (no_hyphen (Py.rstrip_by Py.is_space (filter_chars kept_char sheet_name))).
  - generalize (Py.rstrip_by Py.is_space (filter_chars kept_char sheet_name)).
    intros s. unfold no_hyphen. induction s as [|a s IH]; [done|].
    rewrite spaced_cons. cbn [Py.all_chars]. rewrite IH. f_equal.
    unfold space_char. destruct (Ascii.eqb_spec a " ") as [->|]; done.
  - rewrite rstrip_no_hyphen. unfold no_hyphen.
    induction sheet_name as [|a s IH]; [done|]. cbn [filter_chars Py.all_chars].
    destruct (kept_char a) eqn:E; cbn [Py.all_chars]; rewrite IH; [done|].
    destruct (Ascii.eqb_spec "-" a) as [<-|]; done.
Qed.

Lemma sanitized_char_plain (a : ascii) :
  Py.all_chars (fun b => negb (in_chars b " .(),-")) (sanitized_char a) = true.
Proof. destruct a as [[] [] [] [] [] [] [] []]; reflexivity. Qed.

(** The characters the sanitization is there to remove are gone. *)
Lemma clean_name_chars (sheet_name : string) :
  Py.all_chars (fun b => negb (in_chars b " .(),-"))
               (Applier.clean_sheet_name_for_json sheet_name) = true.
Proof.
  rewrite clean_sheet_name_sanitize. unfold sanitize, Py.strip_char, Py.strip_by.
  apply rstrip_by_all, lstrip_by_all, squeeze_all.
  apply (all_chars_subst (fun _ => true)).
  - intros a _. apply sanitized_char_plain.
  - generalize (Py.strip sheet_name). intros s. by induction s.
Qed.

Lemma append_inj_l (a b c : string) : a +:+ b = a +:+ c -> b = c.
Proof.
  induction a as [|x a IH]; [done|]. intros H.
  change (String x (a +:+ b) = String x (a +:+ c)) in H.
  apply IH. congruence.
Qed.

End FileNames.

(** The name under which the analysis writes the patch set of a rendered
    sheet is the name under which the applier looks for it, when the
    workbook's base name holds no full stop and the sheet name is made of
    letters and digits with single spaces between the words. *)
Theorem plain_names_find_their_patch_set (workbook_name sheet_name : string) :
  Py.all_chars (fun a => negb (Ascii.eqb a ".")) workbook_name = true ->
  Naming.plain_sheet_name sheet_name = true ->
  Naming.analysis_json_path (Naming.html_filename workbook_name sheet_name)
  = Naming.applier_json_path workbook_name sheet_name.
Proof.
  intros Hwb Hplain. rewrite analysis_path_no_dot by done.
  unfold Naming.applier_json_path, Applier.json_filename.
  by rewrite plain_names_agree.
Qed.

Lemma plain_names_find_their_patch_set_witness :
  Naming.analysis_json_path (Naming.html_filename "book" "Q1 totals")
  = Naming.applier_json_path "book" "Q1 totals".
Proof.
  apply (plain_names_find_their_patch_set "book" "Q1 totals"); reflexivity.
Defined.

(** A sheet whose name holds a hyphen never gets its patch set: the
    converter keeps the hyphen in the file name, the applier looks for a
    name in which it is an underscore. *)
Theorem hyphenated_names_miss_their_patch_set (workbook_name sheet_name : string) :
  Py.all_chars (fun a => negb (Ascii.eqb a ".")) workbook_name = true ->
  Reading.in_chars "-" sheet_name = true ->
  Naming.analysis_json_path (Naming.html_filename workbook_name sheet_name)
  <> Naming.applier_json_path workbook_name sheet_name.
Proof.
  intros Hwb Hhy. rewrite analysis_path_no_dot by done.
  unfold Naming.applier_json_path, Applier.json_filename. intros H.
  do 3 apply append_inj_l in H. apply append_inj_r in H.
  pose proof (safe_keeps_hyphen sheet_name) as Hsafe.
  pose proof (clean_name_chars sheet_name) as Hclean.
  rewrite H in Hsafe. unfold Reading.in_chars in Hhy.
  apply negb_true_iff in Hhy. unfold Naming.no_hyphen in Hsafe. rewrite Hhy in Hsafe.
  assert (Py.all_chars (fun b => negb (Ascii.eqb "-" b))
            (Applier.clean_sheet_name_for_json sheet_name) = true); [|congruence].
  eapply all_chars_impl; [|exact Hclean]. intros a Ha. cbv beta in Ha.
  destruct (Ascii.eqb_spec "-" a) as [<-|]; done.
Qed.

Lemma hyphenated_names_miss_their_patch_set_witness :
  Naming.analysis_json_path (Naming.html_filename "book" "profit-loss")
  <> Naming.applier_json_path "book" "profit-loss".
Proof.
  apply (hyphenated_names_miss_their_patch_set "book" "profit-loss"); reflexivity.
Defined.

(** ** The sanitized sheet name is in normal form *)

Section NormalForm.
Import Naming Reading.

Lemma lstrip_by_starts (p : ascii -> bool) (s : string) :
  starts_with p (Py.lstrip_by p s) = false.
Proof.
  induction s as [|a s IH]; [done|]. cbn [Py.lstrip_by].
  destruct (p a) eqn:E; [done|]. simpl. done.
Qed.

Lemma lstrip_by_fixed (p : ascii -> bool) (s : string) :
  starts_with p s = false -> Py.lstrip_by p s = s.
Proof. destruct s as [|a s]; [done|]. simpl. by intros ->. Qed.

Lemma rstrip_by_starts (p : ascii -> bool) (s : string) :
  starts_with p s = false -> starts_with p (Py.rstrip_by p s) = false.
Proof.
  destruct s as [|a s]; [done|]. cbn [Py.rstrip_by]. simpl. intros Ha.
  destruct (Py.rstrip_by p s); [by rewrite Ha|done].
Qed.

Lemma strip_by_idem (p : ascii -> bool) (s : string) :
  Py.strip_by p (Py.strip_by p s) = Py.strip_by p s.
Proof.
  unfold Py.strip_by.
  rewrite (lstrip_by_fixed p (Py.rstrip_by p _))
    by apply rstrip_by_starts, lstrip_by_starts.
  apply rstrip_by_idem.
Qed.

Lemma strip_by_none (p : ascii -> bool) (s : string) :
  Py.all_chars (fun a => negb (p a)) s = true -> Py.strip_by p s = s.
Proof.
  intros H. unfold Py.strip_by.
  rewrite lstrip_by_fixed.
  2:{ destruct s as [|a s]; [done|]. simpl in *.
      apply andb_true_iff in H as [Ha _]. by apply negb_true_iff. }
  induction s as [|a s IH]; [done|]. cbn [Py.all_chars Py.rstrip_by] in *.
  apply andb_true_iff in H as [Ha Hs]. rewrite (IH Hs).
  apply negb_true_iff in Ha. rewrite Ha. by destruct s.
Qed.

Lemma rstrip_by_prefix (p : ascii -> bool) (s : string) :
  exists t, s = Py.rstrip_by p s +:+ t.
Proof.
  induction s as [|a s [t IH]]; [by exists EmptyString|]. cbn [Py.rstrip_by].
  destruct (Py.rstrip_by p s) as [|b u] eqn:E.
  - destruct (p a).
    + by exists (String a s).
    + exists t. simpl in IH. by rewrite IH at 1.
  - exists t. by rewrite IH at 1.
Qed.

Lemma prefix_append_l (old x t : string) :
  String.prefix old x = true -> String.prefix old (x +:+ t) = true.
Proof.
  revert x. induction old as [|c old IH]; intros x H; [apply prefix_empty|].
  destruct x as [|a x]; [done|].
  change (String a x +:+ t) with (String a (x +:+ t)).
  rewrite prefix_cons in *. apply andb_true_iff in H as [-> H]. by apply IH.
Qed.

Lemma contains_append_l (old x t : string) :
  Py.contains old x = true -> Py.contains old (x +:+ t) = true.
Proof.
  induction x as [|a x IH].
  - simpl. rewrite orb_false_r. intros H. destruct old; [|done].
    destruct t; done.
  - change (String a x +:+ t) with (String a (x +:+ t)).
    rewrite !contains_cons. intros [H|H]%orb_true_iff.
    + apply (prefix_append_l _ _ t) in H.
      change (String a x +:+ t) with (String a (x +:+ t)) in H. by rewrite H.
    + rewrite (IH H). apply orb_true_r.
Qed.

Lemma contains_lstrip (old : string) (p : ascii -> bool) (s : string) :
  Py.contains old s = false -> Py.contains old (Py.lstrip_by p s) = false.
Proof.
  induction s as [|a s IH]; [done|]. cbn [Py.lstrip_by].
  destruct (p a); [|done]. rewrite contains_cons.
  intros [_ H]%orb_false_iff. by apply IH.
Qed.

Lemma contains_rstrip (old : string) (p : ascii -> bool) (s : string) :
  Py.contains old s = false -> Py.contains old (Py.rstrip_by p s) = false.
Proof.
  intros H. apply not_true_is_false. intros Hc.
  destruct (rstrip_by_prefix p s) as [t Ht].
  apply (contains_append_l _ _ t) in Hc. rewrite <- Ht in Hc. congruence.
Qed.

Lemma subst_chars_fixed (f : ascii -> string) (q : ascii -> bool) (s : string) :
  (forall a, q a = true -> f a = String a EmptyString) ->
  Py.all_chars q s = true -> subst_chars f s = s.
Proof.
  intros Hf. induction s as [|a s IH]; [done|]. cbn [Py.all_chars subst_chars].
  intros [Ha Hs]%andb_true_iff. by rewrite (Hf a Ha), IH.
Qed.

Lemma clean_name_shape (sheet_name : string) :
  let cleaned := Applier.clean_sheet_name_for_json sheet_name in
  Py.contains "__" cleaned = false
  /\ Naming.starts_with (Ascii.eqb "_") cleaned = false
  /\ Py.rstrip_by (Ascii.eqb "_") cleaned = cleaned.
Proof.
  intros cleaned. subst cleaned. rewrite clean_sheet_name_sanitize.
  unfold Reading.sanitize, Py.strip_char, Py.strip_by.
  split; [|split].
  - apply contains_rstrip, contains_lstrip, squeeze_no_pair.
  - apply rstrip_by_starts, lstrip_by_starts.
  - apply rstrip_by_idem.
Qed.

End NormalForm.

(** The sanitized sheet name holds none of the characters that are
    replaced or dropped, has no two underscores in a row and neither
    starts nor ends with an underscore. *)
Theorem clean_sheet_name_normal_form (sheet_name : string) :
  let cleaned := Applier.clean_sheet_name_for_json sheet_name in
  Py.all_chars (fun b => negb (Reading.in_chars b " .(),-")) cleaned = true
  /\ Py.contains "__" cleaned = false
  /\ Naming.starts_with (Ascii.eqb "_") cleaned = false
  /\ Py.rstrip_by (Ascii.eqb "_") cleaned = cleaned.
Proof.
  intros cleaned. split; [apply clean_name_chars | apply clean_name_shape].
Qed.

(** Sanitizing a sanitized name changes nothing, for a sheet name whose
    only whitespace is the space character. *)
Theorem clean_sheet_name_idempotent (sheet_name : string) :
  Naming.only_space_whitespace sheet_name = true ->
  Applier.clean_sheet_name_for_json (Applier.clean_sheet_name_for_json sheet_name)
  = Applier.clean_sheet_name_for_json sheet_name.
Proof.
  intros Hws.
  pose proof (clean_name_chars sheet_name) as Hch.
  destruct (clean_name_shape sheet_name) as (Hpair & Hst & Hend).
  cbv zeta in Hpair, Hst, Hend.
  assert (Hnows : Py.all_chars (fun a => negb (Py.is_space a))
                    (Applier.clean_sheet_name_for_json sheet_name) = true).
  { rewrite clean_sheet_name_sanitize.
    unfold Reading.sanitize, Py.strip_char, Py.strip_by.
    apply rstrip_by_all, lstrip_by_all, squeeze_all.
    apply (all_chars_subst (fun a => negb (Py.is_space a) || Ascii.eqb a " ")).
    - intros a Ha. destruct a as [[] [] [] [] [] [] [] []];
        try discriminate Ha; reflexivity.
    - unfold Py.strip, Py.strip_by. by apply rstrip_by_all, lstrip_by_all. }
  set (out := Applier.clean_sheet_name_for_json sheet_name) in *.
  rewrite (clean_sheet_name_sanitize out). unfold Reading.sanitize.
  unfold Py.strip. rewrite (strip_by_none Py.is_space out Hnows).
  rewrite (subst_chars_fixed _ (fun b => negb (Reading.in_chars b " .(),-")));
    [| |exact Hch].
  2:{ intros a Ha. destruct a as [[] [] [] [] [] [] [] []];
        try discriminate Ha; reflexivity. }
  rewrite squeeze_fixed by done.
  unfold Py.strip_char, Py.strip_by.
  by rewrite lstrip_by_fixed.
Qed.

Lemma clean_sheet_name_idempotent_witness :
  Applier.clean_sheet_name_for_json
    (Applier.clean_sheet_name_for_json "1. Fic. amounts (patenting) ")
  = Applier.clean_sheet_name_for_json "1. Fic. amounts (patenting) ".
Proof.
  apply (clean_sheet_name_idempotent "1. Fic. amounts (patenting) "). reflexivity.
Defined.

(** ** More on the reconciler *)

Section ReconcilerFacts.
Import Reconciler.

Lemma digits_value_nonneg (d : string) : 0 <= Py.digits_value d.
Proof. unfold Py.digits_value. destruct (NilEmpty.uint_of_string d); lia. Qed.

Lemma py_max_in (l : list Z) : forall x, py_max x l = x \/ In (py_max x l) l.
Proof.
  induction l as [|y l IH]; intros x; simpl; [by left|].
  destruct (IH (Z.max x y)) as [H|H]; [|by right; right].
  rewrite H. destruct (Z.max_spec x y) as [[_ ->]|[_ ->]]; [right; by left | by left].
Qed.

Lemma upto_last_close_none (s : string) :
  upto_last_close s = None <-> Py.all_chars (fun a => negb (Ascii.eqb a "]")) s = true.
Proof.
  induction s as [|a s IH]; [done|]. cbn [upto_last_close Py.all_chars].
  destruct (upto_last_close s) as [t|].
  - split; [done|]. intros [_ H]%andb_true_iff. apply IH in H. done.
  - rewrite (proj1 IH eq_refl), andb_true_r.
    destruct (Ascii.eqb a "]"); split; done.
Qed.

Lemma upto_last_close_append (x post : string) :
  Py.all_chars (fun a => negb (Ascii.eqb a "]")) post = true ->
  upto_last_close (x +:+ String "]" post) = Some (x +:+ "]").
Proof.
  intros Hpost. apply upto_last_close_none in Hpost.
  induction x as [|a x IH].
  - change (upto_last_close (String "]" post) = Some "]"%string).
    cbn [upto_last_close]. by rewrite Hpost.
  - change (upto_last_close (String a (x +:+ String "]" post))
            = Some (String a (x +:+ "]"))).
    cbn [upto_last_close]. by rewrite IH.
Qed.

Lemma upto_last_close_split (s m : string) :
  upto_last_close s = Some m ->
  exists x post, s = x +:+ String "]" post /\ m = x +:+ "]" /\
    Py.all_chars (fun a => negb (Ascii.eqb a "]")) post = true.
Proof.
  revert m. induction s as [|a s IH]; intros m H; [done|].
  cbn [upto_last_close] in H. destruct (upto_last_close s) as [t|] eqn:E.
  - destruct (IH t eq_refl) as (x & post & -> & -> & Hpost). simplify_eq.
    by exists (String a x), post.
  - destruct (Ascii.eqb_spec a "]") as [->|]; [|done]. simplify_eq.
    exists EmptyString, s. repeat split. by apply upto_last_close_none.
Qed.

End ReconcilerFacts.

(** The row count of a rendered table is the largest row number among its
    markers, not the number of markers: it is never negative, no marker
    carries a larger number, some marker carries that number when there is
    a marker at all, and it is 0 when there is none. *)
Theorem count_is_largest_row_number (html : string) :
  let n := Reconciler.count_html_rows html in
  0 <= n
  /\ (forall d, Reconciler.contains_marker html d -> Py.digits_value d <= n)
  /\ ((exists d, Reconciler.contains_marker html d) ->
      exists d, Reconciler.contains_marker html d /\ Py.digits_value d = n)
  /\ ((forall d, ~ Reconciler.contains_marker html d) -> n = 0).
Proof.
  intros n. subst n. unfold Reconciler.count_html_rows.
  assert (Hspec := findall_rows_spec html).
  destruct (Reconciler.findall_rows html) as [|d0 ds] eqn:E.
  - simpl. split; [done|]. split; [intros d Hd; by apply Hspec in Hd|].
    split; [intros [d Hd]; by apply Hspec in Hd | done].
  - rewrite fmap_cons. cbv zeta.
    pose proof (py_max_lower (Py.digits_value <$> ds) (Py.digits_value d0)) as Hlow.
    pose proof (digits_value_nonneg d0) as Hd0. split; [lia|]. split; [|split].
    + intros d Hd. apply Hspec in Hd as [<-|Hd]; [done|].
      apply py_max_ge, in_map_iff. by exists d.
    + intros _.
      destruct (py_max_in (Py.digits_value <$> ds) (Py.digits_value d0)) as [H|H].
      * exists d0. split; [apply Hspec; by left | done].
      * apply in_map_iff in H as (d & Hd & Hin). exists d.
        split; [apply Hspec; by right | done].
    + intros Hnone. destruct (Hnone d0). apply Hspec. by left.
Qed.

(** The array is taken out of a response from its first opening bracket to
    its last closing bracket: commentary before it that holds no opening
    bracket and commentary after it that holds no closing bracket are
    dropped, and nothing else is ever returned. *)
Theorem search_array_extracts (content m : string) :
  Reconciler.search_array content = Some m <->
  exists pre mid post,
    content = pre +:+ String "[" (mid +:+ String "]" post)
    /\ m = String "[" (mid +:+ "]")
    /\ Py.all_chars (fun a => negb (Ascii.eqb a "[")) pre = true
    /\ Py.all_chars (fun a => negb (Ascii.eqb a "]")) post = true.
Proof.
  split.
  - induction content as [|a s IH]; [done|]. cbn [Reconciler.search_array].
    destruct (Ascii.eqb_spec a "[") as [->|Hne].
    + intros H. apply upto_last_close_split in H as (x & post & Hs & -> & Hpost).
      destruct x as [|b x].
      * change (String "[" s = String "]" post) in Hs. done.
      * change (String "[" s = String b (x +:+ String "]" post)) in Hs.
        simplify_eq. by exists EmptyString, x, post.
    + intros H. destruct (IH H) as (pre & mid & post & -> & -> & Hpre & Hpost).
      exists (String a pre), mid, post. repeat split; [|done].
      cbn [Py.all_chars]. rewrite Hpre. by destruct (Ascii.eqb_spec a "[").
  - intros (pre & mid & post & -> & -> & Hpre & Hpost).
    induction pre as [|a pre IH].
    + change (Reconciler.search_array (String "[" (mid +:+ String "]" post))
              = Some (String "[" (mid +:+ "]"))).
      cbn [Reconciler.search_array]. rewrite Ascii.eqb_refl.
      apply (upto_last_close_append (String "[" mid) post Hpost).
    + cbn [Py.all_chars] in Hpre. apply andb_true_iff in Hpre as [Ha Hpre].
      change (Reconciler.search_array
                (String a (pre +:+ String "[" (mid +:+ String "]" post)))
              = Some (String "[" (mid +:+ "]"))).
      cbn [Reconciler.search_array]. apply negb_true_iff in Ha. rewrite Ha.
      by apply IH.
Qed.

Section RunFacts.
Variable client : string -> string -> Z -> Z -> option string.
Variable json_loads : string -> option (list Reconciler.CellPatch).

Lemma contribution_keys (html text : string) (w : Z * Z) :
  forallb Reconciler.has_summary_keys
          (Reconciler.contribution client json_loads html text w) = true.
Proof.
  unfold Reconciler.contribution, Reconciler.analyze_html_table_with_openai.
  destruct (client _ _ _ _) as [content|]; [|done].
  destruct (json_loads _) as [m|]; [|done].
  by destruct (forallb Reconciler.has_summary_keys m) eqn:E.
Qed.

Lemma count_files_sum (pairs : list (string * string)) : forall s f,
  let '(s', f') := fold_left (Batch.count_file client json_loads) pairs (s, f) in
  s' + f' = s + f + Z.of_nat (length pairs)
  /\ s' - s = Z.of_nat (length (filter
       (fun pair => fst (Reconciler.process_html_file_in_chunks client json_loads
                           (fst pair) (snd pair) 30) = true) pairs)).
Proof.
  induction pairs as [|pair pairs IH]; intros s f.
  - simpl. split; lia.
  - cbn [fold_left]. unfold Batch.count_file at 2.
    rewrite filter_cons.
    destruct (fst (Reconciler.process_html_file_in_chunks _ _ _ _ _)) eqn:E.
    + specialize (IH (s + 1) f). destruct (fold_left _ _ _) as [s' f'].
      rewrite decide_True by done. simpl. lia.
    + specialize (IH s (f + 1)). destruct (fold_left _ _ _) as [s' f'].
      rewrite decide_False by done. simpl. lia.
Qed.

End RunFacts.

(** A patch set that a run writes holds at least one patch, and every
    patch in it has its reference, value and justification: the summary
    writer finds the keys it reads. *)
Theorem written_patches_have_keys
    (client : string -> string -> Z -> Z -> option string)
    (json_loads : string -> option (list Reconciler.CellPatch))
    (html text : string) (c : Z) (patches : list Reconciler.CellPatch) :
  snd (Reconciler.process_html_file_in_chunks client json_loads html text c)
  = Some patches ->
  patches <> []
  /\ Forall (fun p => exists r v j,
               Reconciler.cell_reference p = Some r /\
               Reconciler.value p = Some v /\
               Reconciler.context p = Some j) patches
  /\ fst (Reconciler.process_html_file_in_chunks client json_loads html text c) = true.
Proof.
  rewrite process_result. cbv zeta.
  destruct (_ || _); [done|].
  destruct (concat _) as [|p ps] eqn:E; [done|]. simpl. intros [= <-].
  split; [done|]. split; [|done]. rewrite <- E. clear E.
  apply Forall_concat, Forall_fmap, Forall_forall. intros w _. simpl.
  pose proof (contribution_keys client json_loads html text w) as Hk.
  rewrite forallb_forall in Hk. apply Forall_forall. intros q Hq.
  apply list_elem_of_In, Hk in Hq. unfold Reconciler.has_summary_keys in Hq.
  destruct (Reconciler.cell_reference q) as [r|]; [|done].
  destruct (Reconciler.value q) as [v|]; [|done].
  destruct (Reconciler.context q) as [j|]; [|done]. by exists r, v, j.
Qed.

Lemma written_patches_have_keys_witness :
  let patch := Reconciler.mkPatch (Some (Py.SStr "B2")) (Some (Py.SInt 7))
                                  (Some (Py.SStr "total")) in
  [patch] <> []
  /\ Forall (fun p => exists r v j,
               Reconciler.cell_reference p = Some r /\
               Reconciler.value p = Some v /\
               Reconciler.context p = Some j) [patch]
  /\ fst (Reconciler.process_html_file_in_chunks
            (fun _ _ _ _ => Some "[]"%string) (fun _ => Some [patch])
            Reconciler.one_row_table "text" 30) = true.
Proof.
  intros patch.
  apply (written_patches_have_keys
           (fun _ _ _ _ => Some "[]"%string) (fun _ => Some [patch])
           Reconciler.one_row_table "text" 30 [patch]).
  reflexivity.
Defined.

(** In the batch over the matched file pairs every pair is counted once,
    as a success or as a failure, and the batch reports success exactly
    when the folders and the key are there and at least one pair
    succeeded. *)
Theorem batch_counts_every_pair
    (client : string -> string -> Z -> Z -> option string)
    (json_loads : string -> option (list Reconciler.CellPatch))
    (setting : Batch.Setting) :
  let counts := Batch.count_files client json_loads (Batch.matches setting) in
  let succeeded pair :=
    fst (Reconciler.process_html_file_in_chunks client json_loads
           (fst pair) (snd pair) 30) = true in
  fst counts + snd counts = Z.of_nat (length (Batch.matches setting))
  /\ fst counts = Z.of_nat (length (filter succeeded (Batch.matches setting)))
  /\ (Batch.process_all_files client json_loads setting = true <->
      Batch.html_outputs_exists setting = true /\
      Batch.data_sources_exists setting = true /\
      Batch.api_key_set setting = true /\
      exists pair, pair ∈ Batch.matches setting /\ succeeded pair).
Proof.
  intros counts succeeded.
  pose proof (count_files_sum client json_loads (Batch.matches setting) 0 0) as H.
  unfold Batch.process_all_files. subst counts. unfold Batch.count_files.
  destruct (fold_left _ _ _) as [s f]. destruct H as [Hsum Hs]. simpl.
  fold succeeded in Hs. split; [lia|]. split; [lia|].
  destruct (Batch.html_outputs_exists setting); simpl;
    [|split; [done | by intros [? _]]].
  destruct (Batch.data_sources_exists setting); simpl;
    [|split; [done | by intros (_ & ? & _)]].
  destruct (Batch.api_key_set setting); simpl;
    [|split; [done | by intros (_ & _ & ? & _)]].
  assert (Hex : 0 < s <-> exists pair, pair ∈ Batch.matches setting /\ succeeded pair).
  { rewrite Z.sub_0_r in Hs. rewrite Hs. split.
    - intros Hpos. destruct (filter succeeded (Batch.matches setting)) as [|p l] eqn:E;
        [simpl in Hpos; lia|].
      assert (p ∈ filter succeeded (Batch.matches setting)) as Hp by (rewrite E; by left).
      apply list_elem_of_filter in Hp as [? ?]. by exists p.
    - intros (p & Hp & Hsucc).
      assert (p ∈ filter succeeded (Batch.matches setting)) as Hin
        by (by apply list_elem_of_filter).
      destruct (filter succeeded (Batch.matches setting)); [by apply elem_of_nil in Hin|].
      simpl. lia. }
  destruct (Batch.matches setting) as [|p l] eqn:Em.
  - split; [done|]. intros (_ & _ & _ & p & Hp & _). by apply elem_of_nil in Hp.
  - rewrite Z.ltb_lt, Hex. split; [intros Hp; by repeat split|].
    by intros (_ & _ & _ & Hp).
Qed.

(** ** More on the patch applier *)

Section ApplierFacts.
Import Sheet Applier ApplierReading.
Import Reconciler (CellPatch, cell_reference, value).

Lemma apply_cell_info_merged (m : gmap (Z * Z) (Z * Z)) (ws : Worksheet) (n : Z)
    (patch : CellPatch) :
  merged_cells (fst (apply_cell_info m (ws, n) patch)) = merged_cells ws.
Proof.
  unfold apply_cell_info. destruct (_ || _); [done|].
  destruct (default Py.SNone (cell_reference patch)) as [| | |ref]; try done.
  destruct (_ <? _)%nat; [done|]. unfold setitem.
  destruct (parse_cell_key _); [|done]. destruct (is_merged_cell _ _); [done|].
  by destruct (check_value _).
Qed.

(** One turn either leaves the state alone or stores one value at the
    target, which is not a read-only cell, and counts it. *)
Lemma apply_cell_info_cases (ws : Worksheet) (n : Z) (patch : CellPatch) :
  let m := get_merged_cell_mapping ws in
  apply_cell_info m (ws, n) patch = (ws, n)
  \/ exists p kept,
       target ws patch = Some p /\ is_merged_cell ws p = false /\
       apply_cell_info m (ws, n) patch
       = (mkSheet (merged_cells ws) (<[p := kept]> (cells ws)), n + 1).
Proof.
  intros m. unfold apply_cell_info, target.
  destruct (_ || _); [by left|].
  destruct (cell_reference patch) as [[| | |ref]|]; try by left.
  cbn [default from_option id].
  destruct (_ <? _)%nat; [by left|]. unfold setitem. fold m.
  destruct (parse_cell_key _) as [p|]; [|by left].
  destruct (is_merged_cell ws p) eqn:E; [by left|].
  destruct (check_value _) as [kept|]; [|by left].
  right. by exists p, kept.
Qed.

Lemma fold_apply_count (m : gmap (Z * Z) (Z * Z)) (data : list CellPatch) :
  forall ws n,
    fold_left (apply_cell_info m) data (ws, n)
    = (fst (fold_left (apply_cell_info m) data (ws, 0)),
       n + snd (fold_left (apply_cell_info m) data (ws, 0))).
Proof.
  induction data as [|patch data IH]; intros ws n.
  - simpl. f_equal. lia.
  - cbn [fold_left].
    assert (Hstep : apply_cell_info m (ws, n) patch
                    = (fst (apply_cell_info m (ws, 0) patch),
                       n + snd (apply_cell_info m (ws, 0) patch))).
    { unfold apply_cell_info. destruct (_ || _); [simpl; f_equal; lia|].
      destruct (default Py.SNone (cell_reference patch)) as [| | |ref];
        try (simpl; f_equal; lia).
      destruct (_ <? _)%nat; [simpl; f_equal; lia|].
      destruct (setitem _ _ _); simpl; f_equal; lia. }
    rewrite Hstep.
    destruct (apply_cell_info m (ws, 0) patch) as [ws1 k1]. cbn [fst snd].
    rewrite (IH ws1 (n + k1)), (IH ws1 k1). cbn [fst snd]. f_equal. lia.
Qed.

Lemma fold_apply_merged (m : gmap (Z * Z) (Z * Z)) (data : list CellPatch) :
  forall ws n,
    merged_cells (fst (fold_left (apply_cell_info m) data (ws, n))) = merged_cells ws.
Proof.
  induction data as [|patch data IH]; intros ws n; [done|]. cbn [fold_left].
  pose proof (apply_cell_info_merged m ws n patch) as H.
  destruct (apply_cell_info m (ws, n) patch) as [ws1 n1]. rewrite IH. exact H.
Qed.

Lemma mapping_depends_on_ranges (ws ws' : Worksheet) :
  merged_cells ws' = merged_cells ws ->
  get_merged_cell_mapping ws' = get_merged_cell_mapping ws.
Proof. unfold get_merged_cell_mapping. by intros ->. Qed.

Lemma is_merged_cell_depends_on_ranges (ws ws' : Worksheet) (p : Z * Z) :
  merged_cells ws' = merged_cells ws -> is_merged_cell ws' p = is_merged_cell ws p.
Proof. unfold is_merged_cell. by intros ->. Qed.

Lemma target_depends_on_ranges (ws ws' : Worksheet) (patch : CellPatch) :
  merged_cells ws' = merged_cells ws -> target ws' patch = target ws patch.
Proof. intros H. unfold target. by rewrite (mapping_depends_on_ranges _ _ H). Qed.

Lemma map_range_lookup_any (m : gmap (Z * Z) (Z * Z)) (r : MergedRange)
    (p : Z * Z) :
  map_range m r !! p = if decide (covers r p) then Some (top_left r) else m !! p.
Proof.
  unfold map_range.
  rewrite (for_cells_ext r _ (put_where (fun _ _ => Some (top_left r)))) by done.
  rewrite for_cells_lookup. by case_decide.
Qed.

(** The mapping, whatever the ranges: the last range that covers a
    coordinate decides. *)
Lemma fold_map_range_lookup (ranges : list MergedRange) (p : Z * Z) :
  forall m,
    fold_left map_range ranges m !! p
    = match last_covering ranges p with
      | Some r => Some (top_left r)
      | None => m !! p
      end.
Proof.
  induction ranges as [|r rest IH]; intros m; [done|].
  cbn [fold_left last_covering]. rewrite IH.
  destruct (last_covering rest p); [done|].
  rewrite map_range_lookup_any.
  destruct (coversb r p) eqn:E.
  - apply coversb_covers in E. by rewrite decide_True.
  - rewrite decide_False; [done|]. intros Hc. apply coversb_covers in Hc. congruence.
Qed.

Lemma last_covering_some (ranges : list MergedRange) (p : Z * Z) (r : MergedRange) :
  last_covering ranges p = Some r -> r ∈ ranges /\ covers r p.
Proof.
  induction ranges as [|r0 rest IH]; [done|]. cbn [last_covering].
  destruct (last_covering rest p) as [r'|].
  - intros [= ->]. destruct (IH eq_refl). split; [by right | done].
  - destruct (coversb r0 p) eqn:E; [|done]. intros [= ->].
    split; [by left | by apply coversb_covers].
Qed.

Lemma last_covering_none (ranges : list MergedRange) (p : Z * Z) :
  last_covering ranges p = None <-> forall r, r ∈ ranges -> ~ covers r p.
Proof.
  induction ranges as [|r0 rest IH]; cbn [last_covering].
  - split; [|done]. intros _ r Hr. by apply elem_of_nil in Hr.
  - destruct (last_covering rest p) as [r'|] eqn:E.
    + split; [done|]. intros H. apply last_covering_some in E as [Hr Hc].
      destruct (H r'); [by right | done].
    + destruct (coversb r0 p) eqn:Ec.
      * split; [done|]. intros H. apply coversb_covers in Ec.
        destruct (H r0); [by left | done].
      * split; [|done]. intros _ r [->|Hr]%elem_of_cons.
        -- intros Hc. apply coversb_covers in Hc. congruence.
        -- by apply (proj1 IH).
Qed.


Lemma fold_mark_range_lookup (ranges : list MergedRange) (p : Z * Z) :
  Forall ordered ranges ->
  forall m,
    fold_left Geometry.mark_range ranges m !! p
    = match last_covering ranges p with
      | Some r =>
          Some (if decide (p = top_left r)
                then Geometry.MergedRoot
                       (Geometry.span_or_none (max_col r - min_col r + 1))
                       (Geometry.span_or_none (max_row r - min_row r + 1))
                else Geometry.HiddenEntry)
      | None => m !! p
      end.
Proof.
  induction ranges as [|r rest IH]; intros Hord m; [done|].
  apply Forall_cons in Hord as [Hr Hord].
  cbn [fold_left last_covering]. rewrite IH by done.
  destruct (last_covering rest p); [done|].
  rewrite mark_range_lookup by done.
  destruct (coversb r p) eqn:E.
  - apply coversb_covers in E. by rewrite decide_True.
  - rewrite decide_False; [done|]. intros Hc. apply coversb_covers in Hc. congruence.
Qed.

(** A patch the loop passes over leaves the state as it was. *)
Lemma apply_cell_info_incomplete (m : gmap (Z * Z) (Z * Z)) (st : Worksheet * Z)
    (patch : CellPatch) :
  incomplete patch -> apply_cell_info m st patch = st.
Proof.
  unfold incomplete, apply_cell_info. destruct st as [ws n].
  destruct (cell_reference patch) as [ref|]; [|done].
  destruct (value patch) as [v|]; cbn [default from_option id].
  2:{ by rewrite orb_true_r. }
  intros [->|[->|Href]].
  - by rewrite orb_true_r.
  - by rewrite orb_true_r.
  - destruct (_ || _); [done|]. destruct ref as [| | |s]; try done.
    by apply Nat.ltb_lt in Href as ->.
Qed.

(** A complete patch: what the loop requires before it resolves the
    reference. *)
Lemma complete_patch (patch : CellPatch) :
  ~ incomplete patch ->
  exists ref v,
    cell_reference patch = Some (Py.SStr ref) /\ value patch = Some v /\
    (2 <= String.length ref)%nat /\ v <> Py.SNone /\ v <> Py.SStr "".
Proof.
  unfold incomplete.
  destruct (cell_reference patch) as [ref|]; [|tauto].
  destruct (value patch) as [v|]; [|tauto]. intros H.
  destruct ref as [| | |s]; try tauto.
  exists s, v. repeat split; try tauto.
  destruct (decide (String.length s < 2)%nat); [tauto | lia].
Qed.

Lemma apply_cell_info_writes (m : gmap (Z * Z) (Z * Z)) (ws : Worksheet) (n : Z)
    (patch : CellPatch) (ref : string) (v kept : Py.Scalar) (p : Z * Z) :
  cell_reference patch = Some (Py.SStr ref) -> value patch = Some v ->
  (2 <= String.length ref)%nat -> v <> Py.SNone -> v <> Py.SStr "" ->
  parse_cell_key (resolve_merged_cell_reference ref m) = Some p ->
  is_merged_cell ws p = false ->
  check_value (coerce_value v) = Some kept ->
  apply_cell_info m (ws, n) patch
  = (mkSheet (merged_cells ws) (<[p := kept]> (cells ws)), n + 1).
Proof.
  intros Href Hv Hlen Hnone Hempty Hkey Hmerged Hkept.
  unfold apply_cell_info. rewrite Href, Hv. cbn [default from_option id].
  assert (falsy (Py.SStr ref) = false) as ->.
  { destruct ref; [simpl in Hlen; lia | done]. }
  assert (is_none v || is_empty_text v = false) as Hve.
  { destruct v as [| | |s]; try done. simpl.
    destruct (String.eqb_spec s ""); [congruence | done]. }
  rewrite orb_false_l, Hve.
  destruct (Nat.ltb_spec (String.length ref) 2); [lia|].
  unfold setitem. rewrite Hkey, Hmerged, Hkept. done.
Qed.

(** The loop over a patch list, from any state whose sheet has the merged
    ranges of the sheet the mapping was computed from. *)
Lemma fold_apply_frame (ws0 : Worksheet) (data : list CellPatch) (p : Z * Z) :
  (is_merged_cell ws0 p = true
   \/ forall patch, patch ∈ data -> target ws0 patch <> Some p) ->
  forall ws n,
    merged_cells ws = merged_cells ws0 ->
    cells (fst (fold_left (apply_cell_info (get_merged_cell_mapping ws0)) data
                          (ws, n))) !! p
    = cells ws !! p.
Proof.
  induction data as [|patch data IH]; intros Hp ws n Hm; [done|].
  cbn [fold_left].
  pose proof (apply_cell_info_cases ws n patch) as Hstep. cbv zeta in Hstep.
  rewrite (mapping_depends_on_ranges _ _ Hm) in Hstep.
  assert (Hp' : is_merged_cell ws0 p = true
                \/ forall patch, patch ∈ data -> target ws0 patch <> Some p).
  { destruct Hp as [Hp|Hp]; [by left|]. right. intros q Hq. apply Hp. by right. }
  destruct Hstep as [->|(q & kept & Htarget & Hq & ->)]; [by apply IH|].
  rewrite IH; [|done|done]. cbn [cells].
  apply lookup_insert_ne. intros ->.
  rewrite (target_depends_on_ranges _ _ _ Hm) in Htarget.
  rewrite (is_merged_cell_depends_on_ranges _ _ _ Hm) in Hq.
  destruct Hp as [Hp|Hp]; [congruence|].
  apply (Hp patch); [by left | done].
Qed.

Lemma fold_apply_bounds (m : gmap (Z * Z) (Z * Z)) (data : list CellPatch) :
  forall ws n,
    n <= snd (fold_left (apply_cell_info m) data (ws, n))
      <= n + Z.of_nat (length data).
Proof.
  induction data as [|patch data IH]; intros ws n.
  - simpl. lia.
  - cbn [fold_left length].
    assert (Hstep : exists ws1 k, apply_cell_info m (ws, n) patch = (ws1, n + k)
                                  /\ 0 <= k <= 1).
    { unfold apply_cell_info.
      destruct (_ || _); [exists ws, 0; split; [f_equal|]; lia|].
      destruct (default Py.SNone (cell_reference patch)) as [| | |ref];
        try (exists ws, 0; split; [f_equal|]; lia).
      destruct (_ <? _)%nat; [exists ws, 0; split; [f_equal|]; lia|].
      destruct (setitem _ _ _) as [ws1|];
        [exists ws1, 1 | exists ws, 0]; (split; [f_equal|]; lia). }
    destruct Hstep as (ws1 & k & -> & Hk).
    specialize (IH ws1 (n + k)). lia.
Qed.

Lemma update_cells_app_eq (ws : Worksheet) (l1 l2 : list CellPatch) :
  update_cells ws (l1 ++ l2)
  = (fst (update_cells (fst (update_cells ws l1)) l2),
     snd (update_cells ws l1) + snd (update_cells (fst (update_cells ws l1)) l2)).
Proof.
  unfold update_cells. rewrite fold_left_app.
  set (m := get_merged_cell_mapping ws).
  pose proof (fold_apply_merged m l1 ws 0) as Hm.
  destruct (fold_left (apply_cell_info m) l1 (ws, 0)) as [ws1 n1].
  cbn [fst snd] in *. rewrite (mapping_depends_on_ranges _ _ Hm). fold m.
  apply fold_apply_count.
Qed.

(** Addresses that the mapping hands out resolve to themselves. *)
Lemma resolve_fixed (ws : Worksheet) (r : MergedRange) (letters : string) :
  Forall well_formed (merged_cells ws) -> non_overlapping (merged_cells ws) ->
  r ∈ merged_cells ws ->
  get_column_letter (min_col r) = Some letters ->
  resolve_merged_cell_reference (letters +:+ Py.str (min_row r))
    (get_merged_cell_mapping ws)
  = letters +:+ Py.str (min_row r).
Proof.
  intros Hwf Hno Hr Hlet.
  assert (Hw : well_formed r) by (by eapply Forall_forall in Hwf).
  destruct Hw as (Hord & Hrow & _).
  unfold resolve_merged_cell_reference.
  rewrite (coordinate_of_address (min_row r) (min_col r) letters) by (done || lia).
  rewrite (merged_mapping_lookup ws r); [| by apply well_formed_ordered | done | done
                                          | by apply covers_top_left].
  unfold top_left. by rewrite Hlet.
Qed.

Lemma put_sheet_names (wb : Workbook) (name : string) (ws' : Worksheet) :
  fst <$> put_sheet wb name ws' = fst <$> wb.
Proof.
  induction wb as [|[name0 ws0] wb IH]; [done|]. cbn [put_sheet].
  destruct (String.eqb name0 name); [done|]. rewrite !fmap_cons. by rewrite IH.
Qed.

Lemma put_sheet_ranges (wb : Workbook) (name : string) (ws ws' : Worksheet) :
  get_sheet wb name = Some ws -> merged_cells ws' = merged_cells ws ->
  (fun entry => merged_cells (snd entry)) <$> put_sheet wb name ws'
  = (fun entry => merged_cells (snd entry)) <$> wb.
Proof.
  induction wb as [|[name0 ws0] wb IH]; [done|]. cbn [put_sheet get_sheet].
  destruct (String.eqb name0 name).
  - intros [= ->] Hm. rewrite !fmap_cons. cbn [snd]. by rewrite Hm.
  - intros Hg Hm. rewrite !fmap_cons. by rewrite IH.
Qed.

Lemma update_excel_sheet_layout (wb : Workbook) (name : string)
    (data : list CellPatch) :
  let wb' := fst (update_excel_sheet wb name data) in
  fst <$> wb' = fst <$> wb
  /\ (fun entry => merged_cells (snd entry)) <$> wb'
     = (fun entry => merged_cells (snd entry)) <$> wb.
Proof.
  unfold update_excel_sheet.
  destruct (get_sheet wb name) as [ws|] eqn:Hg; [|done].
  pose proof (fold_apply_merged (get_merged_cell_mapping ws) data ws 0) as Hm.
  unfold update_cells.
  destruct (fold_left _ data (ws, 0)) as [ws' n]. cbn [fst] in *.
  split; [apply put_sheet_names | by eapply put_sheet_ranges].
Qed.

Lemma visit_sheet_layout (output_path : string -> JsonFile) (name : string)
    (run : Run) (sheet_name : string) :
  let run' := visit_sheet output_path name run sheet_name in
  fst <$> workbook run' = fst <$> workbook run
  /\ (fun entry => merged_cells (snd entry)) <$> workbook run'
     = (fun entry => merged_cells (snd entry)) <$> workbook run.
Proof.
  unfold visit_sheet, apply_patch_set.
  destruct (output_path _) as [| |d|l|]; try done.
  - pose proof (update_excel_sheet_layout (workbook run) sheet_name [d]) as H.
    by destruct (update_excel_sheet _ _ _).
  - pose proof (update_excel_sheet_layout (workbook run) sheet_name l) as H.
    by destruct (update_excel_sheet _ _ _).
Qed.

Lemma fold_visit_layout (output_path : string -> JsonFile) (name : string)
    (sheet_names : list string) :
  forall run,
    let run' := fold_left (visit_sheet output_path name) sheet_names run in
    fst <$> workbook run' = fst <$> workbook run
    /\ (fun entry => merged_cells (snd entry)) <$> workbook run'
       = (fun entry => merged_cells (snd entry)) <$> workbook run.
Proof.
  induction sheet_names as [|s rest IH]; intros run; [done|]. cbn [fold_left].
  destruct (IH (visit_sheet output_path name run s)) as [H1 H2].
  destruct (visit_sheet_layout output_path name run s) as [H3 H4].
  cbv zeta in *. split; congruence.
Qed.

End ApplierFacts.

(** The applier's mapping, for any list of merged ranges, overlapping or
    not: a coordinate covered by some range is mapped to the top-left
    corner of the last range of the list that covers it. *)
Theorem merged_mapping_last_range_wins (worksheet : Sheet.Worksheet)
    (before after : list Sheet.MergedRange) (r : Sheet.MergedRange) (p : Z * Z) :
  Sheet.merged_cells worksheet = before ++ r :: after ->
  Sheet.covers r p ->
  (forall r', r' ∈ after -> ~ Sheet.covers r' p) ->
  Applier.get_merged_cell_mapping worksheet !! p = Some (Sheet.top_left r).
Proof.
  intros Hranges Hc Hafter. unfold Applier.get_merged_cell_mapping.
  rewrite Hranges, fold_left_app. cbn [fold_left]. rewrite fold_map_range_lookup.
  apply last_covering_none in Hafter. rewrite Hafter.
  rewrite map_range_lookup_any. by rewrite decide_True.
Qed.

Lemma merged_mapping_last_range_wins_witness :
  Applier.get_merged_cell_mapping
    (Sheet.mkSheet [Sheet.mkRange 1 1 2 2; Sheet.mkRange 2 2 3 3] ∅) !! (2, 2)
  = Some (2, 2).
Proof.
  apply (merged_mapping_last_range_wins
           (Sheet.mkSheet [Sheet.mkRange 1 1 2 2; Sheet.mkRange 2 2 3 3] ∅)
           [Sheet.mkRange 1 1 2 2] [] (Sheet.mkRange 2 2 3 3) (2, 2)).
  - reflexivity.
  - unfold Sheet.covers; simpl; lia.
  - intros r' Hr'. by apply elem_of_nil in Hr'.
Defined.

(** The table renderer and the patch applier read the merged ranges the
    same way, whether or not the ranges overlap: the cells the renderer
    hides are the cells whose patches the applier sends elsewhere, the
    cells it renders with spans are those mapped to themselves, and the
    cells it renders plainly are those without an entry in the mapping. *)
Theorem hidden_cells_are_the_redirected_ones (worksheet : Sheet.Worksheet)
    (p : Z * Z) :
  Forall Sheet.ordered (Sheet.merged_cells worksheet) ->
  let shown := Geometry.classify (Geometry.find_merged_ranges worksheet) p in
  let mapped := Applier.get_merged_cell_mapping worksheet !! p in
  (shown = Geometry.Hidden <-> exists g, mapped = Some g /\ g <> p)
  /\ ((exists colspan rowspan, shown = Geometry.Governing colspan rowspan)
      <-> mapped = Some p)
  /\ (shown = Geometry.Ordinary <-> mapped = None).
Proof.
  intros Hord shown mapped. subst shown mapped.
  unfold Geometry.classify, Geometry.find_merged_ranges,
    Applier.get_merged_cell_mapping.
  rewrite fold_mark_range_lookup by done.
  rewrite fold_map_range_lookup, !lookup_empty.
  destruct (ApplierReading.last_covering (Sheet.merged_cells worksheet) p) as [r|].
  - destruct (decide (p = Sheet.top_left r)) as [->|Hne].
    + split; [|split].
      * split; [done|]. intros (g & [= <-] & Hg). done.
      * split; [done|]. intros _. eauto.
      * done.
    + split; [|split].
      * split; [|done]. intros _. exists (Sheet.top_left r). split; [done|].
        congruence.
      * split; [by intros (? & ? & ?)|]. intros [= Heq]. congruence.
      * done.
  - split; [|split].
    + split; [done|]. by intros (g & ? & _).
    + split; [by intros (? & ? & ?) | done].
    + done.
Qed.

Lemma hidden_cells_are_the_redirected_ones_witness :
  let worksheet := Examples.merged_sheet in
  let p := (1, 2) in
  let shown := Geometry.classify (Geometry.find_merged_ranges worksheet) p in
  let mapped := Applier.get_merged_cell_mapping worksheet !! p in
  (shown = Geometry.Hidden <-> exists g, mapped = Some g /\ g <> p)
  /\ ((exists colspan rowspan, shown = Geometry.Governing colspan rowspan)
      <-> mapped = Some p)
  /\ (shown = Geometry.Ordinary <-> mapped = None).
Proof.
  apply (hidden_cells_are_the_redirected_ones Examples.merged_sheet (1, 2)).
  apply well_formed_ordered, merged_sheet_ordered.
Defined.

(** A run of the loop over a patch list never touches the merged ranges
    of the sheet, and reports between zero and as many updates as there
    are patches. *)
Theorem update_cells_invariants (worksheet : Sheet.Worksheet)
    (cell_data : list Reconciler.CellPatch) :
  let result := Applier.update_cells worksheet cell_data in
  Sheet.merged_cells (fst result) = Sheet.merged_cells worksheet
  /\ 0 <= snd result <= Z.of_nat (length cell_data).
Proof.
  unfold Applier.update_cells. split.
  - apply fold_apply_merged.
  - pose proof (fold_apply_bounds (Applier.get_merged_cell_mapping worksheet)
                  cell_data worksheet 0). lia.
Qed.

(** Applying a patch list in one call gives the sheet and the count that
    applying its first part and then, to the sheet so obtained, its second
    part gives: the mapping computed at the start of a call stays right
    through the call. *)
Theorem update_cells_in_two_calls (worksheet : Sheet.Worksheet)
    (first second : list Reconciler.CellPatch) :
  let '(sheet1, updates1) := Applier.update_cells worksheet first in
  let '(sheet2, updates2) := Applier.update_cells sheet1 second in
  Applier.update_cells worksheet (first ++ second) = (sheet2, updates1 + updates2).
Proof.
  pose proof (update_cells_app_eq worksheet first second) as H.
  destruct (Applier.update_cells worksheet first) as [sheet1 updates1].
  cbn [fst snd] in H.
  by destruct (Applier.update_cells sheet1 second) as [sheet2 updates2].
Qed.

(** A cell that no patch of the list is aimed at, once the references are
    resolved, keeps the value it had. *)
Theorem untargeted_cells_keep_their_value (worksheet : Sheet.Worksheet)
    (cell_data : list Reconciler.CellPatch) (p : Z * Z) :
  (forall patch, patch ∈ cell_data ->
     ApplierReading.target worksheet patch <> Some p) ->
  Sheet.cells (fst (Applier.update_cells worksheet cell_data)) !! p
  = Sheet.cells worksheet !! p.
Proof.
  intros Hp. unfold Applier.update_cells. apply fold_apply_frame; [by right | done].
Qed.

Lemma untargeted_cells_keep_their_value_witness :
  Sheet.cells (fst (Applier.update_cells Examples.merged_sheet [Examples.patch_B1]))
    !! (1, 2)
  = Sheet.cells Examples.merged_sheet !! (1, 2).
Proof.
  apply (untargeted_cells_keep_their_value Examples.merged_sheet
           [Examples.patch_B1] (1, 2)).
  intros patch Hin. apply list_elem_of_singleton in Hin as ->.
  vm_compute. discriminate.
Defined.

(** The cells of a merged range other than its top-left corner are never
    written, whatever the patches. *)
Theorem subordinate_cells_are_never_written (worksheet : Sheet.Worksheet)
    (cell_data : list Reconciler.CellPatch) (p : Z * Z) :
  Applier.is_merged_cell worksheet p = true ->
  Sheet.cells (fst (Applier.update_cells worksheet cell_data)) !! p
  = Sheet.cells worksheet !! p.
Proof.
  intros Hp. unfold Applier.update_cells. apply fold_apply_frame; [by left | done].
Qed.

Lemma subordinate_cells_are_never_written_witness :
  Sheet.cells (fst (Applier.update_cells Examples.merged_sheet [Examples.patch_B1]))
    !! (1, 2)
  = Sheet.cells Examples.merged_sheet !! (1, 2).
Proof.
  apply (subordinate_cells_are_never_written Examples.merged_sheet
           [Examples.patch_B1] (1, 2)).
  reflexivity.
Defined.

(** A patch without a reference or without a value, with an empty one, or
    with a reference that is not a text of two characters or more, can be
    taken out of the list: sheet and count come out the same. *)
Theorem incomplete_patches_are_skipped (worksheet : Sheet.Worksheet)
    (before after : list Reconciler.CellPatch) (patch : Reconciler.CellPatch) :
  ApplierReading.incomplete patch ->
  Applier.update_cells worksheet (before ++ patch :: after)
  = Applier.update_cells worksheet (before ++ after).
Proof.
  intros Hinc. unfold Applier.update_cells. rewrite !fold_left_app.
  cbn [fold_left]. by rewrite apply_cell_info_incomplete.
Qed.

Lemma incomplete_patches_are_skipped_witness :
  Applier.update_cells Examples.merged_sheet
    ([Examples.patch_B1]
     ++ Reconciler.mkPatch (Some (Py.SStr "A")) (Some (Py.SInt 1)) None :: [])
  = Applier.update_cells Examples.merged_sheet ([Examples.patch_B1] ++ []).
Proof.
  apply (incomplete_patches_are_skipped Examples.merged_sheet [Examples.patch_B1] []
           (Reconciler.mkPatch (Some (Py.SStr "A")) (Some (Py.SInt 1)) None)).
  right. right. simpl. lia.
Defined.

(** When several patches are aimed at one cell, the last one that can be
    stored decides: after the run the cell holds that patch's value,
    coerced and as the cell keeps it. *)
Theorem last_patch_for_a_cell_wins (worksheet : Sheet.Worksheet)
    (before after : list Reconciler.CellPatch) (patch : Reconciler.CellPatch)
    (p : Z * Z) (v kept : Py.Scalar) :
  ~ ApplierReading.incomplete patch ->
  ApplierReading.target worksheet patch = Some p ->
  Applier.is_merged_cell worksheet p = false ->
  Reconciler.value patch = Some v ->
  Applier.check_value (Applier.coerce_value v) = Some kept ->
  (forall later, later ∈ after ->
     ApplierReading.target worksheet later <> Some p) ->
  Sheet.cells (fst (Applier.update_cells worksheet (before ++ patch :: after))) !! p
  = Some kept.
Proof.
  intros Hcomplete Htarget Hwritable Hv Hkept Hafter.
  destruct (complete_patch patch Hcomplete)
    as (ref & v' & Href & Hv' & Hlen & Hnone & Hempty).
  assert (v' = v) as -> by congruence.
  unfold ApplierReading.target in Htarget. rewrite Href in Htarget.
  unfold Applier.update_cells. rewrite fold_left_app. cbn [fold_left].
  set (m := Applier.get_merged_cell_mapping worksheet) in *.
  pose proof (fold_apply_merged m before worksheet 0) as Hm.
  destruct (fold_left (Applier.apply_cell_info m) before (worksheet, 0))
    as [sheet1 updates1]. cbn [fst] in Hm.
  rewrite (apply_cell_info_writes m sheet1 updates1 patch ref v kept p);
    try done.
  2:{ by rewrite (is_merged_cell_depends_on_ranges _ _ _ Hm). }
  subst m. rewrite fold_apply_frame; [|by right|done].
  cbn [Sheet.cells]. apply lookup_insert_eq.
Qed.

Lemma last_patch_for_a_cell_wins_witness :
  Sheet.cells
    (fst (Applier.update_cells Examples.merged_sheet
            ([Reconciler.mkPatch (Some (Py.SStr "A1")) (Some (Py.SStr "7")) None]
             ++ Examples.patch_B1 :: []))) !! (1, 1)
  = Some (Applier.coerce_value
            (default Py.SNone (Reconciler.value Examples.patch_B1))).
Proof.
  apply (last_patch_for_a_cell_wins Examples.merged_sheet
           [Reconciler.mkPatch (Some (Py.SStr "A1")) (Some (Py.SStr "7")) None] []
           Examples.patch_B1 (1, 1)
           (default Py.SNone (Reconciler.value Examples.patch_B1))).
  - vm_compute. intros [H|[H|H]]; [discriminate H | discriminate H | lia].
  - reflexivity.
  - reflexivity.
  - reflexivity.
  - reflexivity.
  - intros later Hin. by apply elem_of_nil in Hin.
Defined.

(** On a worksheet whose merged ranges are well formed and share no
    coordinate, resolving a reference a second time changes nothing. *)
Theorem resolving_twice_is_resolving_once (worksheet : Sheet.Worksheet)
    (cell_ref : string) :
  Forall Sheet.well_formed (Sheet.merged_cells worksheet) ->
  Sheet.non_overlapping (Sheet.merged_cells worksheet) ->
  let merged_mapping := Applier.get_merged_cell_mapping worksheet in
  Applier.resolve_merged_cell_reference
    (Applier.resolve_merged_cell_reference cell_ref merged_mapping) merged_mapping
  = Applier.resolve_merged_cell_reference cell_ref merged_mapping.
Proof.
  intros Hwf Hno merged_mapping. subst merged_mapping.
  unfold Applier.resolve_merged_cell_reference at 2 3.
  destruct (Applier.coordinate_to_tuple cell_ref) as [[row col]|] eqn:Hcoord.
  2:{ unfold Applier.resolve_merged_cell_reference. by rewrite Hcoord. }
  destruct (Applier.get_merged_cell_mapping worksheet !! (row, col))
    as [[top_left_row top_left_col]|] eqn:Hmap.
  2:{ unfold Applier.resolve_merged_cell_reference. by rewrite Hcoord, Hmap. }
  destruct (Applier.get_column_letter top_left_col) as [letters|] eqn:Hlet.
  2:{ unfold Applier.resolve_merged_cell_reference. by rewrite Hcoord, Hmap, Hlet. }
  unfold Applier.get_merged_cell_mapping in Hmap.
  rewrite fold_map_range_lookup, lookup_empty in Hmap.
  destruct (ApplierReading.last_covering (Sheet.merged_cells worksheet) (row, col))
    as [r|] eqn:Hlast; [|done].
  apply last_covering_some in Hlast as [Hr _].
  injection Hmap as <- <-.
  by apply resolve_fixed.
Qed.

Lemma resolving_twice_is_resolving_once_witness :
  let merged_mapping := Applier.get_merged_cell_mapping Examples.merged_sheet in
  Applier.resolve_merged_cell_reference
    (Applier.resolve_merged_cell_reference "B1" merged_mapping) merged_mapping
  = Applier.resolve_merged_cell_reference "B1" merged_mapping.
Proof.
  apply (resolving_twice_is_resolving_once Examples.merged_sheet "B1").
  - apply merged_sheet_ordered.
  - apply merged_sheet_non_overlapping.
Defined.

(** Whatever the output folder holds, a run over a workbook keeps the
    sheets, their names and their order, and the merged ranges of every
    sheet: only cell values change. *)
Theorem run_keeps_sheets_and_merged_ranges (output_path : string -> Applier.JsonFile)
    (workbook_name : string) (workbook saved : Applier.Workbook) :
  fst (Applier.update_workbook output_path workbook_name workbook) = Some saved ->
  fst <$> saved = fst <$> workbook
  /\ (fun entry => Sheet.merged_cells (snd entry)) <$> saved
     = (fun entry => Sheet.merged_cells (snd entry)) <$> workbook.
Proof.
  unfold Applier.update_workbook.
  pose proof (fold_visit_layout output_path workbook_name (fst <$> workbook)
                (Applier.mkRun workbook false 0)) as H. cbv zeta in H.
  destruct (Applier.workbook_updated _); [|done].
  cbn [fst]. by intros [= <-].
Qed.

Lemma run_keeps_sheets_and_merged_ranges_witness :
  exists saved,
    fst (Applier.update_workbook Examples.folder_with_empty_patch_set "book"
           Examples.book) = Some saved
    /\ fst <$> saved = fst <$> Examples.book
    /\ (fun entry => Sheet.merged_cells (snd entry)) <$> saved
       = (fun entry => Sheet.merged_cells (snd entry)) <$> Examples.book.
Proof.
  eexists. split; [reflexivity|].
  apply (run_keeps_sheets_and_merged_ranges Examples.folder_with_empty_patch_set
           "book" Examples.book).
  reflexivity.
Defined.

(** A reference that the resolver cannot read as a coordinate, but that
    the workbook accepts as a cell address (lower-case letters, dollar
    signs), is left as it is; if it names a subordinate cell of a merged
    range, the patch is dropped: nothing is written and nothing counted. *)
Theorem unresolved_reference_to_subordinate_is_dropped
    (worksheet : Sheet.Worksheet) (patch : Reconciler.CellPatch) (ref : string)
    (p : Z * Z) :
  Reconciler.cell_reference patch = Some (Py.SStr ref) ->
  Applier.coordinate_to_tuple ref = None ->
  Applier.parse_cell_key ref = Some p ->
  Applier.is_merged_cell worksheet p = true ->
  Applier.update_cells worksheet [patch] = (worksheet, 0).
Proof.
  intros Href Hcoord Hkey Hmerged. unfold Applier.update_cells. cbn [fold_left].
  unfold Applier.apply_cell_info. rewrite Href. cbn [default from_option id].
  destruct (_ || _); [done|]. destruct (_ <? _)%nat; [done|].
  unfold Applier.resolve_merged_cell_reference. rewrite Hcoord.
  unfold Applier.setitem. by rewrite Hkey, Hmerged.
Qed.

Lemma unresolved_reference_to_subordinate_is_dropped_witness :
  Applier.update_cells Examples.merged_sheet
    [Reconciler.mkPatch (Some (Py.SStr "b1")) (Some (Py.SInt 7)) None]
  = (Examples.merged_sheet, 0).
Proof.
  apply (unresolved_reference_to_subordinate_is_dropped Examples.merged_sheet
           (Reconciler.mkPatch (Some (Py.SStr "b1")) (Some (Py.SInt 7)) None)
           "b1" (1, 2)); reflexivity.
Defined.

(** ** The row markers of a rendered sheet *)

Section ScannerFacts.
Import Reconciler Scanner.

Lemma append_empty_r (s : string) : s +:+ EmptyString = s.
Proof.
  induction s as [|a s IH]; [done|].
  change (String a (s +:+ EmptyString) = String a s). by rewrite IH.
Qed.

Lemma scan_app (x y : string) : forall st,
  scan st (x +:+ y)
  = (fst (scan (fst (scan st x)) y), snd (scan st x) ++ snd (scan (fst (scan st x)) y)).
Proof.
  induction x as [|a x IH]; intros st.
  - cbn [scan fst snd]. change (EmptyString +:+ y) with y. by destruct (scan st y).
  - change (String a x +:+ y) with (String a (x +:+ y)). cbn [scan].
    destruct (step st a) as [st' out]. rewrite IH.
    destruct (scan st' x) as [st1 out1]. cbn [fst snd].
    destruct (scan st1 y) as [st2 out2]. cbn [fst snd]. by rewrite app_assoc.
Qed.

Lemma match_row_marker_other (a : ascii) (r : string) :
  Ascii.eqb a "i" = false -> match_row_marker (String a r) = None.
Proof.
  intros Ha. unfold match_row_marker.
  change row_prefix with (String "i" ("d=" +:+ String Py.dquote "row")).
  by rewrite prefix_cons, (Ascii.eqb_sym "i" a), Ha.
Qed.

Lemma findall_from_other (x r : string) :
  Py.all_chars (fun c => negb (Ascii.eqb c "i")) x = true ->
  findall_from O (x +:+ r) = findall_from O r.
Proof.
  induction x as [|a x IH]; [done|]. cbn [Py.all_chars].
  intros [Ha Hx]%andb_true_iff. apply negb_true_iff in Ha.
  change (String a x +:+ r) with (String a (x +:+ r)). cbn [findall_from].
  rewrite match_row_marker_other by done. by apply IH.
Qed.

Lemma findall_from_skip (x r : string) :
  findall_from (String.length x) (x +:+ r) = findall_from O r.
Proof.
  induction x as [|a x IH]; [done|].
  change (String a x +:+ r) with (String a (x +:+ r)). cbn [String.length findall_from].
  exact IH.
Qed.

Lemma findall_from_marker (d r : string) :
  Py.isdigit d = true ->
  findall_from O (row_prefix +:+ (d +:+ String Py.dquote r)) = d :: findall_from O r.
Proof.
  intros Hd.
  pose proof (match_row_marker_here d r Hd) as Hm. unfold marker_then in Hm.
  change (row_prefix +:+ (d +:+ String Py.dquote r))
    with (String "i" (("d=" +:+ String Py.dquote "row")
                      +:+ (d +:+ String Py.dquote r))) in *.
  cbn [findall_from]. rewrite Hm. f_equal.
  rewrite <- (findall_from_skip
                (("d=" +:+ String Py.dquote "row") +:+ (d +:+ String Py.dquote "")) r).
  f_equal.
  - rewrite !append_length. simpl. lia.
  - rewrite !append_assoc. done.
Qed.

Lemma all_digits_other (d : string) :
  Py.all_chars Py.is_digit d = true ->
  Py.all_chars (fun c => negb (Ascii.eqb c "i")) d = true.
Proof.
  apply all_chars_impl. intros a Ha.
  destruct (Ascii.eqb_spec a "i") as [->|]; done.
Qed.

Lemma span_digits_all (d : string) :
  Py.all_chars Py.is_digit d = true -> Py.span_digits d = (d, EmptyString).
Proof.
  induction d as [|a d IH]; [done|]. cbn [Py.all_chars Py.span_digits].
  intros [-> Hd]%andb_true_iff. by rewrite IH.
Qed.

Lemma span_digits_stop (d : string) (c : ascii) (r : string) :
  Py.all_chars Py.is_digit d = true -> Py.is_digit c = false ->
  Py.span_digits (d +:+ String c r) = (d, String c r).
Proof.
  intros Hd Hc. induction d as [|a d IH].
  - change (EmptyString +:+ String c r) with (String c r).
    cbn [Py.span_digits]. by rewrite Hc.
  - cbn [Py.all_chars] in Hd. apply andb_true_iff in Hd as [Ha Hd].
    change (String a d +:+ String c r) with (String a (d +:+ String c r)).
    cbn [Py.span_digits]. by rewrite Ha, IH.
Qed.

(** Where the next character does not go on with the marker, the search
    goes on from that character. *)
Lemma findall_from_restart (c : ascii) (r : string) :
  findall_from O (String c r) = findall_from O (pending (restart c) +:+ r).
Proof.
  unfold restart. destruct (Ascii.eqb_spec c "i") as [->|Hc]; [done|].
  cbn [pending]. change (String.substring 0 0 row_prefix +:+ r) with r.
  cbn [findall_from]. rewrite match_row_marker_other; [done|].
  by apply Ascii.eqb_neq.
Qed.

(** The fixed part of the marker, cut where it is left. *)
Lemma prefix_mismatch (a b s : string) (e c : ascii) :
  Ascii.eqb c e = false ->
  String.prefix (a +:+ String e b) (a +:+ String c s) = false.
Proof.
  intros Hc. induction a as [|x a IH].
  - change (String.prefix (String e b) (String c s) = false).
    by rewrite prefix_cons, (Ascii.eqb_sym e c), Hc.
  - change (String.prefix (String x (a +:+ String e b))
                          (String x (a +:+ String c s)) = false).
    by rewrite prefix_cons, IH, andb_false_r.
Qed.

Lemma findall_from_broken (a b : string) (e c : ascii) (r : string) :
  row_prefix = String "i" a +:+ String e b ->
  Py.all_chars (fun c => negb (Ascii.eqb c "i")) a = true ->
  Ascii.eqb c e = false ->
  findall_from O (String "i" a +:+ String c r) = findall_from O (String c r).
Proof.
  intros Hp Ha Hc.
  change (String "i" a +:+ String c r) with (String "i" (a +:+ String c r)).
  cbn [findall_from].
  assert (match_row_marker (String "i" (a +:+ String c r)) = None) as ->.
  { unfold match_row_marker. rewrite Hp.
    change (String "i" (a +:+ String c r)) with (String "i" a +:+ String c r).
    by rewrite prefix_mismatch. }
  by apply findall_from_other.
Qed.

Lemma step_findall (st : State) (c : ascii) (r : string) :
  valid st ->
  valid (fst (step st c))
  /\ findall_from O (pending st +:+ String c r)
     = snd (step st c) ++ findall_from O (pending (fst (step st c)) +:+ r).
Proof.
  intros Hv. destruct st as [k|d].
  - cbn [valid] in Hv.
    destruct k as [|[|[|[|[|[|[|[|k]]]]]]]]; [..|lia]; cbn [step];
      match goal with
      | |- context [String.get ?k row_prefix] =>
          let v := eval vm_compute in (String.get k row_prefix) in
          change (String.get k row_prefix) with v
      end; cbv iota beta.
    1-7: match goal with
         | |- context [Ascii.eqb ?x ?e] =>
             destruct (Ascii.eqb_spec x e) as [->|Hc%Ascii.eqb_neq]
         end; cbn [fst snd app valid pending]; try (split; [lia | reflexivity]).
    1-7: split; [unfold restart; destruct (Ascii.eqb c "i"); cbn [valid]; lia|].
    + apply findall_from_restart.
    + rewrite <- findall_from_restart.
      apply (findall_from_broken EmptyString ("=" +:+ String Py.dquote "row") "d" c r); [reflexivity | done | done].
    + rewrite <- findall_from_restart.
      apply (findall_from_broken "d" (String Py.dquote "row") "=" c r); [reflexivity | done | done].
    + rewrite <- findall_from_restart.
      apply (findall_from_broken "d=" "row" Py.dquote c r); [reflexivity | done | done].
    + rewrite <- findall_from_restart.
      apply (findall_from_broken ("d=" +:+ String Py.dquote "") "ow" "r" c r);
        [reflexivity | done | done].
    + rewrite <- findall_from_restart.
      apply (findall_from_broken ("d=" +:+ String Py.dquote "r") "w" "o" c r);
        [reflexivity | done | done].
    + rewrite <- findall_from_restart.
      apply (findall_from_broken ("d=" +:+ String Py.dquote "ro") EmptyString "w" c r);
        [reflexivity | done | done].
    + destruct (Py.is_digit c) eqn:Hd; cbn [fst snd app valid pending].
      * split; [simpl; by rewrite Hd | reflexivity].
      * split; [unfold restart; destruct (Ascii.eqb c "i"); cbn [valid]; lia|].
        rewrite <- findall_from_restart.
        change (String.substring 0 7 row_prefix +:+ String c r)
          with (String "i" (("d=" +:+ String Py.dquote "row") +:+ String c r)).
        cbn [findall_from].
        assert (match_row_marker
                  (String "i" (("d=" +:+ String Py.dquote "row") +:+ String c r))
                = None) as ->.
        { unfold match_row_marker.
          change (String "i" (("d=" +:+ String Py.dquote "row") +:+ String c r))
            with (row_prefix +:+ String c r).
          rewrite prefix_append.
          change (drop 7 (row_prefix +:+ String c r)) with (String c r).
          cbn [Py.span_digits]. by rewrite Hd. }
        by apply findall_from_other.
  - cbn [valid] in Hv. apply isdigit_all in Hv as [Hne Hd]. cbn [step].
    destruct (Py.is_digit c) eqn:Hc; cbn [fst snd app valid pending].
    + split.
      * apply isdigit_all. split; [by destruct d|].
        rewrite all_chars_append, Hd. simpl. by rewrite Hc.
      * by rewrite !append_assoc.
    + destruct (Ascii.eqb_spec c Py.dquote) as [->|Hq%Ascii.eqb_neq];
        cbn [fst snd app valid pending].
      * split; [lia|]. rewrite append_assoc.
        change (String.substring 0 0 row_prefix +:+ r) with r.
        apply findall_from_marker, isdigit_all. by split.
      * split; [unfold restart; destruct (Ascii.eqb c "i"); cbn [valid]; lia|].
        rewrite <- findall_from_restart. rewrite append_assoc.
        change (row_prefix +:+ (d +:+ String c r))
          with (String "i" (("d=" +:+ String Py.dquote "row") +:+ (d +:+ String c r))).
        cbn [findall_from].
        assert (match_row_marker
                  (String "i" (("d=" +:+ String Py.dquote "row")
                               +:+ (d +:+ String c r))) = None) as ->.
        { unfold match_row_marker.
          change (String "i" (("d=" +:+ String Py.dquote "row") +:+ (d +:+ String c r)))
            with (row_prefix +:+ (d +:+ String c r)).
          rewrite prefix_append.
          change (drop 7 (row_prefix +:+ (d +:+ String c r))) with (d +:+ String c r).
          rewrite span_digits_stop by done.
          destruct d; [done|]. by rewrite Hq. }
        rewrite <- append_assoc. apply findall_from_other.
        rewrite all_chars_append, (all_digits_other d) by done. reflexivity.
Qed.

Lemma pending_findall (st : State) :
  valid st -> findall_from O (pending st) = [].
Proof.
  destruct st as [k|d]; cbn [valid pending].
  - intros Hk. destruct k as [|[|[|[|[|[|[|[|k]]]]]]]]; [..|lia]; reflexivity.
  - intros [Hne Hd]%isdigit_all.
    change (row_prefix +:+ d) with (String "i" (("d=" +:+ String Py.dquote "row") +:+ d)).
    cbn [findall_from].
    assert (match_row_marker (String "i" (("d=" +:+ String Py.dquote "row") +:+ d))
            = None) as ->.
    { unfold match_row_marker.
      change (String "i" (("d=" +:+ String Py.dquote "row") +:+ d))
        with (row_prefix +:+ d).
      rewrite prefix_append. change (drop 7 (row_prefix +:+ d)) with d.
      rewrite span_digits_all by done. by destruct d. }
    pose proof (findall_from_other (("d=" +:+ String Py.dquote "row") +:+ d)
                  EmptyString) as H.
    rewrite append_empty_r in H. rewrite H; [done|].
    rewrite all_chars_append, (all_digits_other d) by done. reflexivity.
Qed.

(** The automaton lists what [findall_rows] lists. *)
Lemma scan_findall (rest : string) : forall st,
  valid st -> findall_from O (pending st +:+ rest) = snd (scan st rest).
Proof.
  induction rest as [|c r IH]; intros st Hv.
  - rewrite append_empty_r. cbn [scan snd]. by apply pending_findall.
  - destruct (step_findall st c r Hv) as [Hv' Heq]. rewrite Heq. cbn [scan].
    destruct (step st c) as [st' out]. cbn [fst snd] in *.
    rewrite (IH st' Hv'). by destruct (scan st' r).
Qed.

Lemma findall_rows_scan (html : string) :
  findall_rows html = snd (scan (Prefix 0) html).
Proof. unfold findall_rows. by rewrite <- (scan_findall html (Prefix 0)); [|simpl; lia]. Qed.

End ScannerFacts.

Section Reaching.
Import Scanner.

Lemma reach_app (ks ks1 ks2 : list nat) (x y : string) (ds es : list string) :
  reach ks x ks1 ds -> reach ks1 y ks2 es -> reach ks (x +:+ y) ks2 (ds ++ es).
Proof.
  intros Hx Hy k Hk. destruct (Hx k Hk) as (k1 & Hk1 & E1).
  destruct (Hy k1 Hk1) as (k2 & Hk2 & E2). exists k2. split; [done|].
  rewrite scan_app, E1. cbn [fst snd]. by rewrite E2.
Qed.

Lemma reach_empty (ks : list nat) : reach ks EmptyString ks [].
Proof. intros k Hk. by exists k. Qed.

Lemma reach_lit (ks : list nat) (lit : string) :
  silent ks lit = true -> reach ks lit (image ks lit) [].
Proof.
  intros Hs k Hk. unfold silent in Hs. rewrite forallb_forall in Hs.
  pose proof (Hs k Hk) as H.
  destruct (scan (Prefix k) lit) as [[k'|d] out] eqn:E; [|done].
  destruct out; [|done]. exists k'. split; [|done].
  unfold image. apply in_map_iff. exists k. by rewrite E.
Qed.

Lemma low_in (k : nat) : (k <= 3)%nat -> In k [0; 1; 2; 3]%nat.
Proof. intros H. destruct k as [|[|[|[|k]]]]; simpl; try lia; tauto. Qed.

Lemma in_low (k : nat) : In k [0; 1; 2; 3]%nat -> (k <= 3)%nat.
Proof. simpl. lia. Qed.

Lemma scan_quiet (x : string) : forall k,
  (k <= 3)%nat -> PyText.quiet x = true ->
  exists k', (k' <= 3)%nat /\ scan (Prefix k) x = (Prefix k', []).
Proof.
  induction x as [|a x IH]; intros k Hk Hq.
  - by exists k.
  - unfold PyText.quiet in Hq. cbn [Py.all_chars] in Hq.
    apply andb_true_iff in Hq as [Ha Hx]. apply negb_true_iff in Ha.
    assert (Hstep : exists k1, (k1 <= 3)%nat /\ step (Prefix k) a = (Prefix k1, [])).
    { assert (Hre : exists k1, (k1 <= 3)%nat /\ restart a = Prefix k1).
      { unfold restart. destruct (Ascii.eqb a "i"); eexists; (split; [|done]); lia. }
      destruct Hre as (k1 & Hk1 & Hre).
      destruct k as [|[|[|[|k]]]]; [..|lia]; cbn [step];
        match goal with
        | |- context [String.get ?k Reconciler.row_prefix] =>
            let v := eval vm_compute in (String.get k Reconciler.row_prefix) in
            change (String.get k Reconciler.row_prefix) with v
        end; cbv iota beta.
      1-3: match goal with
           | |- context [Ascii.eqb ?x ?e] => destruct (Ascii.eqb x e)
           end; [eexists; split; [|done]; lia | exists k1; by rewrite Hre].
      change "034"%char with Py.dquote. rewrite Ha. exists k1. by rewrite Hre. }
    destruct Hstep as (k1 & Hk1 & Hstep).
    destruct (IH k1 Hk1 Hx) as (k' & Hk' & Hscan).
    exists k'. split; [done|]. cbn [scan]. by rewrite Hstep, Hscan.
Qed.

Lemma reach_quiet (ks : list nat) (x : string) :
  all_low ks = true -> PyText.quiet x = true -> reach ks x [0; 1; 2; 3]%nat [].
Proof.
  intros Hks Hx k Hk. unfold all_low in Hks. rewrite forallb_forall in Hks.
  apply Hks, Nat.leb_le in Hk.
  destruct (scan_quiet x k Hk Hx) as (k' & Hk' & E).
  exists k'. split; [by apply low_in | done].
Qed.

Lemma scan_digits (d r : string) : forall acc,
  Py.all_chars Py.is_digit d = true ->
  scan (Digits acc) (d +:+ r) = scan (Digits (acc +:+ d)) r.
Proof.
  induction d as [|a d IH]; intros acc Hd.
  - by rewrite append_empty_r.
  - cbn [Py.all_chars] in Hd. apply andb_true_iff in Hd as [Ha Hd].
    change (String a d +:+ r) with (String a (d +:+ r)). cbn [scan step].
    rewrite Ha, (IH _ Hd).
    replace (acc +:+ String a d) with ((acc +:+ String a EmptyString) +:+ d)
      by (by rewrite append_assoc).
    by destruct (scan _ r).
Qed.

Lemma reach_marker (ks ks' : list nat) (d rest : string) (ds : list string) :
  all_open ks = true -> Py.isdigit d = true ->
  reach [O] rest ks' ds ->
  reach ks (d +:+ (String Py.dquote EmptyString +:+ rest)) ks' (d :: ds).
Proof.
  intros Hks [Hne Hd]%isdigit_all Hrest k Hk.
  unfold all_open in Hks. rewrite forallb_forall in Hks.
  apply Hks, Nat.eqb_eq in Hk as ->.
  destruct (Hrest O) as (k' & Hk' & E); [by left|]. exists k'. split; [done|].
  destruct d as [|a d]; [done|]. cbn [Py.all_chars] in Hd.
  apply andb_true_iff in Hd as [Ha Hd].
  change (String a d +:+ (String Py.dquote EmptyString +:+ rest))
    with (String a (d +:+ String Py.dquote rest)).
  cbn [scan]. cbn [step].
  change (String.get 7 Reconciler.row_prefix) with (@None ascii). cbv iota.
  rewrite Ha, (scan_digits d _ _ Hd).
  change (String a EmptyString +:+ d) with (String a d).
  cbn [scan step]. change (Py.is_digit Py.dquote) with false. cbv iota.
  rewrite Ascii.eqb_refl, E. done.
Qed.

Lemma subset_in (ks ks' : list nat) (k : nat) :
  subset ks ks' = true -> In k ks -> In k ks'.
Proof.
  unfold subset. rewrite forallb_forall. intros H Hk.
  apply H, existsb_exists in Hk as (k' & Hk' & ->%Nat.eqb_eq). done.
Qed.

Lemma reach_weaken (ks ks1 ks2 : list nat) (x : string) (ds : list string) :
  reach ks x ks1 ds -> subset ks1 ks2 = true -> reach ks x ks2 ds.
Proof.
  intros Hx Hsub k Hk. destruct (Hx k Hk) as (k' & Hk' & E).
  exists k'. split; [by eapply subset_in | done].
Qed.

Lemma reach_to (ks ks1 ks2 : list nat) (x : string) (ds ds' : list string) :
  reach ks x ks1 ds' -> subset ks1 ks2 = true -> ds' = ds -> reach ks x ks2 ds.
Proof. intros Hx Hsub <-. by eapply reach_weaken. Qed.

Lemma reach_restrict (ks0 ks ks' : list nat) (x : string) (ds : list string) :
  reach ks x ks' ds -> subset ks0 ks = true -> reach ks0 x ks' ds.
Proof. intros Hx Hsub k Hk. apply Hx. by eapply subset_in. Qed.

Lemma yields_of_reach (x : string) (ks' : list nat) (ds ds' : list string) :
  reach [0; 1; 2; 3]%nat x ks' ds' -> all_low ks' = true -> ds' = ds -> yields x ds.
Proof.
  intros Hx Hks <- k Hk. destruct (Hx k Hk) as (k' & Hk' & E).
  exists k'. split; [|done]. apply low_in.
  unfold all_low in Hks. rewrite forallb_forall in Hks. by apply Nat.leb_le, Hks.
Qed.

Lemma yields_app (x y : string) (ds es : list string) :
  yields x ds -> yields y es -> yields (x +:+ y) (ds ++ es).
Proof. apply reach_app. Qed.

Lemma yields_quiet (x : string) : PyText.quiet x = true -> yields x [].
Proof. by apply reach_quiet. Qed.

Lemma yields_nl : yields PyText.nl [].
Proof.
  apply (yields_of_reach _ (image [0; 1; 2; 3]%nat PyText.nl) _ []);
    [apply reach_lit| |]; reflexivity.
Qed.

Lemma yields_lines_nil : yields (PyText.lines PyText.nl []) [].
Proof. apply reach_empty. Qed.

Lemma yields_lines_cons (p : string) (parts : list string) (ds es : list string) :
  yields p ds -> yields (PyText.lines PyText.nl parts) es ->
  yields (PyText.lines PyText.nl (p :: parts)) (ds ++ es).
Proof.
  intros Hp Hparts. cbn [PyText.lines]. apply yields_app; [done|].
  apply (yields_app _ _ [] es); [apply yields_nl | done].
Qed.

Lemma lines_app (sep : string) (a b : list string) :
  PyText.lines sep (a ++ b) = PyText.lines sep a +:+ PyText.lines sep b.
Proof.
  induction a as [|p a IH]; [done|]. cbn [app PyText.lines].
  by rewrite IH, !append_assoc.
Qed.

Lemma yields_lines_app (a b : list string) (ds es : list string) :
  yields (PyText.lines PyText.nl a) ds -> yields (PyText.lines PyText.nl b) es ->
  yields (PyText.lines PyText.nl (a ++ b)) (ds ++ es).
Proof. rewrite lines_app. apply yields_app. Qed.

Lemma yields_lines_silent (parts : list string) :
  Forall (fun p => yields p []) parts -> yields (PyText.lines PyText.nl parts) [].
Proof.
  induction 1 as [|p parts Hp _ IH]; [apply yields_lines_nil|].
  by apply (yields_lines_cons p parts [] []).
Qed.

Lemma join_snoc (sep : string) (parts : list string) (last : string) :
  PyText.join sep (parts ++ [last]) = PyText.lines sep parts +:+ last.
Proof.
  induction parts as [|p parts IH]; [done|].
  cbn [app PyText.lines]. rewrite !append_assoc, <- IH.
  cbn [PyText.join]. by destruct (parts ++ [last]) eqn:E; [destruct parts|].
Qed.

(** What the automaton gives out from its start is what the search
    lists. *)
Lemma yields_findall (html : string) (ds : list string) :
  yields html ds -> Reconciler.findall_rows html = ds.
Proof.
  intros H. destruct (H O) as (k' & _ & E); [by left|].
  by rewrite findall_rows_scan, E.
Qed.

End Reaching.

Ltac quiet_leaf := solve [ auto with quiet ].

Ltac closed_string s :=
  lazymatch s with
  | String _ ?r => closed_string r
  | EmptyString => idtac
  | ?a +:+ ?b => closed_string a; closed_string b
  | Renderer.generate_css => idtac
  | PyText.nl => idtac
  end.

Ltac scan_leaf :=
  lazymatch goal with
  | |- Scanner.reach _ ?x _ _ =>
      first
        [ closed_string x; apply reach_lit; vm_compute; reflexivity
        | apply reach_quiet; [vm_compute; reflexivity | quiet_leaf]
        | eapply reach_restrict; [eassumption | vm_compute; reflexivity] ]
  end.

Ltac walk :=
  lazymatch goal with
  | |- Scanner.reach _ (_ +:+ (String Py.dquote EmptyString +:+ _)) _ _ =>
      first
        [ eapply reach_app; [solve [scan_leaf] | walk]
        | eapply reach_marker; [vm_compute; reflexivity | quiet_leaf | walk] ]
  | |- Scanner.reach _ (_ +:+ _) _ _ =>
      eapply reach_app; [solve [scan_leaf] | walk]
  | |- Scanner.reach _ _ _ _ => solve [scan_leaf]
  end.

(** From the low states through a part: the pieces of the part are walked
    through one after the other. *)
Ltac part :=
  unfold Renderer.q; rewrite ?append_assoc;
  eapply yields_of_reach; [walk | vm_compute; reflexivity | reflexivity].

(** The same, to a given set of states. *)
Ltac reaching :=
  unfold Renderer.q; rewrite ?append_assoc;
  eapply reach_to; [walk | vm_compute; reflexivity | reflexivity].

Section QuietFacts.
Import PyText.

Lemma quiet_app (a b : string) : quiet (a +:+ b) = quiet a && quiet b.
Proof. apply all_chars_append. Qed.

Lemma quiet_app_intro (a b : string) :
  quiet a = true -> quiet b = true -> quiet (a +:+ b) = true.
Proof. intros Ha Hb. by rewrite quiet_app, Ha, Hb. Qed.

Lemma quiet_digits (d : string) : Py.all_chars Py.is_digit d = true -> quiet d = true.
Proof.
  apply all_chars_impl. intros a Ha.
  destruct (Ascii.eqb_spec a Py.dquote) as [->|]; done.
Qed.

Lemma quiet_str (z : Z) : quiet (Py.str z) = true.
Proof.
  unfold Py.str, Py.str_of_nonneg.
  destruct (z <? 0); [change (quiet (String "-" ?s)) with (quiet s)|];
    apply quiet_digits, string_of_uint_digits.
Qed.

Lemma quiet_escape (s : string) : quiet (escape s) = true.
Proof.
  unfold escape. rewrite (replace_char "'"), (replace_char Py.dquote).
  apply (all_chars_subst (fun a => negb (Ascii.eqb a Py.dquote))).
  - intros a Ha. destruct (Ascii.eqb a "'"); [done|].
    cbn [Py.all_chars]. by rewrite Ha.
  - apply (all_chars_subst (fun _ => true)).
    + intros a _. destruct (Ascii.eqb_spec a Py.dquote) as [->|Hne]; [done|].
      cbn [Py.all_chars]. apply Ascii.eqb_neq in Hne. by rewrite Hne.
    + clear. generalize (Py.replace ">" "&gt;" (Py.replace "<" "&lt;"
                           (Py.replace "&" "&amp;" s))).
      intros t. by induction t.
Qed.

Lemma quiet_letters (col : Z) (letters : string) :
  Applier.get_column_letter col = Some letters -> quiet letters = true.
Proof.
  unfold Applier.get_column_letter.
  destruct ((1 <=? col) && (col <=? 18278)) eqn:Hrange; [|done].
  apply andb_true_iff in Hrange as [H1 H2]. apply Z.leb_le in H1, H2.
  pose proof (column_letters_ok col (conj H1 H2)) as Hok.
  unfold Applier.column_ok in Hok. intros [= <-].
  apply andb_true_iff in Hok as [Hok _]. apply andb_true_iff in Hok as [Hok _].
  apply andb_true_iff in Hok as [Hup _].
  eapply all_chars_impl; [|exact Hup]. intros a Ha.
  destruct (Ascii.eqb_spec a Py.dquote) as [->|]; done.
Qed.

Lemma quiet_join (sep : string) (parts : list string) :
  quiet sep = true -> Forall (fun p => quiet p = true) parts ->
  quiet (join sep parts) = true.
Proof.
  intros Hsep. induction 1 as [|p parts Hp Hparts IH]; [done|].
  cbn [join]. destruct parts as [|p' parts]; [done|].
  by rewrite !quiet_app, Hp, Hsep, IH.
Qed.

End QuietFacts.

Create HintDb quiet.

#[export] Hint Resolve quiet_str quiet_escape quiet_app_intro : quiet.

Section StyleFacts.
Import PyText Style.
Variable float_str : Py.PyFloat -> string.
Hypothesis float_str_quiet : forall x, quiet (float_str x) = true.

Lemma set_item_quiet (props : Props) (key value : string) :
  quiet_props props -> quiet key = true -> quiet value = true ->
  quiet_props (set_item props key value).
Proof.
  intros Hprops Hk Hv. induction Hprops as [|[k v] props [Hk0 Hv0] Hprops IH].
  - by repeat constructor.
  - cbn [set_item]. destruct (String.eqb k key); constructor; done.
Qed.

Lemma update_quiet (other props : Props) :
  quiet_props props -> quiet_props other -> quiet_props (update props other).
Proof.
  unfold update. intros Hprops Hother. revert props Hprops.
  induction Hother as [|[k v] other [Hk Hv] Hother IH]; intros props Hprops; [done|].
  cbn [fold_left]. apply IH. by apply set_item_quiet.
Qed.

Lemma setdefault_quiet (props : Props) (key value : string) :
  quiet_props props -> quiet key = true -> quiet value = true ->
  quiet_props (setdefault props key value).
Proof.
  intros Hprops Hk Hv. unfold setdefault. destruct (existsb _ props); [done|].
  apply Forall_app. split; [done|]. by repeat constructor.
Qed.

Lemma get_border_css_quiet (side : option Side) : quiet (get_border_css side) = true.
Proof.
  unfold get_border_css. destruct side as [[[style|]]|]; try done. cbn [side_style].
  destruct (String.eqb style EmptyString); [done|]. unfold border_styles.
  repeat match goal with
         | |- context [String.eqb style ?s] => destruct (String.eqb style s); [done|]
         end.
  done.
Qed.

Lemma border_props_quiet (cell : Cell) : quiet_props (border_props cell).
Proof.
  unfold border_props. destruct (border cell) as [b|]; [|constructor].
  destruct (border_top b), (border_bottom b), (border_left b), (border_right b);
    repeat (apply set_item_quiet; [|done|apply get_border_css_quiet]);
    constructor.
Qed.

Lemma get_alignment_css_quiet (a : option Alignment) :
  quiet_props (get_alignment_css a).
Proof.
  unfold get_alignment_css. destruct a as [a|]; [|constructor].
  destruct (is_text (horizontal a) "center"), (is_text (horizontal a) "right"),
    (is_text (horizontal a) "left"), (is_text (vertical a) "center"),
    (is_text (vertical a) "top"), (is_text (vertical a) "bottom"), (wrap_text a);
    repeat (apply set_item_quiet; [|done|done]); constructor.
Qed.

Lemma get_font_css_quiet (f : option Font) :
  (forall font name, f = Some font -> font_name font = Some name ->
     quiet name = true) ->
  quiet_props (get_font_css float_str f).
Proof using float_str_quiet.
  intros Hname. unfold get_font_css. destruct f as [f|]; [|constructor].
  cbv zeta.
  assert (Hsize : forall x, quiet (float_str x +:+ "pt") = true).
  { intros x. by rewrite quiet_app, float_str_quiet. }
  destruct (font_name f) as [name|] eqn:E.
  - pose proof (Hname f name eq_refl E) as Hn.
    destruct (String.eqb name EmptyString), (font_size f) as [x|], (font_bold f);
      try destruct (Applier.falsy (Py.SFloat x));
      repeat (apply set_item_quiet; [|done|done]); constructor.
  - destruct (font_size f) as [x|], (font_bold f);
      try destruct (Applier.falsy (Py.SFloat x));
      repeat (apply set_item_quiet; [|done|done]); constructor.
Qed.

Lemma generate_cell_style_quiet (cell : Cell) :
  (forall f name, font cell = Some f -> font_name f = Some name ->
     quiet name = true) ->
  quiet (generate_cell_style float_str cell) = true.
Proof using float_str_quiet.
  intros Hname. unfold generate_cell_style.
  destruct (is_calibri cell); [done|]. destruct (is_calibri_11 cell); [done|].
  destruct (is_calibri_bordered cell); [done|].
  apply quiet_join; [done|]. apply Forall_fmap.
  eapply Forall_impl.
  - repeat (apply setdefault_quiet; [|done|done]).
    apply update_quiet; [apply update_quiet|].
    + apply border_props_quiet.
    + apply get_alignment_css_quiet.
    + by apply get_font_css_quiet.
  - intros [k v] [Hk Hv]. unfold compose. cbn [fst snd] in *.
    by rewrite !quiet_app, Hk, Hv.
Qed.

End StyleFacts.

Section RenderFacts.
Import PyText Scanner Renderer.
Variable float_str : Py.PyFloat -> string.
Variable worksheet : Sheet.Worksheet.
Variable layout : Layout.
Hypothesis float_str_quiet : forall x, quiet (float_str x) = true.
Hypothesis fonts : plain_fonts layout.

Lemma isdigit_str (n : Z) : 0 <= n -> Py.isdigit (Py.str n) = true.
Proof. intros Hn. by apply str_digits. Qed.

Lemma header_cell_yields (col : Z) (h : string) :
  header_cell layout col = Some h -> yields h [].
Proof.
  unfold header_cell. destruct (Applier.get_column_letter col) as [l|] eqn:E; [|done].
  intros [= <-]. pose proof (quiet_letters col l E) as Hl.
  unfold width_style. destruct (column_widths layout l); part.
Qed.

Lemma tr_yields (row : Z) : yields ("<tr" +:+ height_style layout row +:+ ">") [].
Proof. unfold height_style. destruct (row_heights layout row); part. Qed.

Lemma th_yields (row : Z) :
  0 <= row ->
  yields ("<th id=" +:+ q +:+ "row" +:+ Py.str row +:+ q +:+ height_style layout row
          +:+ " class=" +:+ q +:+ "row-headers-background" +:+ q +:+ ">")
         [Py.str row].
Proof.
  intros Hrow. pose proof (isdigit_str row Hrow) as Hd.
  unfold height_style. destruct (row_heights layout row); part.
Qed.

Lemma div_yields (row : Z) :
  yields ("<div class=" +:+ q +:+ "row-header-wrapper" +:+ q +:+ " style=" +:+ q
          +:+ "line-height: 18px" +:+ q +:+ ">" +:+ Py.str row +:+ "</div>") [].
Proof. part. Qed.

Lemma display_value_quiet (v : option Py.Scalar) :
  quiet (display_value float_str v) = true.
Proof. destruct v as [[| | |]|]; cbn [display_value]; auto with quiet. Qed.

Lemma style_attr_reach (cell_style : string) :
  quiet cell_style = true ->
  reach [0; 1; 2; 3]%nat (style_attr cell_style) [0; 4]%nat [].
Proof.
  intros Hs. unfold style_attr.
  destruct (String.eqb cell_style "calibri-cell"); [reaching|].
  destruct (String.eqb cell_style "calibri-cell-11"); [reaching|].
  destruct (String.eqb cell_style "calibri-cell-bordered"); reaching.
Qed.

Lemma span_attrs_reach (merge_info : option Geometry.MergeInfo) :
  Forall (fun a => reach [0; 1; 2; 3]%nat a [0; 4]%nat [])
         (span_attrs merge_info).
Proof.
  unfold span_attrs. destruct merge_info as [[colspan rowspan|]|]; try constructor.
  apply Forall_app. split.
  - destruct colspan as [n|]; [|constructor].
    destruct (n =? 0); constructor; [reaching | constructor].
  - destruct rowspan as [n|]; [|constructor].
    destruct (n =? 0); constructor; [reaching | constructor].
Qed.

(** The attributes of a cell, joined by spaces. *)
Lemma join_attrs_reach (attrs : list string) : forall a,
  reach [0; 1; 2; 3]%nat a [0; 4]%nat [] ->
  Forall (fun a => reach [0; 1; 2; 3]%nat a [0; 4]%nat []) attrs ->
  reach [0; 1; 2; 3]%nat (join " " (a :: attrs)) [0; 4]%nat [].
Proof.
  induction attrs as [|x attrs IH]; intros a Ha Hattrs; [done|].
  apply Forall_cons in Hattrs as [Hx Hattrs].
  change (join " " (a :: x :: attrs)) with (a +:+ " " +:+ join " " (x :: attrs)).
  apply (reach_app _ [0; 4]%nat _ _ _ [] []); [done|].
  apply (reach_app _ [O] _ _ _ [] []).
  - eapply reach_weaken; [apply reach_lit|]; reflexivity.
  - eapply reach_restrict; [by apply IH | reflexivity].
Qed.

Lemma cell_parts_yield (merged_ranges : gmap (Z * Z) Geometry.MergeInfo)
    (row col : Z) :
  Forall (fun p => yields p [])
         (cell_parts float_str worksheet layout merged_ranges row col).
Proof using float_str_quiet fonts.
  unfold cell_parts.
  pose proof (display_value_quiet (Sheet.cells worksheet !! (row, col))) as Hv.
  pose proof (generate_cell_style_quiet float_str float_str_quiet
                (cell_format layout row col) (fonts row col)) as Hs.
  revert Hv Hs.
  generalize (display_value float_str (Sheet.cells worksheet !! (row, col))).
  generalize (Style.generate_cell_style float_str (cell_format layout row col)).
  intros cell_style shown Hv Hs.
  assert (Hcell : forall merge_info,
            yields ("<td" +:+ (" " +:+ join " " (style_attr cell_style
                                                   :: span_attrs merge_info))
                    +:+ ">" +:+ shown +:+ "</td>") []).
  { intros merge_info.
    pose proof (join_attrs_reach _ _ (style_attr_reach cell_style Hs)
                  (span_attrs_reach merge_info)) as Hattrs.
    revert Hattrs. generalize (join " " (style_attr cell_style :: span_attrs merge_info)).
    intros attrs Hattrs. part. }
  destruct (merged_ranges !! (row, col)) as [[colspan rowspan|]|] eqn:E;
    [|constructor|]; cbv zeta; (constructor; [|constructor]); apply Hcell.
Qed.

Lemma row_parts_yield (merged_ranges : gmap (Z * Z) Geometry.MergeInfo)
    (max_col row : Z) :
  0 <= row ->
  yields (lines nl (row_parts float_str worksheet layout merged_ranges max_col row))
         [Py.str row].
Proof using float_str_quiet fonts.
  intros Hrow. unfold row_parts.
  apply (yields_lines_app _ _ [Py.str row] []).
  - apply (yields_lines_cons _ _ [] [Py.str row]); [apply tr_yields|].
    apply (yields_lines_cons _ _ [Py.str row] []); [by apply th_yields|].
    apply (yields_lines_cons _ _ [] []); [apply div_yields|].
    apply (yields_lines_cons _ _ [] []); [part | apply yields_lines_nil].
  - apply (yields_lines_app _ _ [] []).
    + apply yields_lines_silent, Forall_concat, Forall_fmap, Forall_forall.
      intros col _. apply cell_parts_yield.
    + apply (yields_lines_cons _ _ [] []); [part | apply yields_lines_nil].
Qed.

Lemma rows_yield (merged_ranges : gmap (Z * Z) Geometry.MergeInfo) (max_col : Z)
    (rows : list Z) :
  Forall (fun row => 0 <= row) rows ->
  yields (lines nl (concat (row_parts float_str worksheet layout merged_ranges max_col
                            <$> rows)))
         (Py.str <$> rows).
Proof using float_str_quiet fonts.
  induction 1 as [|row rows Hrow _ IH]; [apply yields_lines_nil|].
  rewrite !fmap_cons. cbn [concat].
  apply (yields_lines_app _ _ [Py.str row]); [by apply row_parts_yield | done].
Qed.

Lemma headers_yield (cols : list Z) (headers : list string) :
  mapM (header_cell layout) cols = Some headers ->
  Forall (fun p => yields p []) headers.
Proof.
  intros H. apply mapM_Some in H.
  induction H as [|col h cols headers Hh _ IH]; constructor; [|done].
  by apply (header_cell_yields col).
Qed.

Lemma table_parts_yield (headers : list string) :
  Forall (fun p => yields p []) headers ->
  yields
    (join nl
       ([ "<div class=" +:+ q +:+ "ritz grid-container" +:+ q +:+ " dir=" +:+ q
            +:+ "ltr" +:+ q +:+ ">";
          "<table class=" +:+ q +:+ "waffle" +:+ q +:+ " cellspacing=" +:+ q
            +:+ "0" +:+ q +:+ " cellpadding=" +:+ q +:+ "0" +:+ q +:+ ">";
          "<thead><tr>";
          "<th class=" +:+ q +:+ "row-header freezebar-origin-ltr" +:+ q
            +:+ "></th>" ]
        ++ headers
        ++ [ "</tr></thead>"; "<tbody>" ]
        ++ concat (row_parts float_str worksheet layout
                     (Geometry.find_merged_ranges worksheet) (ws_max_column layout)
                   <$> Py.range2 1 (ws_max_row layout + 1))
        ++ [ "</tbody>"; "</table>"; "</div>" ]))
    (Py.str <$> seqZ 1 (ws_max_row layout)).
Proof using float_str_quiet fonts.
  intros Hheaders.
  change [ "</tbody>"%string; "</table>"%string; "</div>"%string ]
    with ([ "</tbody>"%string; "</table>"%string ] ++ [ "</div>"%string ]).
  rewrite !app_assoc, join_snoc.
  replace (Py.str <$> seqZ 1 (ws_max_row layout))
    with ((((([] ++ []) ++ []) ++ (Py.str <$> seqZ 1 (ws_max_row layout))) ++ []) ++ []
          : list string)
    by (by rewrite !app_nil_r).
  apply yields_app; [|part].
  repeat apply yields_lines_app.
  - repeat (apply (yields_lines_cons _ _ [] []); [part|]). apply yields_lines_nil.
  - by apply yields_lines_silent.
  - repeat (apply (yields_lines_cons _ _ [] []); [part|]). apply yields_lines_nil.
  - unfold Py.range2. replace (ws_max_row layout + 1 - 1)
      with (ws_max_row layout) by lia.
    apply rows_yield, Forall_forall. intros row Hrow%elem_of_seqZ. lia.
  - repeat (apply (yields_lines_cons _ _ [] []); [part|]). apply yields_lines_nil.
Qed.

Lemma table_yields (table : string) :
  rendered_empty worksheet layout = false ->
  convert_worksheet_to_html float_str worksheet layout = Some table ->
  yields table (Py.str <$> seqZ 1 (ws_max_row layout)).
Proof using float_str_quiet fonts.
  unfold convert_worksheet_to_html, rendered_empty. intros ->. cbv zeta.
  destruct (mapM _ _) as [headers|] eqn:Hheaders; [|done].
  intros H. apply headers_yield in Hheaders.
  pose proof (table_parts_yield headers Hheaders) as Hy.
  injection H as <-. exact Hy.
Qed.

Lemma empty_table_yields :
  rendered_empty worksheet layout = true ->
  convert_worksheet_to_html float_str worksheet layout
  = Some "<p>Empty worksheet</p>"%string.
Proof. unfold convert_worksheet_to_html, rendered_empty. by intros ->. Qed.

(** The document around a table. *)
Lemma document_yields (worksheet_name base_filename table : string)
    (ds : list string) :
  yields table ds ->
  yields
    (join nl
       [ "<!DOCTYPE html>";
         "<html>";
         "<head>";
         "<meta http-equiv=" +:+ q +:+ "Content-Type" +:+ q +:+ " content=" +:+ q
           +:+ "text/html; charset=utf-8" +:+ q +:+ ">";
         "<title>" +:+ escape worksheet_name +:+ " - "
           +:+ escape base_filename +:+ "</title>";
         generate_css;
         "</head>";
         "<body>";
         "<h1>Sheet: " +:+ escape worksheet_name +:+ "</h1>";
         table;
         "</body>";
         "</html>" ])
    ds.
Proof.
  intros Htable.
  change (yields
    (join nl
       ([ "<!DOCTYPE html>"%string;
          "<html>"%string;
          "<head>"%string;
          "<meta http-equiv=" +:+ q +:+ "Content-Type" +:+ q +:+ " content=" +:+ q
            +:+ "text/html; charset=utf-8" +:+ q +:+ ">";
          "<title>" +:+ escape worksheet_name +:+ " - "
            +:+ escape base_filename +:+ "</title>";
          generate_css;
          "</head>"%string;
          "<body>"%string;
          "<h1>Sheet: " +:+ escape worksheet_name +:+ "</h1>";
          table;
          "</body>"%string ] ++ [ "</html>"%string ]))
    ds).
  rewrite join_snoc.
  replace ds with ((([] ++ [] ++ [] ++ [] ++ [] ++ [] ++ [] ++ [] ++ []
                     ++ ds ++ [] ++ []) ++ []) : list string)
    by (cbn [app]; by rewrite !app_nil_r).
  apply yields_app; [|part].
  repeat (apply yields_lines_cons; [first [exact Htable | part]|]).
  apply yields_lines_nil.
Qed.

End RenderFacts.

Section CountFacts.
Import Reconciler.

Lemma row_numbers_read_back (rows : list Z) :
  Forall (fun row => 0 <= row) rows ->
  Py.digits_value <$> (Py.str <$> rows) = rows.
Proof.
  induction 1 as [|row rows Hrow _ IH]; [done|]. rewrite !fmap_cons, IH.
  destruct (str_digits row Hrow) as [-> _]. by rewrite digits_value_str.
Qed.

Lemma largest_row (n : Z) :
  match Py.digits_value <$> (Py.str <$> seqZ 1 n) with
  | [] => 0
  | k :: row_numbers => py_max k row_numbers
  end = Z.max 0 n.
Proof.
  rewrite row_numbers_read_back.
  2:{ apply Forall_forall. intros row Hrow%elem_of_seqZ. lia. }
  destruct (Z.le_gt_cases n 0) as [Hn|Hn].
  - rewrite seqZ_nil by done. lia.
  - rewrite seqZ_cons by lia. rewrite Z.max_r by lia.
    apply Z.le_antisymm.
    + apply py_max_upper; [lia|]. apply Forall_forall.
      intros row Hrow%elem_of_seqZ. lia.
    + destruct (decide (n = 1)) as [->|Hne]; [apply py_max_lower|].
      apply py_max_ge, list_elem_of_In, elem_of_seqZ. lia.
Qed.

End CountFacts.

(** The analyzer counts in a rendered sheet the rows the converter
    rendered.  For a worksheet that is not rendered as empty, whose font
    names hold no double quote, the row markers found in the document
    are the row numbers 1 to [max_row] in order, each once, and the row
    count is [max_row]; cell texts, sheet and file names are escaped and
    cannot forge a marker. *)
Theorem rendered_rows_are_counted (float_str : Py.PyFloat -> string)
    (worksheet : Sheet.Worksheet) (layout : Renderer.Layout)
    (worksheet_name base_filename document : string) :
  (forall x, PyText.quiet (float_str x) = true) ->
  Renderer.plain_fonts layout ->
  Renderer.rendered_empty worksheet layout = false ->
  Renderer.convert_worksheet_to_separate_html float_str worksheet layout
    worksheet_name base_filename = Some document ->
  Reconciler.findall_rows document = Py.str <$> seqZ 1 (Renderer.ws_max_row layout)
  /\ Reconciler.count_html_rows document = Z.max 0 (Renderer.ws_max_row layout).
Proof.
  intros Hfloat Hfonts Hfull. unfold Renderer.convert_worksheet_to_separate_html.
  destruct (Renderer.convert_worksheet_to_html float_str worksheet layout)
    as [table|] eqn:Htable; [|done].
  intros H.
  pose proof (document_yields worksheet_name base_filename table _
                (table_yields float_str worksheet layout Hfloat Hfonts table
                   Hfull Htable)) as Hy.
  cbv beta iota delta [mbind option_bind] in H. apply (inj Some) in H.
  rewrite H in Hy. apply yields_findall in Hy.
  split; [exact Hy|]. unfold Reconciler.count_html_rows. rewrite Hy.
  apply largest_row.
Qed.

Lemma rendered_rows_are_counted_witness :
  let layout :=
    Renderer.mkLayout 5 4 (fun _ => None) (fun _ => None)
      (fun _ _ => Style.mkCell None None None) in
  exists document,
    Renderer.convert_worksheet_to_separate_html (fun _ => "0.0"%string)
      Examples.merged_sheet layout "Summary" "book" = Some document
    /\ Reconciler.findall_rows document = Py.str <$> seqZ 1 5
    /\ Reconciler.count_html_rows document = Z.max 0 5.
Proof.
  intros layout. eexists. split; [reflexivity|].
  apply (rendered_rows_are_counted (fun _ => "0.0"%string) Examples.merged_sheet
           layout "Summary" "book").
  - reflexivity.
  - intros row col f name H. discriminate H.
  - reflexivity.
  - reflexivity.
Defined.

(** A worksheet of one row and one column whose only cell is empty, or
    holds zero or the empty text, is rendered without any row: the
    analyzer counts no row in its document and the chunked run over it
    fails without a call to the reasoning service. *)
Theorem empty_sheet_is_not_analysed
    (client : string -> string -> Z -> Z -> option string)
    (json_loads : string -> option (list Reconciler.CellPatch))
    (float_str : Py.PyFloat -> string)
    (worksheet : Sheet.Worksheet) (layout : Renderer.Layout)
    (worksheet_name base_filename text : string) (chunk_size : Z) :
  Renderer.rendered_empty worksheet layout = true ->
  exists document,
    Renderer.convert_worksheet_to_separate_html float_str worksheet layout
      worksheet_name base_filename = Some document
    /\ Reconciler.count_html_rows document = 0
    /\ Reconciler.process_html_file_in_chunks client json_loads document text
         chunk_size = (false, None).
Proof.
  intros Hempty. unfold Renderer.convert_worksheet_to_separate_html.
  rewrite (empty_table_yields float_str worksheet layout Hempty).
  eexists. split; [reflexivity|].
  assert (Hy : Scanner.yields "<p>Empty worksheet</p>" []) by part.
  apply (document_yields worksheet_name base_filename) in Hy.
  apply yields_findall in Hy.
  assert (Hcount : Reconciler.count_html_rows
                     (PyText.join PyText.nl
                        [ "<!DOCTYPE html>"%string;
                          "<html>"%string;
                          "<head>"%string;
                          "<meta http-equiv=" +:+ Renderer.q +:+ "Content-Type"
                            +:+ Renderer.q +:+ " content=" +:+ Renderer.q
                            +:+ "text/html; charset=utf-8" +:+ Renderer.q +:+ ">";
                          "<title>" +:+ PyText.escape worksheet_name +:+ " - "
                            +:+ PyText.escape base_filename +:+ "</title>";
                          Renderer.generate_css;
                          "</head>"%string;
                          "<body>"%string;
                          "<h1>Sheet: " +:+ PyText.escape worksheet_name +:+ "</h1>";
                          "<p>Empty worksheet</p>"%string;
                          "</body>"%string;
                          "</html>"%string ]) = 0).
  { unfold Reconciler.count_html_rows. by rewrite Hy. }
  split; [exact Hcount|].
  unfold Reconciler.process_html_file_in_chunks. by rewrite Hcount.
Qed.

Lemma empty_sheet_is_not_analysed_witness :
  let worksheet := Sheet.mkSheet [] (<[(1, 1) := Py.SInt 0]> ∅) in
  let layout :=
    Renderer.mkLayout 1 1 (fun _ => None) (fun _ => None)
      (fun _ _ => Style.mkCell None None None) in
  exists document,
    Renderer.convert_worksheet_to_separate_html (fun _ => "0.0"%string) worksheet
      layout "Summary" "book" = Some document
    /\ Reconciler.count_html_rows document = 0
    /\ Reconciler.process_html_file_in_chunks
         (fun _ _ _ _ => Some "[]"%string) (fun _ => Some []) document "text" 30
       = (false, None).
Proof.
  intros worksheet layout.
  apply (empty_sheet_is_not_analysed (fun _ _ _ _ => Some "[]"%string)
           (fun _ => Some []) (fun _ => "0.0"%string) worksheet layout
           "Summary" "book" "text" 30).
  reflexivity.
Defined.

Section MarkupFacts.
Import PyText.

Lemma escape_no_brackets (s : string) :
  Py.all_chars (fun ch => negb (Reading.in_chars ch "<>")) (escape s) = true.
Proof.
  unfold escape.
  rewrite (replace_char "'"), (replace_char Py.dquote), (replace_char ">"),
    (replace_char "<").
  apply (all_chars_subst (fun ch => negb (Reading.in_chars ch "<>"))).
  { intros a Ha. destruct (Ascii.eqb a "'"); [done|].
    cbn [Py.all_chars]. by rewrite Ha. }
  apply (all_chars_subst (fun ch => negb (Reading.in_chars ch "<>"))).
  { intros a Ha. destruct (Ascii.eqb a Py.dquote); [done|].
    cbn [Py.all_chars]. by rewrite Ha. }
  apply (all_chars_subst (fun ch => negb (Ascii.eqb ch "<"))).
  { intros a Ha. destruct (Ascii.eqb a ">") eqn:E; [done|].
    cbn [Py.all_chars]. unfold Reading.in_chars. cbn [Py.all_chars] in *.
    apply negb_true_iff in Ha. by rewrite Ha, E. }
  apply (all_chars_subst (fun _ => true)).
  { intros a _. destruct (Ascii.eqb a "<") eqn:E; [done|].
    cbn [Py.all_chars]. by rewrite E. }
  generalize (Py.replace "&" "&amp;" s). intros t. by induction t.
Qed.

Lemma digits_no_brackets (d : string) :
  Py.all_chars Py.is_digit d = true ->
  Py.all_chars (fun ch => negb (Reading.in_chars ch "<>")) d = true.
Proof.
  apply all_chars_impl. intros a Ha.
  destruct a as [[] [] [] [] [] [] [] []]; try discriminate Ha; reflexivity.
Qed.

Lemma str_no_brackets (z : Z) :
  Py.all_chars (fun ch => negb (Reading.in_chars ch "<>")) (Py.str z) = true.
Proof.
  unfold Py.str, Py.str_of_nonneg.
  destruct (z <? 0); [cbn [Py.all_chars]; apply andb_true_iff; split; [done|]|];
    apply digits_no_brackets, string_of_uint_digits.
Qed.

Lemma join_first (sep : string) (p : string) (rest : list string) :
  exists tail, join sep (p :: rest) = p +:+ tail.
Proof.
  destruct rest as [|p' rest]; cbn [join].
  - exists EmptyString. by rewrite append_empty_r.
  - by eexists.
Qed.

Lemma setdefault_nonempty (props : Style.Props) (key value : string) :
  Style.setdefault props key value <> [].
Proof.
  unfold Style.setdefault. destruct (existsb _ props) eqn:E.
  - by destruct props.
  - by destruct props.
Qed.

End MarkupFacts.

(** The renderer tells a class name from an inline style by comparing
    texts, and the comparison cannot go wrong: a cell gets a class
    attribute exactly when it is of one of the three recognised kinds, in
    the order in which they are tested, and a style attribute with its
    inline style otherwise. *)
Theorem style_attribute_dispatch (float_str : Py.PyFloat -> string)
    (cell : Style.Cell) :
  Renderer.style_attr (Style.generate_cell_style float_str cell)
  = if Style.is_calibri cell
    then "class=" +:+ Renderer.q +:+ "calibri-cell" +:+ Renderer.q
    else if Style.is_calibri_11 cell
    then "class=" +:+ Renderer.q +:+ "calibri-cell-11" +:+ Renderer.q
    else if Style.is_calibri_bordered cell
    then "class=" +:+ Renderer.q +:+ "calibri-cell-bordered" +:+ Renderer.q
    else "style=" +:+ Renderer.q +:+ Style.generate_cell_style float_str cell
         +:+ Renderer.q.
Proof.
  unfold Style.generate_cell_style.
  destruct (Style.is_calibri cell); [done|].
  destruct (Style.is_calibri_11 cell); [done|].
  destruct (Style.is_calibri_bordered cell); [done|]. cbv zeta.
  set (props := Style.setdefault _ "padding" _).
  assert (Hcolon : Py.all_chars (fun ch => negb (Ascii.eqb ch ":"))
                     (PyText.join "; " ((fun kv => fst kv +:+ ": " +:+ snd kv)
                                        <$> props)) = false).
  { pose proof (setdefault_nonempty
                  (Style.setdefault
                     (Style.setdefault
                        (Style.update
                           (Style.update (Style.border_props cell)
                              (Style.get_alignment_css (Style.alignment cell)))
                           (Style.get_font_css float_str (Style.font cell)))
                        "color" "#000000") "direction" "ltr")
                  "padding" "0px 3px 0px 3px") as Hne.
    fold props in Hne. destruct props as [|[k v] rest]; [done|].
    rewrite fmap_cons. cbn [fst snd].
    destruct (join_first "; " (k +:+ ": " +:+ v)
                ((fun kv => fst kv +:+ ": " +:+ snd kv) <$> rest)) as [tail ->].
    rewrite !all_chars_append. cbn [Py.all_chars].
    by rewrite andb_false_r. }
  revert Hcolon.
  generalize (PyText.join "; " ((fun kv => fst kv +:+ ": " +:+ snd kv) <$> props)).
  intros inline Hcolon. unfold Renderer.style_attr.
  destruct (String.eqb_spec inline "calibri-cell") as [->|_]; [done|].
  destruct (String.eqb_spec inline "calibri-cell-11") as [->|_]; [done|].
  by destruct (String.eqb_spec inline "calibri-cell-bordered") as [->|_].
Qed.

(** What is written between the tags of a cell cannot open or close a
    tag and cannot close an attribute: it holds no angle bracket and no
    double quote, whatever the cell holds, as long as the text of a float
    holds none. *)
Theorem cell_text_cannot_inject_markup (float_str : Py.PyFloat -> string)
    (cell_value : option Py.Scalar) :
  (forall x, Py.all_chars (fun ch => negb (Reading.in_chars ch "<>"))
               (float_str x) = true
             /\ PyText.quiet (float_str x) = true) ->
  let text := Renderer.display_value float_str cell_value in
  Py.all_chars (fun ch => negb (Reading.in_chars ch "<>")) text = true
  /\ PyText.quiet text = true.
Proof.
  intros Hfloat text. subst text.
  destruct cell_value as [[|z|x|s]|]; cbn [Renderer.display_value]; try done.
  - split; [apply str_no_brackets | apply quiet_str].
  - split; [apply escape_no_brackets | apply quiet_escape].
Qed.

Lemma cell_text_cannot_inject_markup_witness :
  let text :=
    Renderer.display_value (fun _ => "0.0"%string) (Some (Py.SStr "<b>1 & 2</b>")) in
  Py.all_chars (fun ch => negb (Reading.in_chars ch "<>")) text = true
  /\ PyText.quiet text = true.
Proof.
  apply (cell_text_cannot_inject_markup (fun _ => "0.0"%string)
           (Some (Py.SStr "<b>1 & 2</b>"))).
  intros x. split; reflexivity.
Defined.

(** ** Sheets that share a file name, sheets without a patch set *)

Section Collisions.
Import Naming Reading.

Lemma rstrip_by_none (p : ascii -> bool) (s : string) :
  Py.all_chars (fun a => negb (p a)) s = true -> Py.rstrip_by p s = s.
Proof.
  induction s as [|a s IH]; [done|]. cbn [Py.all_chars Py.rstrip_by].
  intros [Ha Hs]%andb_true_iff. rewrite (IH Hs). apply negb_true_iff in Ha.
  destruct s; [by rewrite Ha | done].
Qed.

Lemma strip_fixed_rstrip (s : string) :
  Py.strip s = s -> Py.rstrip_by Py.is_space s = s.
Proof.
  unfold Py.strip, Py.strip_by. intros H.
  rewrite <- H at 1. by rewrite rstrip_by_idem.
Qed.

Lemma underscored_kept (s : string) :
  Py.all_chars kept_char s = true ->
  Py.all_chars (fun a => kept_char a && negb (Py.is_space a))
               (subst_chars space_to_underscore s) = true.
Proof.
  apply all_chars_subst. intros a Ha. unfold space_to_underscore, space_char.
  destruct (Ascii.eqb_spec a " ") as [->|Hne]; [done|].
  cbn [Py.all_chars]. rewrite Ha.
  destruct a as [[] [] [] [] [] [] [] []]; try discriminate Ha; try done.
Qed.

Lemma put_sheet_other (workbook : Applier.Workbook) (name other : string)
    (worksheet' : Sheet.Worksheet) :
  name <> other ->
  Applier.get_sheet (Applier.put_sheet workbook name worksheet') other
  = Applier.get_sheet workbook other.
Proof.
  intros Hne. induction workbook as [|[name0 ws0] workbook IH]; [done|].
  cbn [Applier.put_sheet]. destruct (String.eqb_spec name0 name) as [->|Hn].
  - cbn [Applier.get_sheet]. by destruct (String.eqb_spec name other).
  - cbn [Applier.get_sheet]. by rewrite IH.
Qed.

Lemma visit_sheet_other (output_path : string -> Applier.JsonFile)
    (workbook_name : string) (run : Applier.Run) (visited sheet_name : string) :
  Applier.is_patch_set (output_path (Applier.json_filename workbook_name sheet_name))
  = false ->
  Applier.get_sheet
    (Applier.workbook (Applier.visit_sheet output_path workbook_name run visited))
    sheet_name
  = Applier.get_sheet (Applier.workbook run) sheet_name.
Proof.
  intros Hfile. unfold Applier.visit_sheet.
  destruct (output_path (Applier.json_filename workbook_name visited)) as [| |d|l|]
    eqn:E; try done.
  - assert (visited <> sheet_name) as Hne by (intros ->; by rewrite E in Hfile).
    unfold Applier.apply_patch_set, Applier.update_excel_sheet.
    destruct (Applier.get_sheet (Applier.workbook run) visited); [|done].
    destruct (Applier.update_cells _ _). cbn [Applier.workbook].
    by apply put_sheet_other.
  - assert (visited <> sheet_name) as Hne by (intros ->; by rewrite E in Hfile).
    unfold Applier.apply_patch_set, Applier.update_excel_sheet.
    destruct (Applier.get_sheet (Applier.workbook run) visited); [|done].
    destruct (Applier.update_cells _ _). cbn [Applier.workbook].
    by apply put_sheet_other.
Qed.

Lemma fold_visit_other (output_path : string -> Applier.JsonFile)
    (workbook_name sheet_name : string) (sheet_names : list string) :
  Applier.is_patch_set (output_path (Applier.json_filename workbook_name sheet_name))
  = false ->
  forall run,
    Applier.get_sheet
      (Applier.workbook
         (fold_left (Applier.visit_sheet output_path workbook_name) sheet_names run))
      sheet_name
    = Applier.get_sheet (Applier.workbook run) sheet_name.
Proof.
  intros Hfile. induction sheet_names as [|visited rest IH]; intros run; [done|].
  cbn [fold_left]. rewrite IH. by apply visit_sheet_other.
Qed.

End Collisions.

(** Two sheets of a workbook whose names differ only in that one has
    underscores where the other has spaces are rendered to the same file
    and get the same patch set: for a name of letters, digits, spaces,
    hyphens and underscores without a space at either end, the name with
    its spaces turned into underscores has the same rendered file name
    and the same patch-set file name. *)
Theorem space_and_underscore_names_collide (base_filename sheet_name : string) :
  Py.all_chars Naming.kept_char sheet_name = true ->
  Py.strip sheet_name = sheet_name ->
  let other := Py.replace " " "_" sheet_name in
  Naming.html_filename base_filename other
  = Naming.html_filename base_filename sheet_name
  /\ Applier.json_filename base_filename other
     = Applier.json_filename base_filename sheet_name.
Proof.
  intros Hkept Hstrip other.
  pose proof (underscored_kept sheet_name Hkept) as Hother.
  rewrite <- replace_space in Hother. fold other in Hother.
  assert (Hk : Py.all_chars Naming.kept_char other = true).
  { eapply all_chars_impl; [|exact Hother]. by intros a [? _]%andb_true_iff. }
  assert (Hw : Py.all_chars (fun a => negb (Py.is_space a)) other = true).
  { eapply all_chars_impl; [|exact Hother]. by intros a [_ ?]%andb_true_iff. }
  assert (Hfixed : Py.replace " " "_" other = other).
  { rewrite replace_space.
    apply (subst_chars_fixed _ (fun a => negb (Py.is_space a))); [|done].
    intros a Ha. unfold Naming.space_to_underscore, Naming.space_char.
    destruct (Ascii.eqb_spec a " ") as [->|]; done. }
  split.
  - unfold Naming.html_filename, Naming.safe_worksheet_name.
    rewrite !filter_chars_all by done.
    rewrite (rstrip_by_none Py.is_space other Hw), Hfixed.
    by rewrite (strip_fixed_rstrip sheet_name Hstrip).
  - unfold Applier.json_filename, Applier.clean_sheet_name_for_json.
    rewrite Hstrip. unfold Py.strip. rewrite (strip_by_none Py.is_space other Hw).
    by rewrite Hfixed.
Qed.

Lemma space_and_underscore_names_collide_witness :
  let other := Py.replace " " "_" "Q1 totals" in
  Naming.html_filename "book" other = Naming.html_filename "book" "Q1 totals"
  /\ Applier.json_filename "book" other = Applier.json_filename "book" "Q1 totals".
Proof.
  apply (space_and_underscore_names_collide "book" "Q1 totals"); reflexivity.
Defined.

(** A sheet for which the output folder holds no patch set (no file, an
    unreadable one, or one that is neither an object nor an array) is in
    the saved workbook as it was in the workbook read, whatever the patch
    sets of the other sheets. *)
Theorem sheets_without_patch_set_are_untouched
    (output_path : string -> Applier.JsonFile) (workbook_name : string)
    (workbook saved : Applier.Workbook) (sheet_name : string) :
  Applier.is_patch_set (output_path (Applier.json_filename workbook_name sheet_name))
  = false ->
  fst (Applier.update_workbook output_path workbook_name workbook) = Some saved ->
  Applier.get_sheet saved sheet_name = Applier.get_sheet workbook sheet_name.
Proof.
  intros Hfile. unfold Applier.update_workbook.
  pose proof (fold_visit_other output_path workbook_name sheet_name
                (fst <$> workbook) Hfile (Applier.mkRun workbook false 0)) as H.
  destruct (Applier.workbook_updated _); [|done].
  cbn [fst]. by intros [= <-].
Qed.

Lemma sheets_without_patch_set_are_untouched_witness :
  let workbook :=
    [("Summary"%string, Examples.summary_sheet);
     ("Notes"%string, Examples.merged_sheet)] in
  exists saved,
    fst (Applier.update_workbook Examples.folder_with_empty_patch_set "book" workbook)
    = Some saved
    /\ Applier.get_sheet saved "Notes" = Applier.get_sheet workbook "Notes".
Proof.
  intros workbook. eexists. split; [reflexivity|].
  apply (sheets_without_patch_set_are_untouched Examples.folder_with_empty_patch_set
           "book" workbook); reflexivity.
Defined.
